(** * Memo routes of memos-cloudflare: a shallow embedding and its properties

    The development follows [src/backend/src/routes/memo.ts].  The D1
    (SQLite) database is an explicit state; every route handler is a
    function from the request and the store to a response and the store
    after the request.  Handlers run their statements one after the other,
    so a handler is the composition of the statements' effects.

    Requests are well typed: a body field, when present, has the type the
    handler expects, and ids, [limit] and [offset] are integers.  The
    statements of the store succeed, so no handler reaches its [catch]
    branch and its "Internal server error". *)

From Stdlib Require Import Ascii.
From stdpp Require Import base option list strings numbers gmap sorting pretty.

Local Open Scope string_scope.
Local Open Scope list_scope.
Local Open Scope Z_scope.

(** ** The store

    Modelled from the spec: the schema of the database, which is not part
    of the sources at hand.  The columns are those that the statements of
    [memo.ts] name.  [id] is the integer primary key of [user], [memo],
    [resource] and [tag] (a creation reads the id of the new memo from
    [last_row_id]), so these tables are finite maps from the id to the
    other columns.  The link tables [memo_resource] and [memo_tag] have no
    key of their own: they are lists of rows in insertion order, in which
    a link may occur more than once (duplicate association rows are
    acceptable to the spec). *)

Module User.
Record row := Row { uid : string; username : string }.
End User.

Module Memo.
Record row := Row {
  uid : string;
  creator_id : Z;
  content : string;
  visibility : string;
  row_status : string;
  created_ts : Z;
  updated_ts : Z
}.
End Memo.

Module Resource.
Record row := Row {
  uid : string;
  filename : string;
  type : string;
  size : Z;
  external_link : string;
  created_ts : Z
}.
End Resource.

Record DB := MkDB {
  user : gmap Z User.row;
  memo : gmap Z Memo.row;
  resource : gmap Z Resource.row;
  memo_resource : list (Z * Z);      (* (memo_id, resource_id) *)
  tag : gmap Z string;               (* id -> name *)
  memo_tag : list (Z * Z)            (* (memo_id, tag_id) *)
}.

Definition set_memo (f : gmap Z Memo.row → gmap Z Memo.row) (db : DB) : DB :=
  MkDB (user db) (f (memo db)) (resource db) (memo_resource db)
       (tag db) (memo_tag db).

Definition set_memo_resource (f : list (Z * Z) → list (Z * Z)) (db : DB) : DB :=
  MkDB (user db) (memo db) (resource db) (f (memo_resource db))
       (tag db) (memo_tag db).

Definition set_tags (t : gmap Z string * list (Z * Z)) (db : DB) : DB :=
  MkDB (user db) (memo db) (resource db) (memo_resource db) t.1 t.2.

(** [SELECT ... WHERE col = ?] followed by [.first()]: the first row of a
    scan that satisfies the condition.  The order of the scan is the
    store's; it matters only when several rows satisfy the condition. *)
Definition first_where {A} (P : Z * A → Prop) `{!∀ x, Decision (P x)}
    (t : gmap Z A) : option (Z * A) :=
  head (filter P (map_to_list t)).

(** ** Requests, views and responses *)

(** The verified principal of a request, as the authentication middleware
    leaves it in the context ([c.get('user')]); absent for anonymous calls. *)
Record UserPayload := MkUserPayload {
  sub : string;
  username : string;
  role : string
}.

(** One element of the [resources] array of a body; only [name] is read. *)
Record ResourceRef := MkResourceRef { name : option string }.

(** The JSON body of a create or update request.  A field is [None] when it
    is absent from the body ([undefined] after destructuring). *)
Record Body := MkBody {
  content : option string;
  visibility : option string;
  resourceIdList : option (list Z);
  resources : option (list ResourceRef)
}.

(** The query parameters of the list route; [searchParams.get] gives [null]
    for a missing parameter.  [limit] and [offset] are the integers that
    [parseInt] reads. *)
Record ListQuery := MkListQuery {
  q_rowStatus : option string;
  q_creatorId : option string;
  q_tag : option string;
  q_visibility : option string;
  q_limit : option Z;
  q_offset : option Z
}.

Module ResourceView.
Record t := Mk {
  name : string;
  uid : string;
  createTime : string;
  filename : string;
  content : list Z;
  externalLink : string;
  type : string;
  size : Z;
  memo : string
}.
End ResourceView.

Module MemoView.
Record t := Mk {
  id : Z;
  uid : string;
  creatorId : Z;
  content : string;
  visibility : string;
  rowStatus : string;
  createdTs : Z;
  updatedTs : Z;
  resourceIdList : list Z;
  resources : list ResourceView.t;
  tags : list string
}.
End MemoView.

(** What a handler passes to [c.json]. *)
Inductive response :=
  | JsonMemo (v : option MemoView.t)
  | JsonMemos (vs : list (option MemoView.t))
  | JsonStats (total : Z) (dailyHistogram : list (Z * Z))
  | JsonMessage (message : string) (status : Z).

Definition Unauthorized := JsonMessage "Unauthorized" 401.
Definition Forbidden := JsonMessage "Forbidden" 403.
Definition MemoNotFound := JsonMessage "Memo not found" 404.
Definition UserNotFound := JsonMessage "User not found" 404.
Definition ContentRequired := JsonMessage "Content is required" 400.
Definition MemoDeleted := JsonMessage "Memo deleted successfully" 200.

(** ** What the runtime and the store engine provide

    These functions belong to the JavaScript runtime and to SQLite, not to
    the repository; the handlers are parametric in them. *)
Class Platform := {
  (** [new Date(ms).toISOString()] *)
  toISOString : Z → string;
  (** SQLite's [DATE(ts, 'unixepoch')]: the text of the calendar date *)
  DATE_unixepoch : Z → string;
  (** [new Date(text).getTime()], in milliseconds *)
  Date_getTime : string → Z;
  (** SQLite's [col = ?] for an integer column and a bound text value *)
  int_eq_text : Z → string → bool
}.

(** Modelled from the spec: [updateMemoTags] of [../utils], which is not
    part of the sources at hand.  The tag synchronizer reads the memo id,
    the user id and the content, and rewrites the tag index only (the [tag]
    and [memo_tag] tables).  Its callers catch and log whatever it throws,
    so all that matters to them is the tag index it leaves behind. *)
Definition TagSync : Type :=
  gmap Z string * list (Z * Z) → Z → Z → string → gmap Z string * list (Z * Z).

(** ** Small pieces of JavaScript and SQL *)

(** [s.split(sep)] for a one-character separator. *)
Fixpoint split (sep : Ascii.ascii) (s : string) : list string :=
  match s with
  | EmptyString => [""]
  | String c s' =>
      if decide (c = sep) then "" :: split sep s'
      else match split sep s' with
           | seg :: segs => String c seg :: segs
           | [] => [String c ""]
           end
  end.

(** A string that JavaScript takes for true: [Some] of it, and [None] for
    a missing or empty one.  [x || d] is then [default d (nonempty x)]. *)
Definition nonempty (s : option string) : option string :=
  s ≫= λ s, if decide (s = "") then None else Some s.

(** The row id SQLite gives to the next row of a table ([last_row_id] after
    the insert): one more than the largest id in use, 1 in an empty table. *)
Definition next_rowid {A} (t : gmap Z A) : Z :=
  match (map_to_list t).*1 with
  | [] => 1
  | k :: ks => 1 + foldr Z.max k ks
  end.

(** [LIMIT ? OFFSET ?]: a negative limit lifts the bound, a negative offset
    skips nothing. *)
Definition limit_offset {A} (limit offset : Z) (rows : list A) : list A :=
  let rest := drop (Z.to_nat offset) rows in
  if bool_decide (limit < 0) then rest else take (Z.to_nat limit) rest.

(** [ORDER BY m.created_ts DESC] *)
Definition created_desc (a b : Z * Memo.row) : Prop :=
  Memo.created_ts b.2 ≤ Memo.created_ts a.2.

Global Instance created_desc_dec a b : Decision (created_desc a b).
Proof. unfold created_desc. apply _. Defined.

(** [ORDER BY date DESC] on the text of the dates *)
Definition date_desc (a b : string) : Prop := String.le b a.

Global Instance date_desc_dec a b : Decision (date_desc a b).
Proof. unfold date_desc. apply _. Defined.

(** [COUNT( * )] of the rows of a group *)
Definition count_of `{EqDecision A} (x : A) (l : list A) : Z :=
  Z.of_nat (length (filter (λ y, y = x) l)).

(** The conditions the list route adds to its [WHERE] clause, each with
    the parameter bound to it. *)
Inductive cond :=
  | RowStatusIs (p : string)      (* m.row_status = ? *)
  | CreatorIdIs (p : string)      (* m.creator_id = ? *)
  | VisibilityIs (p : string)     (* m.visibility = ? *)
  | HasTag (p : string).          (* EXISTS (... memo_tag JOIN tag ...) *)

(** [EXISTS (SELECT 1 FROM memo_tag mt JOIN tag t ON mt.tag_id = t.id
    WHERE mt.memo_id = m.id AND t.name = ?)] *)
Definition has_tag (db : DB) (memoId : Z) (p : string) : Prop :=
  Exists (λ mt : Z * Z, mt.1 = memoId ∧ tag db !! mt.2 = Some p) (memo_tag db).

Global Instance has_tag_dec db memoId p : Decision (has_tag db memoId p).
Proof. unfold has_tag. apply _. Defined.

(** The assignments of the [SET] list. *)
Inductive assignment :=
  | SetContent (v : string)
  | SetVisibility (v : string)
  | SetUpdatedTs (v : Z).

Definition assign (m : Memo.row) (a : assignment) : Memo.row :=
  match a with
  | SetContent v =>
      Memo.Row (Memo.uid m) (Memo.creator_id m) v (Memo.visibility m)
               (Memo.row_status m) (Memo.created_ts m) (Memo.updated_ts m)
  | SetVisibility v =>
      Memo.Row (Memo.uid m) (Memo.creator_id m) (Memo.content m) v
               (Memo.row_status m) (Memo.created_ts m) (Memo.updated_ts m)
  | SetUpdatedTs v =>
      Memo.Row (Memo.uid m) (Memo.creator_id m) (Memo.content m)
               (Memo.visibility m) (Memo.row_status m) (Memo.created_ts m) v
  end.

(** The rows that the statistics count. *)
Definition normal_public (m : Z * Memo.row) : Prop :=
  Memo.row_status m.2 = "NORMAL" ∧ Memo.visibility m.2 = "PUBLIC".

Global Instance normal_public_dec m : Decision (normal_public m).
Proof. unfold normal_public. apply _. Defined.

(** The rows of the daily statistics: those that the statistics count and
    that were created after the cutoff ([created_ts > ?]). *)
Definition recent (cutoff : Z) (m : Z * Memo.row) : Prop :=
  normal_public m ∧ cutoff < Memo.created_ts m.2.

Global Instance recent_dec cutoff m : Decision (recent cutoff m).
Proof. unfold recent. apply _. Defined.

Section routes.
Context `{Platform} (updateMemoTags : TagSync).

(** [getUserIdFromUid] *)
Definition getUserIdFromUid (db : DB) (uid : string) : option Z :=
  fst <$> first_where (λ x, User.uid x.2 = uid) (user db).

(** [SELECT m.*, u.username ... FROM memo m JOIN user u
    ON m.creator_id = u.id WHERE m.id = ?] *)
Definition select_memo (db : DB) (memoId : Z) : option (Memo.row * string) :=
  m ← memo db !! memoId;
  u ← user db !! Memo.creator_id m;
  Some (m, User.username u).

(** [FROM resource r JOIN memo_resource mr ON r.id = mr.resource_id
    WHERE mr.memo_id = ?] *)
Definition select_resources (db : DB) (memoId : Z) : list (Z * Resource.row) :=
  omap (λ mr : Z * Z,
          if decide (mr.1 = memoId)
          then (λ r, (mr.2, r)) <$> resource db !! mr.2
          else None)
       (memo_resource db).

(** [FROM tag t JOIN memo_tag mt ON t.id = mt.tag_id WHERE mt.memo_id = ?] *)
Definition select_tags (db : DB) (memoId : Z) : list string :=
  omap (λ mt : Z * Z,
          if decide (mt.1 = memoId) then tag db !! mt.2 else None)
       (memo_tag db).

Definition resource_view (memoId : Z) (r : Z * Resource.row) : ResourceView.t :=
  ResourceView.Mk
    ("resources/" +:+ Resource.uid r.2)
    (Resource.uid r.2)
    (toISOString (Resource.created_ts r.2 * 1000))
    (Resource.filename r.2)
    []
    ""
    (Resource.type r.2)
    (Resource.size r.2)
    ("memos/" +:+ pretty memoId).

(** [getMemoWithDetails] *)
Definition getMemoWithDetails (db : DB) (memoId : Z) : option MemoView.t :=
  match select_memo db memoId with
  | None => None
  | Some (m, _) =>
      let rs := select_resources db memoId in
      Some (MemoView.Mk
              memoId
              (Memo.uid m)
              (Memo.creator_id m)
              (Memo.content m)
              (Memo.visibility m)
              (Memo.row_status m)
              (Memo.created_ts m)
              (Memo.updated_ts m)
              (fst <$> rs)
              (resource_view memoId <$> rs)
              (select_tags db memoId))
  end.

(** *** Resource resolution (create and update share it) *)

(** [resource.name?.split('/').pop()] *)
Definition resourceUid (r : ResourceRef) : option string :=
  name r ≫= λ n, last (split "/"%char n).

(** One round of the loop over [resources]: look the uid up and push the
    id of the row found onto [resourceIds]. *)
Definition resolve_step (db : DB) (resourceIds : list Z) (r : ResourceRef) : list Z :=
  match nonempty (resourceUid r) with
  | Some resourceUid =>
      match first_where (λ x, Resource.uid x.2 = resourceUid) (resource db) with
      | Some dbResource => resourceIds ++ [dbResource.1]
      | None => resourceIds
      end
  | None => resourceIds
  end.

Definition resolve_resources (db : DB) (resources : list ResourceRef) : list Z :=
  foldl (resolve_step db) [] resources.

(** The loop of [INSERT INTO memo_resource (memo_id, resource_id)]. *)
Definition insert_memo_resources (memoId : Z) (ids : list Z) (db : DB) : DB :=
  foldl (λ db resourceId,
           set_memo_resource (λ t, (t ++ [(memoId, resourceId)])%list) db)
        db ids.

Definition run_updateMemoTags (memoId userId : Z) (content : string) (db : DB) : DB :=
  set_tags (updateMemoTags (tag db, memo_tag db) memoId userId content) db.

(** *** [memoRoutes.post('/')] *)

Definition create_final_ids (db : DB) (body : Body) : list Z :=
  let resourceIdList := default [] (resourceIdList body) in
  let resources := default [] (resources body) in
  if bool_decide (0 < length resources)%nat
  then resolve_resources db resources
  else resourceIdList.

Definition post_memo (now_ms : Z) (memoUid : string)
    (userPayload : option UserPayload) (body : Body) (db : DB) : response * DB :=
  match userPayload with
  | None => (Unauthorized, db)
  | Some userPayload =>
      match nonempty (content body) with
      | None => (ContentRequired, db)
      | Some content =>
          let visibility := default "PRIVATE" (visibility body) in
          let now := now_ms `div` 1000 in
          match getUserIdFromUid db (sub userPayload) with
          | None => (UserNotFound, db)
          | Some user_id =>
              let memoId := next_rowid (memo db) in
              let db := set_memo (insert memoId
                          (Memo.Row memoUid user_id content visibility
                                    "NORMAL" now now)) db in
              let finalResourceIdList := create_final_ids db body in
              let db := insert_memo_resources memoId finalResourceIdList db in
              let db := run_updateMemoTags memoId user_id content db in
              (JsonMemo (getMemoWithDetails db memoId), db)
          end
      end
  end.

(** *** [memoRoutes.get('/:id')] *)

Definition get_memo (userPayload : option UserPayload) (memoId : Z) (db : DB)
    : response :=
  match select_memo db memoId with
  | None => MemoNotFound
  | Some (memo, _) =>
      if bool_decide (Memo.visibility memo = "PRIVATE")
         && match userPayload with
            | None => true
            | Some userPayload =>
                bool_decide (Some (Memo.creator_id memo)
                             ≠ getUserIdFromUid db (sub userPayload))
            end
      then Forbidden
      else JsonMemo (getMemoWithDetails db memoId)
  end.

(** *** [memoRoutes.patch('/:id')] *)

Definition patch_updates (now : Z) (body : Body) : list assignment :=
  match content body with Some c => [SetContent c] | None => [] end
  ++ match visibility body with Some v => [SetVisibility v] | None => [] end
  ++ [SetUpdatedTs now].

Definition patch_final_ids (db : DB) (body : Body) : option (list Z) :=
  let resources := default [] (resources body) in
  if bool_decide (0 < length resources)%nat
  then Some (resolve_resources db resources)
  else resourceIdList body.

Definition patch_memo (now_ms : Z) (userPayload : option UserPayload)
    (memoId : Z) (body : Body) (db : DB) : response * DB :=
  match userPayload with
  | None => (Unauthorized, db)
  | Some userPayload =>
      match memo db !! memoId with
      | None => (MemoNotFound, db)
      | Some memo =>
          let userId := getUserIdFromUid db (sub userPayload) in
          if bool_decide (Some (Memo.creator_id memo) ≠ userId)
             && bool_decide (role userPayload ≠ "HOST")
          then (Forbidden, db)
          else
            let now := now_ms `div` 1000 in
            let updates := patch_updates now body in
            let db :=
              if bool_decide (1 < length updates)%nat
              then set_memo (alter (λ m, foldl assign m updates) memoId) db
              else db in
            let db :=
              match patch_final_ids db body with
              | Some finalResourceIdList =>
                  insert_memo_resources memoId finalResourceIdList
                    (set_memo_resource (filter (λ mr, mr.1 ≠ memoId)) db)
              | None => db
              end in
            let db :=
              match content body, userId with
              | Some content, Some userId =>
                  if bool_decide (userId ≠ 0)
                  then run_updateMemoTags memoId userId content db
                  else db
              | _, _ => db
              end in
            (JsonMemo (getMemoWithDetails db memoId), db)
      end
  end.

(** *** [memoRoutes.delete('/:id')] *)

Definition archive (now : Z) (m : Memo.row) : Memo.row :=
  Memo.Row (Memo.uid m) (Memo.creator_id m) (Memo.content m)
           (Memo.visibility m) "ARCHIVED" (Memo.created_ts m) now.

Definition delete_memo (now_ms : Z) (userPayload : option UserPayload)
    (memoId : Z) (db : DB) : response * DB :=
  match userPayload with
  | None => (Unauthorized, db)
  | Some userPayload =>
      match memo db !! memoId with
      | None => (MemoNotFound, db)
      | Some memo =>
          let userId := getUserIdFromUid db (sub userPayload) in
          if bool_decide (Some (Memo.creator_id memo) ≠ userId)
             && bool_decide (role userPayload ≠ "HOST")
          then (Forbidden, db)
          else
            let now := now_ms `div` 1000 in
            (MemoDeleted, set_memo (alter (archive now) memoId) db)
      end
  end.

(** *** [memoRoutes.get('/')] *)

(** The clause the handler builds up, condition by condition. *)
Definition whereClause (q : ListQuery) : list cond :=
  let rowStatus := default "NORMAL" (nonempty (q_rowStatus q)) in
  [RowStatusIs rowStatus]
  ++ match nonempty (q_creatorId q) with
     | Some creatorId => [CreatorIdIs creatorId]
     | None => []
     end
  ++ match nonempty (q_visibility q) with
     | Some visibility => [VisibilityIs visibility]
     | None =>
         match nonempty (q_creatorId q) with
         | Some _ => []
         | None => [VisibilityIs "PUBLIC"]
         end
     end
  ++ match nonempty (q_tag q) with
     | Some tag => [HasTag tag]
     | None => []
     end.

(** Whether a memo row satisfies one condition. *)
Definition holds (db : DB) (m : Z * Memo.row) (c : cond) : bool :=
  match c with
  | RowStatusIs p => bool_decide (Memo.row_status m.2 = p)
  | CreatorIdIs p => int_eq_text (Memo.creator_id m.2) p
  | VisibilityIs p => bool_decide (Memo.visibility m.2 = p)
  | HasTag p => bool_decide (has_tag db m.1 p)
  end.

(** [FROM memo m JOIN user u ON m.creator_id = u.id] *)
Definition memo_join_user (db : DB) : list (Z * Memo.row) :=
  filter (λ m, is_Some (user db !! Memo.creator_id m.2))
         (map_to_list (memo db)).

Definition select_memos (db : DB) (q : ListQuery) : list (Z * Memo.row) :=
  let limit := default 50 (q_limit q) in
  let offset := default 0 (q_offset q) in
  limit_offset limit offset
    (merge_sort created_desc
       (filter (λ m, forallb (holds db m) (whereClause q))
               (memo_join_user db))).

Definition get_memos (q : ListQuery) (db : DB) : response :=
  JsonMemos ((λ memo : Z * Memo.row, getMemoWithDetails db memo.1)
             <$> select_memos db q).

(** *** [memoRoutes.get('/stats')] *)

(** [SELECT DATE(created_ts, 'unixepoch') as date, COUNT( * ) as count ...
    GROUP BY DATE(created_ts, 'unixepoch') ORDER BY date DESC] *)
Definition select_dailyStats (db : DB) (thirtyDaysAgo : Z) : list (string * Z) :=
  let dates :=
    (λ m : Z * Memo.row, DATE_unixepoch (Memo.created_ts m.2))
    <$> filter (recent thirtyDaysAgo) (map_to_list (memo db)) in
  (λ date, (date, count_of date dates))
  <$> merge_sort date_desc (remove_dups dates).

Definition get_stats (now_ms : Z) (db : DB) : response :=
  let total :=
    Z.of_nat (length (filter normal_public (map_to_list (memo db)))) in
  let thirtyDaysAgo := now_ms `div` 1000 - 30 * 24 * 60 * 60 in
  let dailyStats := select_dailyStats db thirtyDaysAgo in
  let dailyHistogram :=
    (λ row : string * Z, (Date_getTime row.1 `div` 1000, row.2))
    <$> dailyStats in
  JsonStats total dailyHistogram.

End routes.

(** ** A reference platform and a small store

    A runtime to instantiate [Platform] with: the proleptic Gregorian
    calendar in UTC for the three date functions, and decimal text for the
    comparison of an integer column with a bound text. *)
Module Sample.

(** Year, month and day of the day number [z] (days since 1970-01-01). *)
Definition civil_from_days (z : Z) : Z * Z * Z :=
  let z := z + 719468 in
  let era := z `div` 146097 in
  let doe := z - era * 146097 in
  let yoe := (doe - doe `div` 1460 + doe `div` 36524 - doe `div` 146096) `div` 365 in
  let doy := doe - (365 * yoe + yoe `div` 4 - yoe `div` 100) in
  let mp := (5 * doy + 2) `div` 153 in
  let d := doy - (153 * mp + 2) `div` 5 + 1 in
  let m := if bool_decide (mp < 10) then mp + 3 else mp - 9 in
  (yoe + era * 400 + (if bool_decide (m ≤ 2) then 1 else 0), m, d).

Definition days_from_civil (y m d : Z) : Z :=
  let y := if bool_decide (m ≤ 2) then y - 1 else y in
  let era := y `div` 400 in
  let yoe := y - era * 400 in
  let doy := (153 * (if bool_decide (2 < m) then m - 3 else m + 9) + 2) `div` 5 + d - 1 in
  let doe := yoe * 365 + yoe `div` 4 - yoe `div` 100 + doy in
  era * 146097 + doe - 719468.

(** [n] in decimal, at least [w] digits wide. *)
Fixpoint pad (w : nat) (n : Z) : string :=
  match w with
  | O => ""
  | S w => pad w (n `div` 10) +:+ pretty (n `mod` 10)
  end.

Definition digits_value (s : string) : Z :=
  foldl (λ acc c, 10 * acc + (Z.of_N (N_of_ascii c) - 48)) 0
        (String.list_ascii_of_string s).

Definition date_text (ts : Z) : string :=
  let '(y, m, d) := civil_from_days (ts `div` 86400) in
  pad 4 y +:+ "-" +:+ pad 2 m +:+ "-" +:+ pad 2 d.

Definition date_ms (text : string) : Z :=
  let y := digits_value (String.substring 0 4 text) in
  let m := digits_value (String.substring 5 2 text) in
  let d := digits_value (String.substring 8 2 text) in
  days_from_civil y m d * 86400000.

Definition iso_text (ms : Z) : string :=
  let s := ms `div` 1000 in
  let r := s `mod` 86400 in
  date_text s +:+ "T" +:+ pad 2 (r `div` 3600) +:+ ":"
    +:+ pad 2 ((r `mod` 3600) `div` 60) +:+ ":" +:+ pad 2 (r `mod` 60)
    +:+ "." +:+ pad 3 (ms `mod` 1000) +:+ "Z".

Definition platform : Platform := {|
  toISOString := iso_text;
  DATE_unixepoch := date_text;
  Date_getTime := date_ms;
  int_eq_text n s := bool_decide (pretty n = s)
|}.

(** A tag synchronizer that leaves the tag index as it is. *)
Definition no_tags : TagSync := λ t _ _ _, t.

(** A tag synchronizer that files the memo under one tag, named by the
    whole content. *)
Definition content_tag : TagSync := λ t memoId _ content,
  let tagId := next_rowid t.1 in
  (<[tagId := content]> t.1,
   filter (λ mt : Z * Z, mt.1 ≠ memoId) t.2 ++ [(memoId, tagId)]).

Definition new_body : Body := MkBody (Some "new note") None None None.

Definition public_query : ListQuery :=
  MkListQuery None None None (Some "PUBLIC") None None.

(** A principal with the role HOST and no user row. *)
Definition stray_host := MkUserPayload "u-none" "nobody" "HOST".

Definition alice := MkUserPayload "u-alice" "alice" "USER".
Definition bob := MkUserPayload "u-bob" "bob" "USER".
Definition host := MkUserPayload "u-host" "root" "HOST".
Definition ghost := MkUserPayload "u-ghost" "ghost" "USER".

Definition ref (n : string) : ResourceRef := MkResourceRef (Some n).

Definition memo1 : Memo.row :=
  Memo.Row "m-1" 1 "hello #world" "PRIVATE" "NORMAL" 1700000000 1700000000.
Definition memo2 : Memo.row :=
  Memo.Row "m-2" 1 "public note" "PUBLIC" "NORMAL" 1700090000 1700090000.
Definition memo3 : Memo.row :=
  Memo.Row "m-3" 2 "bob says hi" "PUBLIC" "NORMAL" 1700003600 1700003600.
Definition memo4 : Memo.row :=
  Memo.Row "m-4" 2 "old" "PUBLIC" "ARCHIVED" 1600000000 1600000500.

(** Three users; four memos (two of alice's, two of bob's); two
    resources, both attached to memo 1. *)
Definition db0 : DB := {|
  user := list_to_map
    [(1, User.Row "u-alice" "alice"); (2, User.Row "u-bob" "bob");
     (3, User.Row "u-host" "root")];
  memo := list_to_map
    [(1, memo1); (2, memo2); (3, memo3); (4, memo4)];
  resource := list_to_map
    [(7, Resource.Row "abc123" "a.png" "image/png" 10 "" 1700000000);
     (8, Resource.Row "def456" "b.png" "image/png" 20 "" 1700000001)];
  memo_resource := [(1, 7); (1, 8)];
  tag := list_to_map [(1, "world")];
  memo_tag := [(1, 1)]
|}.

(** A principal with the role HOST whose user row has the id 0, and the
    sample store with that row. *)
Definition zero_host := MkUserPayload "u-zero" "zero" "HOST".

Definition db_zero : DB :=
  MkDB (<[0 := User.Row "u-zero" "zero"]> (user db0)) (memo db0)
       (resource db0) (memo_resource db0) (tag db0) (memo_tag db0).

End Sample.


(** * Properties *)

(** The view [v] shows the columns of the row [m] stored under [memoId]. *)
Definition view_of_row (memoId : Z) (m : Memo.row) (v : MemoView.t) : Prop :=
  MemoView.id v = memoId ∧ MemoView.uid v = Memo.uid m
  ∧ MemoView.creatorId v = Memo.creator_id m
  ∧ MemoView.content v = Memo.content m
  ∧ MemoView.visibility v = Memo.visibility m
  ∧ MemoView.rowStatus v = Memo.row_status m
  ∧ MemoView.createdTs v = Memo.created_ts m
  ∧ MemoView.updatedTs v = Memo.updated_ts m.

(** The requester is authenticated and resolves to the creator of [m]. *)
Definition is_owner (db : DB) (userPayload : option UserPayload)
    (m : Memo.row) : Prop :=
  match userPayload with
  | Some p => getUserIdFromUid db (sub p) = Some (Memo.creator_id m)
  | None => False
  end.

Global Instance is_owner_dec db userPayload m :
  Decision (is_owner db userPayload m).
Proof. destruct userPayload; simpl; apply _. Defined.

(** The write guard: the requester resolves to the creator of [m], or has
    the role HOST. *)
Definition may_write (db : DB) (p : UserPayload) (m : Memo.row) : Prop :=
  getUserIdFromUid db (sub p) = Some (Memo.creator_id m) ∨ role p = "HOST".

Global Instance may_write_dec db p m : Decision (may_write db p m).
Proof. unfold may_write. apply _. Defined.

(** The id of the resource a reference resolves to, if any: the uid is the
    last segment of the name, and it must be the uid of a stored row. *)
Definition lookup_ref (db : DB) (r : ResourceRef) : option Z :=
  nonempty (resourceUid r) ≫= λ u,
    fst <$> first_where (λ x, Resource.uid x.2 = u) (resource db).

(** The resource ids associated with a memo, in the order of the link
    table. *)
Definition associations (db : DB) (memoId : Z) : list Z :=
  snd <$> filter (λ mr, mr.1 = memoId) (memo_resource db).

(** The view of a memo after it was archived at [now]. *)
Definition archived_view (now : Z) (v : MemoView.t) : MemoView.t :=
  MemoView.Mk (MemoView.id v) (MemoView.uid v) (MemoView.creatorId v)
              (MemoView.content v) (MemoView.visibility v) "ARCHIVED"
              (MemoView.createdTs v) now (MemoView.resourceIdList v)
              (MemoView.resources v) (MemoView.tags v).

(** Referential integrity of [memo.creator_id] (a memo carries a reference
    to its owning principal): the creator of every memo has a user row. *)
Definition creators_exist (db : DB) : Prop :=
  map_Forall (λ _ m, is_Some (user db !! Memo.creator_id m)) (memo db).

(** The UTC day of a timestamp, as a number of days since the epoch; its
    midnight is at [86400 * utc_day ts] seconds. *)
Definition utc_day (ts : Z) : Z := ts `div` 86400.

(** What the statistics expect of the date functions of the platform, on
    the creation timestamps of the store: the text that [DATE] gives for a
    timestamp is read back by [Date] as the midnight that starts its UTC
    day, and the texts of two timestamps compare as their days do. *)
Definition calendar_agrees `{Platform} (db : DB) : Prop :=
  map_Forall (λ _ m1,
    Date_getTime (DATE_unixepoch (Memo.created_ts m1))
    = 1000 * (86400 * utc_day (Memo.created_ts m1))
    ∧ map_Forall (λ _ m2,
        String.le (DATE_unixepoch (Memo.created_ts m1))
                  (DATE_unixepoch (Memo.created_ts m2))
        ↔ utc_day (Memo.created_ts m1) ≤ utc_day (Memo.created_ts m2))
      (memo db))
  (memo db).

Global Instance calendar_agrees_dec `{Platform} db : Decision (calendar_agrees db).
Proof. unfold calendar_agrees. apply _. Defined.

(** ** Requests to the writing routes, one after the other *)

(** A request to one of the three routes that write to the store, with
    what the handler reads from its environment: the clock, the fresh uid
    and the principal. *)
Inductive request :=
  | Post (now_ms : Z) (memoUid : string) (userPayload : option UserPayload)
         (body : Body)
  | Patch (now_ms : Z) (userPayload : option UserPayload) (memoId : Z)
          (body : Body)
  | Delete (now_ms : Z) (userPayload : option UserPayload) (memoId : Z).

Definition handle `{Platform} (updateMemoTags : TagSync) (r : request) (db : DB)
    : response * DB :=
  match r with
  | Post now_ms memoUid userPayload body =>
      post_memo updateMemoTags now_ms memoUid userPayload body db
  | Patch now_ms userPayload memoId body =>
      patch_memo updateMemoTags now_ms userPayload memoId body db
  | Delete now_ms userPayload memoId =>
      delete_memo now_ms userPayload memoId db
  end.

(** The store after a sequence of requests. *)
Definition run `{Platform} (updateMemoTags : TagSync) (rs : list request)
    (db : DB) : DB :=
  foldl (λ db r, (handle updateMemoTags r db).2) db rs.

(** The body that sends the resources of a view back: one reference for
    each resource, under the name the view gives it. *)
Definition refs_of_view (v : MemoView.t) : list ResourceRef :=
  (λ rv, MkResourceRef (Some (ResourceView.name rv))) <$> MemoView.resources v.

(** The uids of the [resource] table are usable as references: not empty,
    without a slash, and no two rows share one. *)
Definition uids_wellformed (db : DB) : Prop :=
  map_Forall (λ k r,
    Resource.uid r ≠ ""
    ∧ ("/"%char ∉ String.list_ascii_of_string (Resource.uid r))
    ∧ map_Forall (λ k' r', Resource.uid r' = Resource.uid r → k' = k)
                 (resource db))
  (resource db).

Global Instance uids_wellformed_dec db : Decision (uids_wellformed db).
Proof. unfold uids_wellformed. apply _. Defined.

(** Every row of the link table [memo_resource] is the link of a stored
    memo. *)
Definition links_to_memos (db : DB) : Prop :=
  Forall (λ mr : Z * Z, is_Some (memo db !! mr.1)) (memo_resource db).

Global Instance links_to_memos_dec db : Decision (links_to_memos db).
Proof. unfold links_to_memos. apply _. Defined.

(** Four requests to the sample store: a creation, a delete, an update by
    the host and a delete by a principal without a user row. *)
Definition some_requests : list request :=
  [Post 1700100000000 "m-5" (Some Sample.alice) Sample.new_body;
   Delete 1700100001000 (Some Sample.bob) 3;
   Patch 1700100002000 (Some Sample.host) 3
         (MkBody (Some "edited by the host") (Some "PRIVATE") None None);
   Delete 1700100003000 (Some Sample.ghost) 2].

(** The query [q] with another window. *)
Definition with_window (limit offset : Z) (q : ListQuery) : ListQuery :=
  MkListQuery (q_rowStatus q) (q_creatorId q) (q_tag q) (q_visibility q)
              (Some limit) (Some offset).

Section properties.
Context `{Platform} (updateMemoTags : TagSync).

(** *** The small pieces on small inputs *)

Example split_segments :
  split "/" "a/b//c/" = ["a"; "b"; ""; "c"; ""]
  ∧ split "/" "" = [""] ∧ split "/" "abc" = ["abc"].
Proof. by split_and!. Qed.

Example resourceUid_examples :
  resourceUid (MkResourceRef (Some "resources/abc123")) = Some "abc123"
  ∧ resourceUid (MkResourceRef (Some "abc123")) = Some "abc123"
  ∧ resourceUid (MkResourceRef (Some "resources/")) = Some ""
  ∧ resourceUid (MkResourceRef None) = None.
Proof. by split_and!. Qed.

Example nonempty_examples :
  nonempty (Some "x") = Some "x" ∧ nonempty (Some "") = None
  ∧ nonempty None = None.
Proof. by split_and!. Qed.

Example limit_offset_examples :
  limit_offset 2 1 [10; 20; 30; 40] = [20; 30]
  ∧ limit_offset (-1) 1 [10; 20; 30; 40] = [20; 30; 40]
  ∧ limit_offset 2 (-5) [10; 20; 30; 40] = [10; 20]
  ∧ limit_offset 0 0 [10; 20; 30; 40] = [].
Proof. by split_and!. Qed.

Example next_rowid_examples :
  next_rowid (∅ : gmap Z unit) = 1
  ∧ next_rowid (<[7 := ()]> (<[3 := ()]> ∅) : gmap Z unit) = 8.
Proof. by split_and!. Qed.

Lemma select_memo_None db memoId :
  memo db !! memoId = None → select_memo db memoId = None.
Proof. unfold select_memo. by intros ->. Qed.

Lemma select_memo_Some db memoId m :
  memo db !! memoId = Some m → is_Some (user db !! Memo.creator_id m) →
  ∃ name, select_memo db memoId = Some (m, name).
Proof.
  unfold select_memo. intros -> [u Hu]. simpl. rewrite Hu. simpl. eauto.
Qed.

Lemma getMemoWithDetails_Some db memoId m :
  memo db !! memoId = Some m → is_Some (user db !! Memo.creator_id m) →
  ∃ v, getMemoWithDetails db memoId = Some v ∧ view_of_row memoId m v.
Proof.
  intros Hm Hu. destruct (select_memo_Some _ _ _ Hm Hu) as [name Hsel].
  unfold getMemoWithDetails. rewrite Hsel. eexists. split; [done|].
  by repeat split.
Qed.

Lemma getMemoWithDetails_inv db memoId v :
  getMemoWithDetails db memoId = Some v →
  ∃ m, memo db !! memoId = Some m
       ∧ is_Some (user db !! Memo.creator_id m) ∧ view_of_row memoId m v.
Proof.
  unfold getMemoWithDetails, select_memo.
  destruct (memo db !! memoId) as [m|] eqn:Hm; simpl; [|done].
  destruct (user db !! Memo.creator_id m) as [u|] eqn:Hu; simpl; [|done].
  intros [= <-]. exists m. by repeat split.
Qed.

Lemma owner_has_user_row db userPayload m :
  is_owner db userPayload m → is_Some (user db !! Memo.creator_id m).
Proof.
  destruct userPayload as [p|]; [simpl|done].
  intros Hid. unfold getUserIdFromUid, first_where in Hid.
  destruct (head _) as [[k u]|] eqn:Hhd; simplify_eq/=.
  apply head_Some_elem_of, list_elem_of_filter in Hhd as [_ Hin].
  apply elem_of_map_to_list in Hin. eauto.
Qed.

(** The creator of a memo gets it, whatever its visibility. *)
Lemma get_memo_owner db userPayload memoId m :
  memo db !! memoId = Some m → is_owner db userPayload m →
  ∃ v, get_memo userPayload memoId db = JsonMemo (Some v)
       ∧ view_of_row memoId m v.
Proof.
  intros Hm Hown. pose proof (owner_has_user_row _ _ _ Hown) as Hu.
  destruct (select_memo_Some _ _ _ Hm Hu) as [name Hsel].
  destruct (getMemoWithDetails_Some _ _ _ Hm Hu) as (v & Hv & Hview).
  exists v. split; [|done].
  destruct userPayload as [p|]; [simpl in Hown|done].
  unfold get_memo. rewrite Hsel, Hown, Hv.
  rewrite (bool_decide_eq_false_2 (_ ≠ _)) by (intros Hne; by apply Hne).
  by rewrite andb_false_r.
Qed.

(** C1.  Direct fetch [GET /:id].  An id with no memo row gives "Memo not
    found" whoever asks.  For a stored memo whose creator has a user row
    (the row the fetch joins with): a PUBLIC memo is returned to every
    requester, the anonymous one included; a PRIVATE memo is returned when
    the requester is authenticated and resolves to the memo's creator id,
    and is answered with "Forbidden" in every other case. *)
Theorem get_memo_guard (db : DB) (userPayload : option UserPayload) (memoId : Z) :
  (memo db !! memoId = None → get_memo userPayload memoId db = MemoNotFound)
  ∧ (∀ m, memo db !! memoId = Some m →
          is_Some (user db !! Memo.creator_id m) →
       (Memo.visibility m = "PUBLIC" →
          ∃ v, get_memo userPayload memoId db = JsonMemo (Some v)
               ∧ view_of_row memoId m v)
       ∧ (Memo.visibility m = "PRIVATE" →
            (is_owner db userPayload m →
               ∃ v, get_memo userPayload memoId db = JsonMemo (Some v)
                    ∧ view_of_row memoId m v)
            ∧ (¬ is_owner db userPayload m →
                 get_memo userPayload memoId db = Forbidden)
            ∧ ((∃ v, get_memo userPayload memoId db = JsonMemo (Some v))
                 ↔ is_owner db userPayload m))).
Proof.
  split.
  { intros Hm. unfold get_memo. by rewrite select_memo_None. }
  intros m Hm Hu.
  destruct (select_memo_Some _ _ _ Hm Hu) as [name Hsel].
  destruct (getMemoWithDetails_Some _ _ _ Hm Hu) as (v & Hv & Hview).
  assert (Hown : is_owner db userPayload m →
                 get_memo userPayload memoId db = JsonMemo (Some v)).
  { intros Hown. destruct (get_memo_owner _ _ _ _ Hm Hown) as (v' & Hv' & _).
    rewrite Hv'. unfold get_memo in Hv'. rewrite Hsel, Hv in Hv'.
    by destruct (_ && _). }
  assert (Hnot : Memo.visibility m = "PRIVATE" → ¬ is_owner db userPayload m →
                 get_memo userPayload memoId db = Forbidden).
  { intros Hpriv Hno. unfold get_memo. rewrite Hsel.
    rewrite bool_decide_eq_true_2 by done. simpl.
    destruct userPayload as [p|]; [|done].
    rewrite bool_decide_eq_true_2; [done|].
    intros Hne. by apply Hno. }
  split.
  - intros Hpub. exists v. split; [|done].
    unfold get_memo. rewrite Hsel, Hv.
    rewrite bool_decide_eq_false_2; [done|]. by rewrite Hpub.
  - intros Hpriv. split_and!; [by eauto|by auto|].
    split; [|by eauto].
    intros [v' Hv']. destruct (decide (is_owner db userPayload m)); [done|].
    rewrite Hnot in Hv' by done. discriminate.
Qed.

(** The test of the handlers is the negation of [may_write]. *)
Lemma write_denied_iff db p m :
  bool_decide (Some (Memo.creator_id m) ≠ getUserIdFromUid db (sub p))
  && bool_decide (role p ≠ "HOST") = true
  ↔ ¬ may_write db p m.
Proof.
  unfold may_write. rewrite andb_true_iff, !bool_decide_eq_true.
  split; [intros [??] [?|?]; congruence|].
  intros Hno. split; intros ?; apply Hno; [left|right]; congruence.
Qed.

Lemma write_allowed_eq db p m :
  may_write db p m →
  bool_decide (Some (Memo.creator_id m) ≠ getUserIdFromUid db (sub p))
  && bool_decide (role p ≠ "HOST") = false.
Proof.
  intros Hw. apply not_true_is_false. by intros Hd%write_denied_iff.
Qed.

(** C2.  Update [PATCH /:id] and delete [DELETE /:id] run the same three
    checks in the same order.  Without a principal the answer is
    "Unauthorized".  With one, an id with no memo row gives "Memo not
    found"; for a stored memo the request goes through exactly when the
    requester's resolved id is the creator id or the role is HOST, and is
    answered "Forbidden" otherwise.  A refused request leaves the store as
    it was. *)
Theorem write_guard (now_ms : Z) (userPayload : option UserPayload)
    (memoId : Z) (body : Body) (db : DB) :
  let upd := patch_memo updateMemoTags now_ms userPayload memoId body db in
  let del := delete_memo now_ms userPayload memoId db in
  (userPayload = None → upd = (Unauthorized, db) ∧ del = (Unauthorized, db))
  ∧ (∀ p, userPayload = Some p →
       (memo db !! memoId = None →
          upd = (MemoNotFound, db) ∧ del = (MemoNotFound, db))
       ∧ (∀ m, memo db !! memoId = Some m →
            (¬ may_write db p m →
               upd = (Forbidden, db) ∧ del = (Forbidden, db))
            ∧ (may_write db p m →
                 (∃ v, upd.1 = JsonMemo v) ∧ del.1 = MemoDeleted)
            ∧ (upd.1 ≠ Forbidden ↔ may_write db p m)
            ∧ (del.1 ≠ Forbidden ↔ may_write db p m))).
Proof.
  intros upd del. subst upd del. split.
  { by intros ->. }
  intros p ->. split.
  { intros Hm. unfold patch_memo, delete_memo. by rewrite Hm. }
  intros m Hm.
  assert (Hno : ¬ may_write db p m →
    patch_memo updateMemoTags now_ms (Some p) memoId body db = (Forbidden, db)
    ∧ delete_memo now_ms (Some p) memoId db = (Forbidden, db)).
  { intros Hw%write_denied_iff. unfold patch_memo, delete_memo.
    by rewrite Hm; simpl; rewrite Hw. }
  assert (Hyes : may_write db p m →
    (∃ v, (patch_memo updateMemoTags now_ms (Some p) memoId body db).1 = JsonMemo v)
    ∧ (delete_memo now_ms (Some p) memoId db).1 = MemoDeleted).
  { intros Hw%write_allowed_eq. unfold patch_memo, delete_memo.
    rewrite Hm; simpl; rewrite Hw. eauto. }
  split_and!; [done|done|..].
  - split.
    + intros Hne. destruct (decide (may_write db p m)) as [|Hw]; [done|].
      destruct (Hno Hw) as [Hupd _]. by rewrite Hupd in Hne.
    + intros [[v Hv] _]%Hyes. by rewrite Hv.
  - split.
    + intros Hne. destruct (decide (may_write db p m)) as [|Hw]; [done|].
      destruct (Hno Hw) as [_ Hdel]. by rewrite Hdel in Hne.
    + intros [_ Hd]%Hyes. by rewrite Hd.
Qed.

(** *** The statements of a handler, table by table *)

Lemma insert_memo_resources_eq memoId ids db :
  insert_memo_resources memoId ids db
  = set_memo_resource (λ t, t ++ ((memoId,.) <$> ids)) db.
Proof.
  unfold insert_memo_resources. revert db.
  induction ids as [|i ids IH]; intros db; simpl.
  - destruct db. unfold set_memo_resource. simpl. by rewrite app_nil_r.
  - rewrite IH. unfold set_memo_resource. simpl.
    by rewrite <-app_assoc.
Qed.

Lemma resolve_step_lookup db acc r :
  resolve_step db acc r = acc ++ option_list (lookup_ref db r).
Proof.
  unfold resolve_step, lookup_ref.
  destruct (nonempty (resourceUid r)) as [u|]; simpl; [|by rewrite app_nil_r].
  destruct (first_where _ _) as [x|]; simpl; [done|by rewrite app_nil_r].
Qed.

Lemma foldl_resolve_step db acc rs :
  foldl (resolve_step db) acc rs = acc ++ omap (lookup_ref db) rs.
Proof.
  revert acc. induction rs as [|r rs IH]; intros acc; simpl.
  - by rewrite app_nil_r.
  - rewrite IH, resolve_step_lookup, <-app_assoc.
    by destruct (lookup_ref db r).
Qed.

(** The loop over [resources] keeps, in order, the ids of the references
    that resolve. *)
Lemma resolve_resources_omap db rs :
  resolve_resources db rs = omap (lookup_ref db) rs.
Proof. unfold resolve_resources. by rewrite foldl_resolve_step. Qed.

Lemma resolve_resources_app db rs1 rs2 :
  resolve_resources db (rs1 ++ rs2)
  = resolve_resources db rs1 ++ resolve_resources db rs2.
Proof. by rewrite !resolve_resources_omap, omap_app. Qed.

(** Resolution reads the [resource] table only. *)
Lemma lookup_ref_ext db1 db2 r :
  resource db1 = resource db2 → lookup_ref db1 r = lookup_ref db2 r.
Proof. unfold lookup_ref. by intros ->. Qed.

Lemma resolve_resources_ext db1 db2 rs :
  resource db1 = resource db2 →
  resolve_resources db1 rs = resolve_resources db2 rs.
Proof.
  intros Heq. rewrite !resolve_resources_omap.
  apply list_omap_ext, Forall2_same_length_lookup. split; [done|].
  intros i r1 r2 Hr1 Hr2. simplify_eq. by apply lookup_ref_ext.
Qed.

Lemma filter_pair_same (memoId : Z) (ids : list Z) :
  filter (λ mr : Z * Z, mr.1 = memoId) ((memoId,.) <$> ids) = (memoId,.) <$> ids.
Proof.
  induction ids as [|i ids IH]; [done|]. rewrite fmap_cons.
  rewrite filter_cons_True by done. by rewrite IH.
Qed.

Lemma filter_pair_other (memoId i : Z) (ids : list Z) :
  i ≠ memoId →
  filter (λ mr : Z * Z, mr.1 = i) ((memoId,.) <$> ids) = [].
Proof.
  intros Hne. induction ids as [|j ids IH]; [done|]. rewrite fmap_cons.
  rewrite filter_cons_False by (simpl; congruence). done.
Qed.

Lemma filter_ne_then_eq (memoId : Z) (t : list (Z * Z)) :
  filter (λ mr : Z * Z, mr.1 = memoId) (filter (λ mr, mr.1 ≠ memoId) t) = [].
Proof.
  induction t as [|x t IH]; [done|].
  destruct (decide (x.1 = memoId)) as [Heq|Hne].
  - rewrite (filter_cons_False (λ mr : Z * Z, mr.1 ≠ memoId)) by naive_solver.
    done.
  - rewrite (filter_cons_True (λ mr : Z * Z, mr.1 ≠ memoId)) by done.
    by rewrite filter_cons_False.
Qed.

Lemma filter_ne_other (memoId i : Z) (t : list (Z * Z)) :
  i ≠ memoId →
  filter (λ mr : Z * Z, mr.1 = i) (filter (λ mr, mr.1 ≠ memoId) t)
  = filter (λ mr : Z * Z, mr.1 = i) t.
Proof.
  intros Hne. induction t as [|x t IH]; [done|].
  destruct (decide (x.1 = memoId)) as [Heq|Hne'].
  - rewrite (filter_cons_False (λ mr : Z * Z, mr.1 ≠ memoId)) by naive_solver.
    rewrite (filter_cons_False (λ mr : Z * Z, mr.1 = i)) by congruence. done.
  - rewrite (filter_cons_True (λ mr : Z * Z, mr.1 ≠ memoId)) by done.
    destruct (decide (x.1 = i)).
    + rewrite !filter_cons_True by done. by rewrite IH.
    + rewrite !filter_cons_False by done. done.
Qed.

(** Replacing the associations of a memo: its own list becomes the new
    one, the lists of the other memos stay. *)
Lemma associations_replace db db' memoId ids :
  memo_resource db'
  = filter (λ mr, mr.1 ≠ memoId) (memo_resource db) ++ ((memoId,.) <$> ids) →
  associations db' memoId = ids
  ∧ ∀ i, i ≠ memoId → associations db' i = associations db i.
Proof.
  intros Heq. unfold associations. rewrite Heq. split.
  - rewrite filter_app, filter_ne_then_eq, filter_pair_same. simpl.
    rewrite <-list_fmap_compose. by rewrite list_fmap_id.
  - intros i Hne.
    rewrite filter_app, filter_ne_other, filter_pair_other by done.
    by rewrite app_nil_r.
Qed.

Lemma patch_final_ids_ext db1 db2 body :
  resource db1 = resource db2 →
  patch_final_ids db1 body = patch_final_ids db2 body.
Proof.
  intros Heq. unfold patch_final_ids.
  case_bool_decide; [|done]. by rewrite (resolve_resources_ext db1 db2).
Qed.

(** Only a request that passed the three checks is answered with a view. *)
Lemma patch_memo_success now_ms userPayload memoId body db v db' :
  patch_memo updateMemoTags now_ms userPayload memoId body db = (JsonMemo v, db') →
  ∃ p m, userPayload = Some p ∧ memo db !! memoId = Some m ∧ may_write db p m.
Proof.
  unfold patch_memo. destruct userPayload as [p|]; [|done].
  destruct (memo db !! memoId) as [m|] eqn:Hm; [|done]. simpl.
  destruct (decide (may_write db p m)) as [Hw|Hw]; [by eauto|].
  apply write_denied_iff in Hw. by rewrite Hw.
Qed.

(** The store after an update that passed the checks. *)
Lemma patch_memo_run now_ms p memoId body db m :
  memo db !! memoId = Some m → may_write db p m →
  ∃ db',
    patch_memo updateMemoTags now_ms (Some p) memoId body db
    = (JsonMemo (getMemoWithDetails db' memoId), db')
    ∧ user db' = user db ∧ resource db' = resource db
    ∧ memo db'
      = (if bool_decide (1 < length (patch_updates (now_ms `div` 1000) body))%nat
         then alter (λ m, foldl assign m (patch_updates (now_ms `div` 1000) body))
                    memoId (memo db)
         else memo db)
    ∧ memo_resource db'
      = match patch_final_ids db body with
        | Some ids =>
            filter (λ mr, mr.1 ≠ memoId) (memo_resource db) ++ ((memoId,.) <$> ids)
        | None => memo_resource db
        end.
Proof.
  intros Hm Hw%write_allowed_eq. unfold patch_memo. rewrite Hm. simpl.
  rewrite Hw. clear Hw. eexists. split; [reflexivity|].
  set (db1 := if bool_decide _ then set_memo _ db else db).
  assert (Hres1 : resource db1 = resource db) by (subst db1; by case_bool_decide).
  assert (Huser1 : user db1 = user db) by (subst db1; by case_bool_decide).
  assert (Hmr1 : memo_resource db1 = memo_resource db)
    by (subst db1; by case_bool_decide).
  rewrite (patch_final_ids_ext db1 db) by done.
  set (db2 := match patch_final_ids db body with
              | Some ids => insert_memo_resources memoId ids _
              | None => db1 end).
  assert (Hmemo2 : memo db2 = memo db1).
  { subst db2. destruct (patch_final_ids db body); [|done].
    by rewrite insert_memo_resources_eq. }
  assert (Hres2 : resource db2 = resource db).
  { subst db2. destruct (patch_final_ids db body); [|done].
    by rewrite insert_memo_resources_eq. }
  assert (Huser2 : user db2 = user db).
  { subst db2. destruct (patch_final_ids db body); [|done].
    by rewrite insert_memo_resources_eq. }
  assert (Hmr2 : memo_resource db2
                 = match patch_final_ids db body with
                   | Some ids => filter (λ mr, mr.1 ≠ memoId) (memo_resource db)
                                 ++ ((memoId,.) <$> ids)
                   | None => memo_resource db
                   end).
  { subst db2. destruct (patch_final_ids db body); [|done].
    rewrite insert_memo_resources_eq. simpl. by rewrite Hmr1. }
  assert (Hmemo1 : memo db1
    = if bool_decide (1 < length (patch_updates (now_ms `div` 1000) body))%nat
      then alter (λ m, foldl assign m (patch_updates (now_ms `div` 1000) body))
                 memoId (memo db)
      else memo db) by (subst db1; by case_bool_decide).
  clearbody db2 db1.
  destruct (content body) as [c|], (getUserIdFromUid db (sub p)) as [u|];
    repeat case_bool_decide; simpl; rewrite ?Hmemo2, ?Hmemo1; by split_and!.
Qed.

Lemma patch_memo_inv now_ms userPayload memoId body db v db' :
  patch_memo updateMemoTags now_ms userPayload memoId body db = (JsonMemo v, db') →
  ∃ m, memo db !! memoId = Some m
    ∧ v = getMemoWithDetails db' memoId
    ∧ user db' = user db ∧ resource db' = resource db
    ∧ memo db'
      = (if bool_decide (1 < length (patch_updates (now_ms `div` 1000) body))%nat
         then alter (λ m, foldl assign m (patch_updates (now_ms `div` 1000) body))
                    memoId (memo db)
         else memo db)
    ∧ memo_resource db'
      = match patch_final_ids db body with
        | Some ids =>
            filter (λ mr, mr.1 ≠ memoId) (memo_resource db) ++ ((memoId,.) <$> ids)
        | None => memo_resource db
        end.
Proof.
  intros Hrun.
  destruct (patch_memo_success _ _ _ _ _ _ _ Hrun) as (p & m & -> & Hm & Hw).
  destruct (patch_memo_run now_ms p memoId body db m Hm Hw)
    as (db'' & Hrun' & Hrest).
  rewrite Hrun in Hrun'. injection Hrun' as -> ->. eauto.
Qed.

(** C3, as amended.  After a successful update the memo row carries the
    content and the visibility of the body where the body has them and its
    former ones where not; every other column but the updated timestamp is
    as before; the updated timestamp is the current time when the body has
    content or visibility, and the former one when it has neither (the row
    is then not written at all); the other memo rows are not changed. *)
Theorem patch_memo_row (now_ms : Z) (userPayload : option UserPayload)
    (memoId : Z) (body : Body) (db : DB) (v : option MemoView.t) (db' : DB) :
  patch_memo updateMemoTags now_ms userPayload memoId body db = (JsonMemo v, db') →
  ∃ m, memo db !! memoId = Some m
    ∧ memo db' !! memoId
      = Some (Memo.Row
                (Memo.uid m) (Memo.creator_id m)
                (default (Memo.content m) (content body))
                (default (Memo.visibility m) (visibility body))
                (Memo.row_status m) (Memo.created_ts m)
                (if bool_decide (content body = None ∧ visibility body = None)
                 then Memo.updated_ts m else now_ms `div` 1000))
    ∧ (∀ i, i ≠ memoId → memo db' !! i = memo db !! i)
    ∧ (content body = None → visibility body = None → memo db' = memo db).
Proof.
  intros (m & Hm & _ & _ & _ & Hmemo & _)%patch_memo_inv.
  exists m. split; [done|]. rewrite Hmemo. unfold patch_updates.
  destruct m as [uid cr co vi st cts uts].
  destruct (content body) as [c|], (visibility body) as [vis|]; simpl;
    [split_and!; [|intros i Hi; by rewrite lookup_alter_ne|done];
     by rewrite lookup_alter_eq, Hm..|].
  by split_and!.
Qed.

(** C4, as amended.  After a successful update: when the body has no
    [resourceIdList] and its [resources] is absent or empty, the link table
    is as before; when [resources] is not empty, the associations of the
    memo are exactly the ids its references resolve to, in their order;
    when [resources] is absent or empty and [resourceIdList] is present,
    they are exactly that list, so none for an empty [resourceIdList].  The
    associations of the other memos do not change in any case. *)
Theorem patch_memo_associations (now_ms : Z) (userPayload : option UserPayload)
    (memoId : Z) (body : Body) (db : DB) (v : option MemoView.t) (db' : DB) :
  patch_memo updateMemoTags now_ms userPayload memoId body db = (JsonMemo v, db') →
  let rs := default [] (resources body) in
  (rs = [] → resourceIdList body = None → memo_resource db' = memo_resource db)
  ∧ (rs ≠ [] → associations db' memoId = omap (lookup_ref db) rs)
  ∧ (rs = [] → ∀ ids, resourceIdList body = Some ids →
       associations db' memoId = ids)
  ∧ (rs = [] → resourceIdList body = Some [] → associations db' memoId = [])
  ∧ (∀ i, i ≠ memoId → associations db' i = associations db i).
Proof.
  intros (m & Hm & _ & _ & _ & _ & Hmr)%patch_memo_inv rs.
  unfold patch_final_ids in Hmr. fold rs in Hmr. clearbody rs.
  assert (Hnil : rs = [] → bool_decide (0 < length rs)%nat = false).
  { intros ->. apply bool_decide_eq_false_2. simpl. lia. }
  assert (Hcons : rs ≠ [] → bool_decide (0 < length rs)%nat = true).
  { intros Hne. apply bool_decide_eq_true_2. destruct rs; [done|simpl; lia]. }
  split_and!.
  - intros Hrs Hids. by rewrite (Hnil Hrs), Hids in Hmr.
  - intros Hrs. rewrite (Hcons Hrs), resolve_resources_omap in Hmr.
    by apply associations_replace in Hmr as [??].
  - intros Hrs ids Hids. rewrite (Hnil Hrs), Hids in Hmr.
    by apply associations_replace in Hmr as [??].
  - intros Hrs Hids. rewrite (Hnil Hrs), Hids in Hmr.
    by apply associations_replace in Hmr as [??].
  - intros i Hi. destruct (bool_decide (0 < length rs)%nat).
    + apply associations_replace in Hmr as [_ Hmr]. by apply Hmr.
    + destruct (resourceIdList body).
      * apply associations_replace in Hmr as [_ Hmr]. by apply Hmr.
      * unfold associations. by rewrite Hmr.
Qed.

(** *** Creation *)

Lemma foldr_max_ge (k : Z) (ks : list Z) :
  k ≤ foldr Z.max k ks ∧ ∀ j, j ∈ ks → j ≤ foldr Z.max k ks.
Proof.
  induction ks as [|x ks [IH1 IH2]]; simpl.
  - split; [lia|]. intros j Hj. by apply elem_of_nil in Hj.
  - split; [lia|]. intros j [->|Hj]%elem_of_cons; [lia|].
    specialize (IH2 j Hj). lia.
Qed.

(** The row id of an insert is not in use. *)
Lemma next_rowid_fresh {A} (t : gmap Z A) : t !! next_rowid t = None.
Proof.
  destruct (t !! next_rowid t) as [x|] eqn:Hx; [|done]. exfalso.
  apply elem_of_map_to_list in Hx.
  apply (list_elem_of_fmap_2 fst) in Hx. simpl in Hx.
  unfold next_rowid in Hx.
  destruct ((map_to_list t).*1) as [|k ks]; [by apply elem_of_nil in Hx|].
  destruct (foldr_max_ge k ks) as [Hk Hks].
  apply elem_of_cons in Hx as [Hx|Hx]; [lia|].
  specialize (Hks _ Hx). lia.
Qed.

Lemma getUserIdFromUid_Some db s i :
  getUserIdFromUid db s = Some i →
  ∃ u, user db !! i = Some u ∧ User.uid u = s.
Proof.
  unfold getUserIdFromUid, first_where. intros Hid.
  destruct (head _) as [[k u]|] eqn:Hhd; simplify_eq/=.
  apply head_Some_elem_of, list_elem_of_filter in Hhd as [Huid Hin].
  apply elem_of_map_to_list in Hin. eauto.
Qed.

Lemma create_final_ids_ext db1 db2 body :
  resource db1 = resource db2 →
  create_final_ids db1 body = create_final_ids db2 body.
Proof.
  intros Heq. unfold create_final_ids.
  case_bool_decide; [|done]. by rewrite (resolve_resources_ext db1 db2).
Qed.

(** The store after a creation that passed the checks: one new memo row
    under a fresh id, one link row for each id of the final list, in its
    order; the new memo is returned as a view. *)
Lemma post_memo_run now_ms memoUid p body db c i :
  nonempty (content body) = Some c →
  getUserIdFromUid db (sub p) = Some i →
  let memoId := next_rowid (memo db) in
  let row := Memo.Row memoUid i c (default "PRIVATE" (visibility body))
                      "NORMAL" (now_ms `div` 1000) (now_ms `div` 1000) in
  ∃ v db',
    post_memo updateMemoTags now_ms memoUid (Some p) body db
    = (JsonMemo (Some v), db')
    ∧ view_of_row memoId row v
    ∧ user db' = user db ∧ resource db' = resource db
    ∧ memo db' = <[memoId := row]> (memo db)
    ∧ memo_resource db'
      = memo_resource db ++ ((memoId,.) <$> create_final_ids db body).
Proof.
  intros Hc Hi memoId row. unfold post_memo. rewrite Hc, Hi.
  fold memoId. fold row.
  set (db1 := set_memo (insert memoId row) db).
  rewrite (create_final_ids_ext db1 db) by done.
  rewrite insert_memo_resources_eq.
  set (db3 := run_updateMemoTags _ _ _ _ _).
  assert (Hmemo : memo db3 = <[memoId := row]> (memo db)) by done.
  assert (Huser : user db3 = user db) by done.
  destruct (getUserIdFromUid_Some _ _ _ Hi) as (u & Hu & _).
  destruct (getMemoWithDetails_Some db3 memoId row) as (v & Hv & Hview).
  { by rewrite Hmemo, lookup_insert_eq. }
  { rewrite Huser. simpl. eauto. }
  exists v, db3. rewrite Hv. by split_and!.
Qed.

(** Without a principal, without content, or for a principal with no user
    row, nothing is written. *)
Lemma post_memo_refused now_ms memoUid userPayload body db message status :
  (post_memo updateMemoTags now_ms memoUid userPayload body db).1
  = JsonMessage message status →
  (post_memo updateMemoTags now_ms memoUid userPayload body db).2 = db.
Proof.
  unfold post_memo. destruct userPayload as [p|]; [|done].
  destruct (nonempty (content body)); [|done].
  by destruct (getUserIdFromUid db (sub p)).
Qed.

(** C5.  A reference whose uid is the uid of no stored resource resolves
    to nothing and is left out of the final list, which holds what the
    references before and after it resolve to.  A creation that passed its
    checks (principal, content, user row) still returns the view of the
    new memo, and an update that passed its checks still returns a view:
    the miss does not change the outcome of either. *)
Theorem unresolved_reference_dropped (now_ms : Z) (memoUid : string)
    (memoId : Z) (p : UserPayload) (body : Body) (db : DB)
    (rs1 rs2 : list ResourceRef) (r : ResourceRef) (u : string) :
  resources body = Some (rs1 ++ r :: rs2) →
  nonempty (resourceUid r) = Some u →
  (∀ k row, resource db !! k = Some row → Resource.uid row ≠ u) →
  lookup_ref db r = None
  ∧ resolve_resources db (rs1 ++ r :: rs2)
    = resolve_resources db rs1 ++ resolve_resources db rs2
  ∧ (∀ c i, nonempty (content body) = Some c →
            getUserIdFromUid db (sub p) = Some i →
       ∃ v db',
         post_memo updateMemoTags now_ms memoUid (Some p) body db
         = (JsonMemo (Some v), db')
         ∧ memo_resource db'
           = memo_resource db
             ++ ((MemoView.id v,.)
                 <$> resolve_resources db rs1 ++ resolve_resources db rs2))
  ∧ (∀ m, memo db !! memoId = Some m → may_write db p m →
       ∃ v db',
         patch_memo updateMemoTags now_ms (Some p) memoId body db
         = (JsonMemo v, db')
         ∧ associations db' memoId
           = resolve_resources db rs1 ++ resolve_resources db rs2).
Proof.
  intros Hrs Hu Hmiss.
  assert (Hr : lookup_ref db r = None).
  { unfold lookup_ref. rewrite Hu. simpl. unfold first_where.
    destruct (head _) as [[k row]|] eqn:Hhd; [exfalso|done].
    apply head_Some_elem_of, list_elem_of_filter in Hhd as [Huid Hin].
    apply elem_of_map_to_list in Hin. by apply (Hmiss k row). }
  assert (Hall : resolve_resources db (rs1 ++ r :: rs2)
                 = resolve_resources db rs1 ++ resolve_resources db rs2).
  { rewrite !resolve_resources_omap, omap_app. simpl. by rewrite Hr. }
  assert (Hlen : bool_decide (0 < length (rs1 ++ r :: rs2))%nat = true).
  { apply bool_decide_eq_true_2. rewrite length_app. simpl. lia. }
  split_and!; [done|done|..].
  - intros c i Hc Hi.
    destruct (post_memo_run now_ms memoUid p body db c i Hc Hi)
      as (v & db' & Hrun & Hview & _ & _ & _ & Hmr).
    exists v, db'. split; [done|].
    destruct Hview as [-> _]. rewrite Hmr. unfold create_final_ids.
    rewrite Hrs. simpl. by rewrite Hlen, Hall.
  - intros m Hm Hw.
    destruct (patch_memo_run now_ms p memoId body db m Hm Hw)
      as (db' & Hrun & _ & _ & _ & Hmr).
    eexists _, db'. split; [done|].
    unfold patch_final_ids in Hmr. rewrite Hrs in Hmr. simpl in Hmr.
    rewrite Hlen, Hall in Hmr. by apply associations_replace in Hmr as [??].
Qed.

(** C6.  When the body has a non-empty [resources] list, the final list is
    the one resolved from it, whatever [resourceIdList] holds: a creation
    adds to the link table exactly the ids that the references resolve to,
    and an update leaves the memo with exactly these.  The resolved list
    follows the order of the references (resolving a concatenation gives
    the concatenation of the resolved parts) and keeps duplicates (a
    reference repeated [n] times gives its id [n] times). *)
Theorem structured_resources_win (now_ms : Z) (memoUid : string)
    (memoId : Z) (p : UserPayload) (body : Body) (db : DB)
    (rs : list ResourceRef) (ids : list Z) :
  resources body = Some rs → rs ≠ [] →
  resourceIdList body = Some ids → ids ≠ [] →
  (∀ c i, nonempty (content body) = Some c →
          getUserIdFromUid db (sub p) = Some i →
     ∃ v db',
       post_memo updateMemoTags now_ms memoUid (Some p) body db
       = (JsonMemo (Some v), db')
       ∧ memo_resource db'
         = memo_resource db ++ ((MemoView.id v,.) <$> resolve_resources db rs))
  ∧ (∀ m, memo db !! memoId = Some m → may_write db p m →
       ∃ v db',
         patch_memo updateMemoTags now_ms (Some p) memoId body db
         = (JsonMemo v, db')
         ∧ associations db' memoId = resolve_resources db rs)
  ∧ resolve_resources db rs = omap (lookup_ref db) rs
  ∧ (∀ rs1 rs2, resolve_resources db (rs1 ++ rs2)
                = resolve_resources db rs1 ++ resolve_resources db rs2)
  ∧ (∀ r i n, lookup_ref db r = Some i →
              resolve_resources db (replicate n r) = replicate n i).
Proof.
  intros Hrs Hne Hids _.
  assert (Hlen : bool_decide (0 < length rs)%nat = true).
  { apply bool_decide_eq_true_2. destruct rs; [done|simpl; lia]. }
  split_and!.
  - intros c i Hc Hi.
    destruct (post_memo_run now_ms memoUid p body db c i Hc Hi)
      as (v & db' & Hrun & Hview & _ & _ & _ & Hmr).
    exists v, db'. split; [done|].
    destruct Hview as [-> _]. rewrite Hmr. unfold create_final_ids.
    rewrite Hrs. simpl. by rewrite Hlen.
  - intros m Hm Hw.
    destruct (patch_memo_run now_ms p memoId body db m Hm Hw)
      as (db' & Hrun & _ & _ & _ & Hmr).
    eexists _, db'. split; [done|].
    unfold patch_final_ids in Hmr. rewrite Hrs in Hmr. simpl in Hmr.
    rewrite Hlen in Hmr. by apply associations_replace in Hmr as [??].
  - apply resolve_resources_omap.
  - apply resolve_resources_app.
  - intros r i n Hr. rewrite resolve_resources_omap.
    induction n as [|n IH]; [done|]. simpl. rewrite Hr. f_equal. exact IH.
Qed.

(** C10, as amended.  A creation by a principal whose uid has no user row
    writes nothing; when the body has content it is answered with "User not
    found". *)
Theorem post_memo_unknown_user (now_ms : Z) (memoUid : string)
    (p : UserPayload) (body : Body) (db : DB) :
  getUserIdFromUid db (sub p) = None →
  (post_memo updateMemoTags now_ms memoUid (Some p) body db).2 = db
  ∧ (∀ c, nonempty (content body) = Some c →
       post_memo updateMemoTags now_ms memoUid (Some p) body db
       = (UserNotFound, db))
  ∧ (nonempty (content body) = None →
       post_memo updateMemoTags now_ms memoUid (Some p) body db
       = (ContentRequired, db)).
Proof.
  intros Hu. unfold post_memo. rewrite Hu.
  destruct (nonempty (content body)) as [c|]; by split_and!.
Qed.

(** *** Listing *)

Global Instance created_desc_trans : Transitive created_desc.
Proof. unfold created_desc. intros x y z ??. lia. Qed.

Global Instance created_desc_total : Total created_desc.
Proof. unfold created_desc. intros x y. lia. Qed.

Lemma StronglySorted_take {A} (R : relation A) n l :
  StronglySorted R l → StronglySorted R (take n l).
Proof.
  rewrite <-(take_drop n l) at 1. apply StronglySorted_app_1_l.
Qed.

Lemma StronglySorted_drop {A} (R : relation A) n l :
  StronglySorted R l → StronglySorted R (drop n l).
Proof.
  rewrite <-(take_drop n l) at 1. apply StronglySorted_app_1_r.
Qed.

Lemma limit_offset_sublist {A} limit offset (rows : list A) :
  limit_offset limit offset rows `sublist_of` rows.
Proof.
  unfold limit_offset. case_bool_decide.
  - apply sublist_drop.
  - etrans; [apply sublist_take|apply sublist_drop].
Qed.

Lemma limit_offset_sorted {A} (R : relation A) limit offset rows :
  StronglySorted R rows → StronglySorted R (limit_offset limit offset rows).
Proof.
  intros Hs. unfold limit_offset. case_bool_decide.
  - by apply StronglySorted_drop.
  - by apply StronglySorted_take, StronglySorted_drop.
Qed.

(** A window that starts at the first row and is at least as long as the
    result keeps every row. *)
Lemma limit_offset_all {A} limit offset (rows : list A) :
  offset ≤ 0 → limit < 0 ∨ Z.of_nat (length rows) ≤ limit →
  limit_offset limit offset rows = rows.
Proof.
  intros Ho Hl. unfold limit_offset.
  replace (Z.to_nat offset) with 0%nat by lia. rewrite drop_0.
  case_bool_decide; [done|]. apply take_ge. lia.
Qed.

(** Every row of the result is a stored memo whose creator has a user row
    and which satisfies the whole [WHERE] clause; the rows come in
    descending order of their creation timestamps. *)
Lemma select_memos_sound db q :
  Forall (λ row, memo db !! row.1 = Some row.2
                 ∧ is_Some (user db !! Memo.creator_id row.2)
                 ∧ forallb (holds db row) (whereClause q) = true)
         (select_memos db q)
  ∧ StronglySorted created_desc (select_memos db q).
Proof.
  unfold select_memos. split.
  - apply Forall_forall. intros [i m] Hin.
    eapply elem_of_sublist in Hin; [|apply limit_offset_sublist].
    rewrite merge_sort_Permutation in Hin.
    apply list_elem_of_filter in Hin as [Hwhere Hin].
    apply list_elem_of_filter in Hin as [Hjoin Hin].
    apply elem_of_map_to_list in Hin. split_and!; [done|done|].
    by apply Is_true_true.
  - apply limit_offset_sorted, StronglySorted_merge_sort; apply _.
Qed.

(** The result of the [SELECT] is the window of [limit] and [offset] over
    the list of all the rows that the [WHERE] clause asks for: each stored
    memo whose creator has a user row and which satisfies the clause, once,
    in descending order of the creation timestamps. *)
Lemma select_memos_exact db q :
  ∃ all : list (Z * Memo.row),
    NoDup all
    ∧ (∀ row, row ∈ all ↔
         memo db !! row.1 = Some row.2
         ∧ is_Some (user db !! Memo.creator_id row.2)
         ∧ forallb (holds db row) (whereClause q) = true)
    ∧ StronglySorted created_desc all
    ∧ select_memos db q
      = limit_offset (default 50 (q_limit q)) (default 0 (q_offset q)) all.
Proof.
  exists (merge_sort created_desc
            (filter (λ m, forallb (holds db m) (whereClause q))
                    (memo_join_user db))).
  split_and!.
  - rewrite merge_sort_Permutation. unfold memo_join_user.
    apply NoDup_filter, NoDup_filter, NoDup_map_to_list.
  - intros [i m]. rewrite merge_sort_Permutation. unfold memo_join_user.
    rewrite !list_elem_of_filter, elem_of_map_to_list, Is_true_true. simpl.
    tauto.
  - apply StronglySorted_merge_sort; apply _.
  - done.
Qed.

(** A list without repetitions is no longer than the list of the elements
    of [k] with the property that its own elements have. *)
Lemma NoDup_length_filter {A} (P : A → Prop) `{!∀ x, Decision (P x)}
    (l k : list A) :
  NoDup l → (∀ x, x ∈ l → x ∈ k ∧ P x) →
  (length l ≤ length (filter P k))%nat.
Proof.
  intros Hnd Hl. apply submseteq_length, NoDup_submseteq; [done|].
  intros x Hx. apply list_elem_of_filter. destruct (Hl x Hx). by split.
Qed.

(** The response of the list route: one view for each selected row. *)
Lemma get_memos_views db q :
  ∃ vs, get_memos q db = JsonMemos (Some <$> vs)
        ∧ Forall2 (λ row v, view_of_row row.1 row.2 v) (select_memos db q) vs.
Proof.
  unfold get_memos. destruct (select_memos_sound db q) as [Hrows _].
  induction Hrows as [|[i m] rows (Hm & Hu & _) _ (vs & Heq & Hvs)].
  - by exists [].
  - destruct (getMemoWithDetails_Some db i m Hm Hu) as (v & Hv & Hview).
    exists (v :: vs). injection Heq as Heq. split.
    + rewrite !fmap_cons. simpl. by rewrite Hv, Heq.
    + by constructor.
Qed.

Lemma Forall2_transfer {A B} (P : A → B → Prop) (Q : A → Prop) (R : B → Prop) l k :
  (∀ x y, P x y → Q x → R y) → Forall2 P l k → Forall Q l → Forall R k.
Proof.
  intros HPQ. induction 1 as [|x y l k HP _ IH]; [done|].
  intros [HQ Hl]%Forall_cons. constructor; eauto.
Qed.

Lemma Forall2_sorted {A B} (P : A → B → Prop)
    (R1 : relation A) (R2 : relation B) l k :
  (∀ x1 x2 y1 y2, P x1 y1 → P x2 y2 → R1 x1 x2 → R2 y1 y2) →
  Forall2 P l k → StronglySorted R1 l → StronglySorted R2 k.
Proof.
  intros HR. induction 1 as [|x y l k HP Hlk IH]; [constructor|].
  intros [Hx Hl]%StronglySorted_cons. constructor; [by apply IH|].
  eapply (Forall2_transfer P (R1 x) (R2 y)); [|done..]. eauto.
Qed.

Lemma Forall2_elem_of {A B} (P : A → B → Prop) l k x :
  Forall2 P l k → x ∈ l → ∃ y, y ∈ k ∧ P x y.
Proof.
  induction 1 as [|x' y l k HP _ IH]; [by intros ?%elem_of_nil|].
  intros [->|Hin]%elem_of_cons.
  - exists y. split; [by left|done].
  - destruct (IH Hin) as (y' & ? & ?). exists y'. split; [by right|done].
Qed.

(** What the [WHERE] clause of the list route asks of a row. *)
Lemma whereClause_holds db q row :
  forallb (holds db row) (whereClause q) = true ↔
    Memo.row_status row.2 = default "NORMAL" (nonempty (q_rowStatus q))
    ∧ (∀ cid, nonempty (q_creatorId q) = Some cid →
         int_eq_text (Memo.creator_id row.2) cid = true)
    ∧ (∀ vis, nonempty (q_visibility q) = Some vis →
         Memo.visibility row.2 = vis)
    ∧ (nonempty (q_visibility q) = None → nonempty (q_creatorId q) = None →
         Memo.visibility row.2 = "PUBLIC")
    ∧ (∀ t, nonempty (q_tag q) = Some t → has_tag db row.1 t).
Proof.
  unfold whereClause.
  destruct (nonempty (q_creatorId q)) as [cid|],
           (nonempty (q_visibility q)) as [vis|],
           (nonempty (q_tag q)) as [t|]; simpl;
    rewrite ?andb_true_iff, ?andb_true_r, ?bool_decide_eq_true;
    (split;
     [intros; destruct_and?; split_and!; intros; simplify_eq; done
     |intros (? & ? & ? & ? & ?); split_and?; eauto]).
Qed.

(** The views of a window that does not cut the list are the views of the
    whole list. *)
Lemma window_keeps_all (limit offset : Z) (all : list (Z * Memo.row))
    (vs : list MemoView.t) i m :
  Forall2 (λ row v, view_of_row row.1 row.2 v)
          (limit_offset limit offset all) vs →
  offset ≤ 0 → limit < 0 ∨ Z.of_nat (length all) ≤ limit →
  (i, m) ∈ all → ∃ v, v ∈ vs ∧ view_of_row i m v.
Proof.
  intros Hvs Ho Hl Hin. rewrite limit_offset_all in Hvs by done.
  destruct (Forall2_elem_of _ _ _ _ Hvs Hin) as (v & Hv & Hview).
  by exists v.
Qed.

(** C7.  The list route [GET /].  Every memo it returns has the requested
    lifecycle status, NORMAL when none is requested, and the memos come in
    descending order of their creation timestamps.  With neither a
    visibility filter nor an owner filter, every returned memo is PUBLIC.
    With an owner filter and no visibility filter, every returned memo is
    of that owner, and the memos returned are the window of [limit] and
    [offset] over the list [all] of that owner's memos with the status
    (and the tag, if one is asked for), whatever their visibility, each
    once and newest first; so each of them is returned when the window
    starts at the first and is as long as [all].  A filter is given when
    its parameter is present and not empty. *)
Theorem get_memos_filter (q : ListQuery) (db : DB) :
  ∃ vs, get_memos q db = JsonMemos (Some <$> vs)
    ∧ Forall (λ v, MemoView.rowStatus v
                   = default "NORMAL" (nonempty (q_rowStatus q))) vs
    ∧ (nonempty (q_rowStatus q) = None →
         Forall (λ v, MemoView.rowStatus v = "NORMAL") vs)
    ∧ StronglySorted (λ v1 v2, MemoView.createdTs v2 ≤ MemoView.createdTs v1) vs
    ∧ (nonempty (q_visibility q) = None → nonempty (q_creatorId q) = None →
         Forall (λ v, MemoView.visibility v = "PUBLIC") vs)
    ∧ (∀ cid, nonempty (q_creatorId q) = Some cid →
              nonempty (q_visibility q) = None →
         Forall (λ v, int_eq_text (MemoView.creatorId v) cid = true) vs
         ∧ ∃ all : list (Z * Memo.row),
             NoDup all
             ∧ (∀ i m, (i, m) ∈ all ↔
                  memo db !! i = Some m
                  ∧ is_Some (user db !! Memo.creator_id m)
                  ∧ int_eq_text (Memo.creator_id m) cid = true
                  ∧ Memo.row_status m
                    = default "NORMAL" (nonempty (q_rowStatus q))
                  ∧ (∀ t, nonempty (q_tag q) = Some t → has_tag db i t))
             ∧ StronglySorted created_desc all
             ∧ Forall2 (λ row v, view_of_row row.1 row.2 v)
                 (limit_offset (default 50 (q_limit q))
                               (default 0 (q_offset q)) all) vs
             ∧ (default 0 (q_offset q) ≤ 0 →
                default 50 (q_limit q) < 0
                ∨ Z.of_nat (length all) ≤ default 50 (q_limit q) →
                ∀ i m, (i, m) ∈ all → ∃ v, v ∈ vs ∧ view_of_row i m v)).
Proof.
  destruct (get_memos_views db q) as (vs & Heq & Hvs).
  destruct (select_memos_sound db q) as [Hrows Hsorted].
  exists vs. split; [done|].
  assert (Hstatus : Forall (λ v, MemoView.rowStatus v
                     = default "NORMAL" (nonempty (q_rowStatus q))) vs).
  { eapply Forall2_transfer; [|exact Hvs|exact Hrows]. simpl.
    intros row v Hview (_ & _ & Hwhere).
    apply whereClause_holds in Hwhere as (Hst & _).
    destruct Hview as (_ & _ & _ & _ & _ & -> & _). done. }
  split_and!; [done|..].
  - intros Hno. by rewrite Hno in Hstatus.
  - eapply Forall2_sorted; [|exact Hvs|exact Hsorted]. simpl.
    intros r1 r2 v1 v2 Hv1 Hv2 Hle. unfold created_desc in Hle.
    destruct Hv1 as (_ & _ & _ & _ & _ & _ & -> & _).
    destruct Hv2 as (_ & _ & _ & _ & _ & _ & -> & _). done.
  - intros Hvis Hcid.
    eapply Forall2_transfer; [|exact Hvs|exact Hrows]. simpl.
    intros row v Hview (_ & _ & Hwhere).
    apply whereClause_holds in Hwhere as (_ & _ & _ & Hpub & _).
    destruct Hview as (_ & _ & _ & _ & -> & _). by apply Hpub.
  - intros cid Hcid Hvis. split.
    + eapply Forall2_transfer; [|exact Hvs|exact Hrows]. simpl.
      intros row v Hview (_ & _ & Hwhere).
      apply whereClause_holds in Hwhere as (_ & Hown & _).
      destruct Hview as (_ & _ & -> & _). by apply Hown.
    + destruct (select_memos_exact db q) as (all & Hnd & Hall & Hdesc & Hsel).
      rewrite Hsel in Hvs.
      exists all. split_and!; [done| |done|done|].
      * intros i m. rewrite (Hall (i, m)), whereClause_holds. simpl. split.
        -- intros (Hm & Hu & Hst & Hown & _ & _ & Htag).
           split_and!; [done|done|by apply Hown|done|done].
        -- intros (Hm & Hu & Hown & Hst & Htag).
           split_and!; [done|done|done|..|done].
           ++ intros cid' Hcid'. by simplify_eq.
           ++ intros vis Hvis'. by simplify_eq.
           ++ intros _ Hcid'. by simplify_eq.
      * intros Ho Hl i m Hin. by eapply window_keeps_all.
Qed.

(** *** Archiving *)

Lemma alter_lookup_insert {A} (f : A → A) (t : gmap Z A) i x :
  t !! i = Some x → alter f i t = <[i := f x]> t.
Proof.
  intros Hx. apply map_eq. intros j. destruct (decide (i = j)) as [->|Hne].
  - by rewrite lookup_alter_eq, lookup_insert_eq, Hx.
  - by rewrite lookup_alter_ne, lookup_insert_ne.
Qed.

(** The store after a delete that passed the checks. *)
Lemma delete_memo_run now_ms p memoId db m :
  memo db !! memoId = Some m → may_write db p m →
  delete_memo now_ms (Some p) memoId db
  = (MemoDeleted,
     set_memo (insert memoId (archive (now_ms `div` 1000) m)) db).
Proof.
  intros Hm Hw%write_allowed_eq. unfold delete_memo. rewrite Hm. simpl.
  rewrite Hw. unfold set_memo. by rewrite (alter_lookup_insert _ _ _ m).
Qed.

(** Rewriting status and timestamp of a memo row changes these two fields
    of its view and nothing else of what a direct fetch answers. *)
Lemma get_memo_archived requester memoId db m now :
  memo db !! memoId = Some m →
  get_memo requester memoId (set_memo (insert memoId (archive now m)) db)
  = match get_memo requester memoId db with
    | JsonMemo (Some v) => JsonMemo (Some (archived_view now v))
    | r => r
    end.
Proof.
  intros Hm. unfold get_memo, getMemoWithDetails, select_memo. simpl.
  rewrite lookup_insert_eq, Hm. simpl.
  destruct (user db !! Memo.creator_id m) as [u|]; simpl; [|done].
  destruct (bool_decide (Memo.visibility m = "PRIVATE")); simpl; [|done].
  destruct requester as [p|]; [|done].
  replace (getUserIdFromUid (set_memo _ db) (sub p))
    with (getUserIdFromUid db (sub p)) by done.
  by destruct (bool_decide _).
Qed.

(** C8.  A delete that passed the checks rewrites two columns of the memo
    row, the lifecycle status (now ARCHIVED) and the updated timestamp (now
    the current time), and nothing else: the row stays, with its other
    columns; the other memo rows, the users, the resources, the resource
    associations and the tag index are as before.  A listing with the
    status filter NORMAL, the default one, does not show the memo.  A direct fetch answers
    as before the delete, but a returned view has status ARCHIVED and the
    new timestamp; in particular the creator still gets the memo.  A
    second delete leaves the status ARCHIVED. *)
Theorem delete_memo_archives (now_ms : Z) (p : UserPayload) (memoId : Z)
    (db : DB) (m : Memo.row) :
  memo db !! memoId = Some m → may_write db p m →
  let now := now_ms `div` 1000 in
  let m' := Memo.Row (Memo.uid m) (Memo.creator_id m) (Memo.content m)
                     (Memo.visibility m) "ARCHIVED" (Memo.created_ts m) now in
  ∃ db',
    delete_memo now_ms (Some p) memoId db = (MemoDeleted, db')
    ∧ memo db' !! memoId = Some m'
    ∧ (∀ i, i ≠ memoId → memo db' !! i = memo db !! i)
    ∧ user db' = user db ∧ resource db' = resource db
    ∧ memo_resource db' = memo_resource db
    ∧ tag db' = tag db ∧ memo_tag db' = memo_tag db
    ∧ (∀ q vs, default "NORMAL" (nonempty (q_rowStatus q)) = "NORMAL" →
         get_memos q db' = JsonMemos vs →
         ∀ v, Some v ∈ vs → MemoView.id v ≠ memoId)
    ∧ (∀ requester,
         get_memo requester memoId db'
         = match get_memo requester memoId db with
           | JsonMemo (Some v) => JsonMemo (Some (archived_view now v))
           | r => r
           end)
    ∧ (is_owner db (Some p) m →
         ∃ v, get_memo (Some p) memoId db' = JsonMemo (Some v)
              ∧ view_of_row memoId m' v)
    ∧ (∀ now_ms2 p2, may_write db' p2 m' →
         ∃ db'' m'',
           delete_memo now_ms2 (Some p2) memoId db' = (MemoDeleted, db'')
           ∧ memo db'' !! memoId = Some m''
           ∧ Memo.row_status m'' = "ARCHIVED").
Proof.
  intros Hm Hw now m'.
  exists (set_memo (insert memoId m') db).
  assert (Hm' : memo (set_memo (insert memoId m') db) !! memoId = Some m').
  { simpl. by rewrite lookup_insert_eq. }
  split_and!; try done.
  - by apply delete_memo_run.
  - intros i Hi. simpl. by rewrite lookup_insert_ne.
  - intros q vs Hq Hlist v Hv Hid.
    destruct (get_memos_views (set_memo (insert memoId m') db) q)
      as (vs' & Heq & Hvs').
    rewrite Hlist in Heq. injection Heq as ->.
    apply list_elem_of_fmap in Hv as (v' & [= <-] & Hv).
    destruct (select_memos_sound (set_memo (insert memoId m') db) q)
      as [Hrows _].
    assert (Hst : Forall (λ v, ∃ row, memo (set_memo (insert memoId m') db)
                                        !! MemoView.id v = Some row
                                      ∧ Memo.row_status row = "NORMAL") vs').
    { eapply Forall2_transfer; [|exact Hvs'|exact Hrows]. simpl.
      intros [i row] w Hview (Hrow & _ & Hwhere).
      apply whereClause_holds in Hwhere as (Hst & _).
      rewrite Hq in Hst. destruct Hview as (-> & _). eauto. }
    rewrite Forall_forall in Hst. destruct (Hst v Hv) as (row & Hrow & Hnormal).
    rewrite Hid, Hm' in Hrow. by simplify_eq.
  - intros requester. by apply get_memo_archived.
  - intros Hown. by apply get_memo_owner.
  - intros now_ms2 p2 Hw2.
    eexists _, _. split; [by apply delete_memo_run|].
    simpl. by rewrite lookup_insert_eq.
Qed.

(** *** Statistics *)

Global Instance date_desc_trans : Transitive date_desc.
Proof. unfold date_desc. intros x y z ??. by etrans. Qed.

Global Instance date_desc_total : Total date_desc.
Proof. unfold date_desc. intros x y. destruct (total String.le x y); auto. Qed.

(** Counting the rows of a scan that satisfy a condition is counting the
    entries of the table that satisfy it. *)
Lemma length_filter_map_to_list {A} (P : Z * A → Prop) `{!∀ x, Decision (P x)}
    (t : gmap Z A) :
  length (filter P (map_to_list t)) = size (filter P t).
Proof.
  rewrite <-length_map_to_list. apply Permutation_length.
  apply NoDup_Permutation.
  - apply NoDup_filter, NoDup_map_to_list.
  - apply NoDup_map_to_list.
  - intros [i x]. rewrite list_elem_of_filter, !elem_of_map_to_list.
    rewrite map_lookup_filter_Some. tauto.
Qed.

Lemma length_filter_fmap {A B} (f : A → B) (P : B → Prop)
    `{!∀ y, Decision (P y)} (l : list A) :
  length (filter P (f <$> l)) = length (filter (λ x, P (f x)) l).
Proof.
  induction l as [|x l IH]; [done|]. rewrite fmap_cons.
  destruct (decide (P (f x))).
  - rewrite !filter_cons_True by done. simpl. by rewrite IH.
  - rewrite !filter_cons_False by done. done.
Qed.

(** The count of a group is the number of counted memos with its date. *)
Lemma count_of_dates cutoff (t : gmap Z Memo.row) d :
  count_of d ((λ m : Z * Memo.row, DATE_unixepoch (Memo.created_ts m.2))
              <$> filter (recent cutoff) (map_to_list t))
  = Z.of_nat (size (filter (λ m, recent cutoff m
                          ∧ DATE_unixepoch (Memo.created_ts m.2) = d) t)).
Proof.
  unfold count_of. f_equal.
  rewrite length_filter_fmap, list_filter_filter.
  rewrite <-length_filter_map_to_list. f_equal.
  apply list_filter_iff. intros x. tauto.
Qed.

(** A list sorted by a relation and free of duplicates is sorted by the
    strict part of the relation, among the elements of the list. *)
Lemma StronglySorted_strict {A} (R : relation A) (l : list A) :
  StronglySorted R l → NoDup l →
  StronglySorted (λ x y, x ∈ l ∧ y ∈ l ∧ R x y ∧ x ≠ y) l.
Proof.
  intros Hs Hnd.
  cut (∀ k, l ⊆ k → StronglySorted (λ x y, x ∈ k ∧ y ∈ k ∧ R x y ∧ x ≠ y) l).
  { intros Hk. by apply Hk. }
  induction Hs as [|x l Hs IH Hx]; intros k Hk; [constructor|].
  apply NoDup_cons in Hnd as [Hnotin Hnd].
  constructor.
  - apply IH; [done|]. intros y Hy. apply Hk. by right.
  - rewrite Forall_forall in Hx. apply Forall_forall. intros y Hy.
    split_and!.
    + apply Hk. by left.
    + apply Hk. by right.
    + by apply Hx.
    + intros ->. done.
Qed.

(** Under the calendar contract, two stored memos have the same date text
    exactly when they were created on the same UTC day. *)
Lemma same_date_same_day db i1 m1 i2 m2 :
  calendar_agrees db →
  memo db !! i1 = Some m1 → memo db !! i2 = Some m2 →
  DATE_unixepoch (Memo.created_ts m1) = DATE_unixepoch (Memo.created_ts m2)
  ↔ utc_day (Memo.created_ts m1) = utc_day (Memo.created_ts m2).
Proof.
  intros Hcal Hm1 Hm2. unfold calendar_agrees in Hcal.
  rewrite map_Forall_lookup in Hcal.
  destruct (Hcal _ _ Hm1) as [Hmid1 Hord1], (Hcal _ _ Hm2) as [Hmid2 Hord2].
  rewrite map_Forall_lookup in Hord1. rewrite map_Forall_lookup in Hord2.
  split.
  - intros Heq. rewrite Heq in Hmid1. lia.
  - intros Heq. apply (anti_symm String.le).
    + apply (Hord1 _ _ Hm2). lia.
    + apply (Hord2 _ _ Hm1). lia.
Qed.

(** C9.  The statistics route.  [total] is the number of memos that are
    NORMAL and PUBLIC.  The histogram has one bucket for each date on which
    such a memo was created after the cutoff (30 days before now), and no
    other; the buckets come in descending order of their dates; a bucket
    holds the time that [Date] reads from the date text, in seconds, and
    the number of these memos with that date.  Where the platform's date
    functions agree with the UTC calendar on the timestamps of the store,
    the time of a bucket is the midnight that starts the day, the times
    descend strictly, and the count is the number of these memos created
    on that day. *)
Theorem get_stats_counts (now_ms : Z) (db : DB) :
  let cutoff := now_ms `div` 1000 - 30 * 24 * 60 * 60 in
  ∃ total hist dates,
    get_stats now_ms db = JsonStats total hist
    ∧ total = Z.of_nat (size (filter normal_public (memo db)))
    ∧ hist
      = (λ d, (Date_getTime d `div` 1000,
               Z.of_nat (size (filter
                 (λ m, recent cutoff m
                       ∧ DATE_unixepoch (Memo.created_ts m.2) = d)
                 (memo db)))))
        <$> dates
    ∧ NoDup dates
    ∧ StronglySorted (λ d1 d2, String.le d2 d1) dates
    ∧ (∀ d, d ∈ dates ↔
            ∃ i m, memo db !! i = Some m ∧ recent cutoff (i, m)
                   ∧ DATE_unixepoch (Memo.created_ts m) = d)
    ∧ (calendar_agrees db →
         StronglySorted (λ b1 b2 : Z * Z, b2.1 < b1.1) hist
         ∧ ∀ ts n, (ts, n) ∈ hist ↔
             ∃ i m, memo db !! i = Some m ∧ recent cutoff (i, m)
               ∧ ts = 86400 * utc_day (Memo.created_ts m)
               ∧ n = Z.of_nat (size (filter
                       (λ x, recent cutoff x
                             ∧ utc_day (Memo.created_ts x.2)
                               = utc_day (Memo.created_ts m))
                       (memo db)))).
Proof.
  intros cutoff. unfold get_stats, select_dailyStats. fold cutoff.
  set (ds := (λ m : Z * Memo.row, DATE_unixepoch (Memo.created_ts m.2))
             <$> filter (recent cutoff) (map_to_list (memo db))).
  set (dates := merge_sort date_desc (remove_dups ds)).
  assert (Hin : ∀ d, d ∈ dates ↔
            ∃ i m, memo db !! i = Some m ∧ recent cutoff (i, m)
                   ∧ DATE_unixepoch (Memo.created_ts m) = d).
  { intros d. subst dates ds.
    rewrite merge_sort_Permutation, elem_of_remove_dups, list_elem_of_fmap.
    split.
    - intros ([i m] & -> & [Hrec Hm%elem_of_map_to_list]%list_elem_of_filter).
      by exists i, m.
    - intros (i & m & Hm & Hrec & <-). exists (i, m). split; [done|].
      apply list_elem_of_filter. split; [done|]. by apply elem_of_map_to_list. }
  assert (Hnd : NoDup dates).
  { subst dates. rewrite merge_sort_Permutation. apply NoDup_remove_dups. }
  assert (Hsorted : StronglySorted date_desc dates).
  { subst dates. apply StronglySorted_merge_sort; apply _. }
  eexists _, _, dates. split; [reflexivity|].
  assert (Hhist :
    (λ row : string * Z, (Date_getTime row.1 `div` 1000, row.2))
      <$> ((λ date, (date, count_of date ds)) <$> dates)
    = (λ d, (Date_getTime d `div` 1000,
             Z.of_nat (size (filter
               (λ m, recent cutoff m
                     ∧ DATE_unixepoch (Memo.created_ts m.2) = d)
               (memo db)))))
      <$> dates).
  { rewrite <-list_fmap_compose. apply list_fmap_ext. intros _ d _. simpl.
    subst ds. by rewrite count_of_dates. }
  split_and!; [|done|done|done|done|].
  { by rewrite length_filter_map_to_list. }
  intros Hcal. rewrite Hhist.
  assert (Hts : ∀ i m, memo db !! i = Some m →
            Date_getTime (DATE_unixepoch (Memo.created_ts m)) `div` 1000
            = 86400 * utc_day (Memo.created_ts m)).
  { intros i m Hm. unfold calendar_agrees in Hcal.
    rewrite map_Forall_lookup in Hcal. destruct (Hcal _ _ Hm) as [-> _].
    rewrite Z.mul_comm. by apply Z.div_mul. }
  assert (Hcount : ∀ i m, memo db !! i = Some m →
            filter (λ x, recent cutoff x
                         ∧ DATE_unixepoch (Memo.created_ts x.2)
                           = DATE_unixepoch (Memo.created_ts m)) (memo db)
            = filter (λ x, recent cutoff x
                           ∧ utc_day (Memo.created_ts x.2)
                             = utc_day (Memo.created_ts m)) (memo db)).
  { intros i m Hm. apply map_filter_ext. intros j x Hx. simpl.
    by rewrite (same_date_same_day db j x i m). }
  split.
  - eapply StronglySorted_fmap; [|by apply StronglySorted_strict]. simpl.
    intros d1 d2 (Hd1 & Hd2 & Hle & Hne).
    apply Hin in Hd1 as (i1 & m1 & Hm1 & _ & <-).
    apply Hin in Hd2 as (i2 & m2 & Hm2 & _ & <-).
    rewrite (Hts _ _ Hm1), (Hts _ _ Hm2).
    assert (utc_day (Memo.created_ts m2) ≤ utc_day (Memo.created_ts m1)).
    { unfold calendar_agrees in Hcal. rewrite map_Forall_lookup in Hcal.
      destruct (Hcal _ _ Hm2) as [_ Hord]. rewrite map_Forall_lookup in Hord.
      by apply (Hord _ _ Hm1). }
    assert (utc_day (Memo.created_ts m1) ≠ utc_day (Memo.created_ts m2)).
    { intros Heq. apply Hne. by apply (same_date_same_day db i1 m1 i2 m2). }
    lia.
  - intros ts n. rewrite list_elem_of_fmap. split.
    + intros (d & [= -> ->] & (i & m & Hm & Hrec & <-)%Hin).
      exists i, m. split_and!; [done|done|by eapply Hts|].
      by rewrite (Hcount i m).
    + intros (i & m & Hm & Hrec & -> & ->).
      exists (DATE_unixepoch (Memo.created_ts m)). split.
      * by rewrite (Hts i m), (Hcount i m).
      * apply Hin. by exists i, m.
Qed.

(** *** Referential integrity

    The handlers never change the [user] table and never change the
    creator of a memo, and a creation stores the id of a user row: they
    keep [creators_exist]. *)

Lemma post_memo_creators_exist now_ms memoUid userPayload body db :
  creators_exist db →
  creators_exist (post_memo updateMemoTags now_ms memoUid userPayload body db).2.
Proof.
  intros Hdb. destruct userPayload as [p|]; [|done].
  destruct (nonempty (content body)) as [c|] eqn:Hc;
    [|by unfold post_memo; rewrite Hc].
  destruct (getUserIdFromUid db (sub p)) as [i|] eqn:Hi;
    [|by unfold post_memo; rewrite Hc, Hi].
  destruct (post_memo_run now_ms memoUid p body db c i Hc Hi)
    as (v & db' & -> & _ & Huser & _ & Hmemo & _). simpl.
  unfold creators_exist. rewrite Hmemo, Huser.
  apply map_Forall_insert_2; [|done].
  destruct (getUserIdFromUid_Some _ _ _ Hi) as (u & Hu & _). simpl. eauto.
Qed.

Lemma foldl_assign_creator m l :
  Memo.creator_id (foldl assign m l) = Memo.creator_id m.
Proof.
  revert m. induction l as [|a l IH]; intros m; [done|].
  simpl. rewrite IH. by destruct a.
Qed.

Lemma patch_memo_creators_exist now_ms userPayload memoId body db :
  creators_exist db →
  creators_exist (patch_memo updateMemoTags now_ms userPayload memoId body db).2.
Proof.
  intros Hdb. destruct userPayload as [p|]; [|done].
  destruct (memo db !! memoId) as [m|] eqn:Hm;
    [|by unfold patch_memo; rewrite Hm].
  destruct (decide (may_write db p m)) as [Hw|Hw].
  - destruct (patch_memo_run now_ms p memoId body db m Hm Hw)
      as (db' & -> & Huser & _ & Hmemo & _). simpl.
    unfold creators_exist. rewrite Hmemo, Huser. case_bool_decide; [|done].
    apply map_Forall_lookup. intros i x.
    destruct (decide (memoId = i)) as [<-|Hne].
    + rewrite lookup_alter_eq, Hm. intros [= <-].
      rewrite foldl_assign_creator.
      by apply (map_Forall_lookup_1 _ _ _ _ Hdb Hm).
    + rewrite lookup_alter_ne by done. by apply (map_Forall_lookup_1 _ _ _ _ Hdb).
  - apply write_denied_iff in Hw. unfold patch_memo. rewrite Hm. simpl.
    by rewrite Hw.
Qed.

Lemma delete_memo_creators_exist now_ms userPayload memoId db :
  creators_exist db →
  creators_exist (delete_memo now_ms userPayload memoId db).2.
Proof.
  intros Hdb. destruct userPayload as [p|]; [|done].
  destruct (memo db !! memoId) as [m|] eqn:Hm;
    [|by unfold delete_memo; rewrite Hm].
  destruct (decide (may_write db p m)) as [Hw|Hw].
  - rewrite (delete_memo_run now_ms p memoId db m Hm Hw). simpl.
    unfold creators_exist. simpl. apply map_Forall_insert_2; [|done].
    by apply (map_Forall_lookup_1 _ _ _ _ Hdb Hm).
  - apply write_denied_iff in Hw. unfold delete_memo. rewrite Hm. simpl.
    by rewrite Hw.
Qed.

End properties.

(** * The handlers on the sample store *)

Import Sample.

(** A decidable fact about the sample store, settled by evaluation. *)
Ltac decide_by_evaluation :=
  refine (bool_decide_unpack _ _); vm_compute; exact I.

(** Anonymous fetch of the public memo 2 and of the private memo 1; fetch
    of memo 1 by its creator and by another user. *)
Lemma get_memo_guard_witness :
  (∃ v, get_memo (H:=platform) None 2 db0 = JsonMemo (Some v)
        ∧ view_of_row 2 memo2 v)
  ∧ get_memo (H:=platform) None 1 db0 = Forbidden
  ∧ get_memo (H:=platform) (Some bob) 1 db0 = Forbidden
  ∧ (∃ v, get_memo (H:=platform) (Some alice) 1 db0 = JsonMemo (Some v)
          ∧ view_of_row 1 memo1 v)
  ∧ get_memo (H:=platform) (Some alice) 99 db0 = MemoNotFound.
Proof.
  split_and!.
  - destruct (get_memo_guard (H:=platform) db0 None 2) as [_ Hm].
    destruct (Hm memo2) as [Hpub _];
      [reflexivity|by eexists|]. by apply Hpub.
  - destruct (get_memo_guard (H:=platform) db0 None 1) as [_ Hm].
    destruct (Hm memo1) as [_ Hpriv];
      [reflexivity|by eexists|].
    destruct Hpriv as (_ & Hno & _); [reflexivity|]. apply Hno. by intros [].
  - destruct (get_memo_guard (H:=platform) db0 (Some bob) 1) as [_ Hm].
    destruct (Hm memo1) as [_ Hpriv];
      [reflexivity|by eexists|].
    destruct Hpriv as (_ & Hno & _); [reflexivity|]. apply Hno.
    vm_compute. discriminate.
  - destruct (get_memo_guard (H:=platform) db0 (Some alice) 1) as [_ Hm].
    destruct (Hm memo1) as [_ Hpriv];
      [reflexivity|by eexists|].
    destruct Hpriv as (Hyes & _); [reflexivity|]. apply Hyes. reflexivity.
  - destruct (get_memo_guard (H:=platform) db0 (Some alice) 99) as [Hnone _].
    apply Hnone. reflexivity.
Defined.

(** Update and delete of memo 1 (alice's) by nobody, by bob, by alice and
    by the host, and of a memo that does not exist. *)
Lemma write_guard_witness :
  let body := MkBody (Some "edited") None None None in
  patch_memo (H:=platform) no_tags 1700100000000 None 1 body db0
  = (Unauthorized, db0)
  ∧ delete_memo 1700100000000 (Some alice) 99 db0 = (MemoNotFound, db0)
  ∧ delete_memo 1700100000000 (Some bob) 1 db0 = (Forbidden, db0)
  ∧ (delete_memo 1700100000000 (Some host) 1 db0).1 = MemoDeleted
  ∧ (∃ v, (patch_memo (H:=platform) no_tags 1700100000000 (Some alice) 1
             body db0).1 = JsonMemo v).
Proof.
  intros body. split_and!.
  - destruct (write_guard (H:=platform) no_tags 1700100000000 None 1 body db0)
      as [Hnone _]. by apply Hnone.
  - destruct (write_guard (H:=platform) no_tags 1700100000000 (Some alice) 99
                body db0) as [_ Hp].
    destruct (Hp alice eq_refl) as [Hmiss _]. by apply Hmiss.
  - destruct (write_guard (H:=platform) no_tags 1700100000000 (Some bob) 1
                body db0) as [_ Hp].
    destruct (Hp bob eq_refl) as [_ Hm].
    destruct (Hm memo1) as (Hno & _); [reflexivity|]. apply Hno.
    vm_compute. by intros [|].
  - destruct (write_guard (H:=platform) no_tags 1700100000000 (Some host) 1
                body db0) as [_ Hp].
    destruct (Hp host eq_refl) as [_ Hm].
    destruct (Hm memo1) as (_ & Hyes & _); [reflexivity|]. apply Hyes.
    by right.
  - destruct (write_guard (H:=platform) no_tags 1700100000000 (Some alice) 1
                body db0) as [_ Hp].
    destruct (Hp alice eq_refl) as [_ Hm].
    destruct (Hm memo1) as (_ & Hyes & _); [reflexivity|]. apply Hyes.
    by left.
Defined.

(** C3, counterexample.  Alice updates her memo 1 at the time 1700100000
    with a body that has only a [resourceIdList].  The update succeeds and
    replaces the associations, and the row keeps its updated timestamp
    1700000000: it is not refreshed to the current time. *)
Lemma patch_memo_timestamp_counterexample :
  let now_ms := 1700100000000 in
  let body := MkBody None None (Some [7]) None in
  let r := patch_memo (H:=platform) no_tags now_ms (Some alice) 1 body db0 in
  (∃ v, r.1 = JsonMemo (Some v)
        ∧ MemoView.resourceIdList v = [7]
        ∧ MemoView.updatedTs v = 1700000000)
  ∧ Memo.updated_ts <$> memo r.2 !! 1 = Some 1700000000
  ∧ Memo.updated_ts <$> memo r.2 !! 1 ≠ Some (now_ms `div` 1000).
Proof.
  split_and!; [eexists; split_and!; reflexivity|reflexivity|].
  vm_compute. discriminate.
Qed.

(** An update of memo 1 that sets the content, and one that sets
    nothing. *)
Lemma patch_memo_row_witness :
  let body := MkBody (Some "edited") None None None in
  let r := patch_memo (H:=platform) no_tags 1700100000000 (Some alice) 1
                      body db0 in
  memo r.2 !! 1
  = Some (Memo.Row "m-1" 1 "edited" "PRIVATE" "NORMAL" 1700000000 1700100000)
  ∧ memo r.2 !! 2 = Some memo2.
Proof.
  intros body r.
  destruct (patch_memo_row (H:=platform) no_tags 1700100000000 (Some alice) 1
              body db0 (getMemoWithDetails (H:=platform) r.2 1) r.2)
    as (m & Hm & Hrow & Hothers & _).
  { reflexivity. }
  assert (Hm1 : memo db0 !! 1 = Some memo1) by reflexivity.
  rewrite Hm1 in Hm. injection Hm as <-.
  split; [exact Hrow|]. rewrite Hothers by done. reflexivity.
Defined.

(** C4, counterexample.  Alice updates her memo 1, which has the resources
    7 and 8, with a body whose [resources] is the empty list.  The update
    succeeds and memo 1 still has both resources, not none. *)
Lemma patch_memo_empty_resources_counterexample :
  let body := MkBody None None None (Some []) in
  let r := patch_memo (H:=platform) no_tags 1700100000000 (Some alice) 1
                      body db0 in
  associations db0 1 = [7; 8]
  ∧ (∃ v, r.1 = JsonMemo (Some v) ∧ MemoView.resourceIdList v = [7; 8])
  ∧ associations r.2 1 = [7; 8]
  ∧ associations r.2 1 ≠ [].
Proof.
  split_and!; [reflexivity|eexists; split; reflexivity|reflexivity|].
  vm_compute. discriminate.
Qed.

(** Updates of memo 1 with an empty [resourceIdList], with a [resources]
    list of which one reference resolves, and with neither. *)
Lemma patch_memo_associations_witness :
  let run body :=
    (patch_memo (H:=platform) no_tags 1700100000000 (Some alice) 1 body db0).2 in
  associations (run (MkBody None None (Some []) None)) 1 = []
  ∧ associations
      (run (MkBody None None (Some [8])
              (Some [MkResourceRef (Some "resources/abc123");
                     MkResourceRef (Some "resources/nope")]))) 1
    = [7]
  ∧ memo_resource (run (MkBody (Some "edited") None None None))
    = memo_resource db0.
Proof.
  intros run. split_and!.
  - set (body := MkBody None None (Some []) None).
    destruct (patch_memo_associations (H:=platform) no_tags 1700100000000
                (Some alice) 1 body db0
                (getMemoWithDetails (H:=platform) (run body) 1) (run body))
      as (_ & _ & _ & Hempty & _); [reflexivity|].
    by apply Hempty.
  - set (body := MkBody None None (Some [8]) _).
    destruct (patch_memo_associations (H:=platform) no_tags 1700100000000
                (Some alice) 1 body db0
                (getMemoWithDetails (H:=platform) (run body) 1) (run body))
      as (_ & Hres & _); [reflexivity|].
    rewrite Hres by done. reflexivity.
  - set (body := MkBody (Some "edited") None None None).
    destruct (patch_memo_associations (H:=platform) no_tags 1700100000000
                (Some alice) 1 body db0
                (getMemoWithDetails (H:=platform) (run body) 1) (run body))
      as (Hsame & _); [reflexivity|].
    by apply Hsame.
Defined.

(** C10, counterexample.  A principal with no user row posts a body
    without content: the answer is "Content is required" (400), not "User
    not found" (404). *)
Lemma post_memo_unknown_user_counterexample :
  let r := post_memo (H:=platform) no_tags 1700100000000 "m-5" (Some ghost)
                     (MkBody None None None None) db0 in
  getUserIdFromUid db0 (sub ghost) = None
  ∧ r = (JsonMessage "Content is required" 400, db0)
  ∧ r.1 ≠ JsonMessage "User not found" 404.
Proof. split_and!; [reflexivity|reflexivity|discriminate]. Qed.

(** The same principal posts a body with content. *)
Lemma post_memo_unknown_user_witness :
  post_memo (H:=platform) no_tags 1700100000000 "m-5" (Some ghost)
            (MkBody (Some "hello") None None None) db0
  = (UserNotFound, db0).
Proof.
  destruct (post_memo_unknown_user (H:=platform) no_tags 1700100000000 "m-5"
              ghost (MkBody (Some "hello") None None None) db0)
    as (_ & Hc & _); [reflexivity|].
  by apply (Hc "hello").
Defined.

(** A creation and an update whose second reference names no stored
    resource. *)
Lemma unresolved_reference_dropped_witness :
  let body := MkBody (Some "x") None None
                (Some [ref "resources/abc123"; ref "resources/nope";
                       ref "resources/def456"]) in
  (∃ v db',
      post_memo (H:=platform) no_tags 1700100000000 "m-5" (Some alice) body db0
      = (JsonMemo (Some v), db')
      ∧ memo_resource db'
        = memo_resource db0 ++ [(MemoView.id v, 7); (MemoView.id v, 8)])
  ∧ (∃ v db',
      patch_memo (H:=platform) no_tags 1700100000000 (Some alice) 1 body db0
      = (JsonMemo v, db')
      ∧ associations db' 1 = [7; 8]).
Proof.
  intros body.
  destruct (unresolved_reference_dropped (H:=platform) no_tags 1700100000000
              "m-5" 1 alice body db0
              [ref "resources/abc123"] [ref "resources/def456"]
              (ref "resources/nope") "nope")
    as (_ & _ & Hpost & Hpatch).
  { reflexivity. }
  { reflexivity. }
  { intros k row.
    apply (map_Forall_lookup_1 (λ _ row, Resource.uid row ≠ "nope")).
    decide_by_evaluation. }
  split.
  - destruct (Hpost "x" 1) as (v & db' & Hrun & Hmr); [reflexivity..|].
    by exists v, db'.
  - destruct (Hpatch memo1) as (v & db' & Hrun & Hassoc);
      [reflexivity|by left|].
    by exists v, db'.
Defined.

(** A creation and an update with both a [resourceIdList] and a
    [resources] list: the references decide, twice the same one gives its
    id twice. *)
Lemma structured_resources_win_witness :
  let body := MkBody (Some "x") None (Some [8])
                (Some [ref "resources/abc123"; ref "resources/abc123"]) in
  (∃ v db',
      post_memo (H:=platform) no_tags 1700100000000 "m-5" (Some alice) body db0
      = (JsonMemo (Some v), db')
      ∧ memo_resource db'
        = memo_resource db0 ++ [(MemoView.id v, 7); (MemoView.id v, 7)])
  ∧ (∃ v db',
      patch_memo (H:=platform) no_tags 1700100000000 (Some alice) 1 body db0
      = (JsonMemo v, db')
      ∧ associations db' 1 = [7; 7]).
Proof.
  intros body.
  destruct (structured_resources_win (H:=platform) no_tags 1700100000000
              "m-5" 1 alice body db0
              [ref "resources/abc123"; ref "resources/abc123"] [8])
    as (Hpost & Hpatch & _); [reflexivity|done|reflexivity|done|].
  split.
  - destruct (Hpost "x" 1) as (v & db' & Hrun & Hmr); [reflexivity..|].
    by exists v, db'.
  - destruct (Hpatch memo1) as (v & db' & Hrun & Hassoc);
      [reflexivity|by left|].
    by exists v, db'.
Defined.

(** The default listing shows public memos only; the listing of two of
    alice's memos shows her private memo 1, in a store of four memos. *)
Lemma get_memos_filter_witness :
  (∃ vs, get_memos (H:=platform) (MkListQuery None None None None None None) db0
         = JsonMemos (Some <$> vs)
         ∧ Forall (λ v, MemoView.visibility v = "PUBLIC") vs
         ∧ Forall (λ v, MemoView.rowStatus v = "NORMAL") vs)
  ∧ (∃ vs v,
        get_memos (H:=platform)
          (MkListQuery None (Some "1") None None (Some 2) None) db0
        = JsonMemos (Some <$> vs)
        ∧ v ∈ vs ∧ view_of_row 1 memo1 v).
Proof.
  split.
  - destruct (get_memos_filter (H:=platform)
                (MkListQuery None None None None None None) db0)
      as (vs & Heq & _ & Hnormal & _ & Hpub & _).
    exists vs. split_and!; [done|by apply Hpub|by apply Hnormal].
  - destruct (get_memos_filter (H:=platform)
                (MkListQuery None (Some "1") None None (Some 2) None) db0)
      as (vs & Heq & _ & _ & _ & _ & Hown).
    destruct (Hown "1") as (_ & all & Hnd & Hall & _ & _ & Hcomplete);
      [reflexivity..|].
    destruct (Hcomplete ltac:(done)) with (i := 1) (m := memo1)
      as (v & Hv & Hview).
    + right.
      pose proof (NoDup_length_filter
                    (λ row : Z * Memo.row,
                       @int_eq_text platform (Memo.creator_id row.2) "1"
                       = true)
                    all (map_to_list (memo db0)) Hnd) as Hlen.
      assert (Hcount :
        length (filter (λ row : Z * Memo.row,
                          @int_eq_text platform (Memo.creator_id row.2) "1"
                          = true)
                       (map_to_list (memo db0))) = 2%nat)
        by (vm_compute; reflexivity).
      rewrite Hcount in Hlen. simpl.
      apply (inj_le _ 2), Hlen.
      intros [i m] (Hm & _ & Hc & _)%Hall.
      split; [by apply elem_of_map_to_list|done].
    + apply Hall. split_and!; [reflexivity|by eexists|reflexivity..|done].
    + by exists vs, v.
Defined.

(** Alice deletes her memo 1 and fetches it again. *)
Lemma delete_memo_archives_witness :
  ∃ db' v,
    delete_memo 1700100000000 (Some alice) 1 db0 = (MemoDeleted, db')
    ∧ memo db' !! 1
      = Some (Memo.Row "m-1" 1 "hello #world" "PRIVATE" "ARCHIVED"
                       1700000000 1700100000)
    ∧ memo_resource db' = [(1, 7); (1, 8)]
    ∧ get_memo (H:=platform) (Some alice) 1 db' = JsonMemo (Some v)
    ∧ MemoView.rowStatus v = "ARCHIVED".
Proof.
  destruct (delete_memo_archives (H:=platform) 1700100000000 alice 1 db0 memo1)
    as (db' & Hrun & Hrow & _ & _ & _ & Hmr & _ & _ & _ & _ & Hown & _);
    [reflexivity|by left|].
  destruct Hown as (v & Hv & Hview); [reflexivity|].
  exists db', v. split_and!; [done|done|done|done|].
  by destruct Hview as (_ & _ & _ & _ & _ & -> & _).
Defined.

(** The statistics of the sample store on 2023-11-16: one memo on each of
    the two days before. *)
Lemma get_stats_counts_witness :
  get_stats (H:=platform) 1700100000000 db0
  = JsonStats 2 [(1700006400, 1); (1699920000, 1)]
  ∧ StronglySorted (λ b1 b2 : Z * Z, b2.1 < b1.1)
                   [(1700006400, 1); (1699920000, 1)].
Proof.
  destruct (get_stats_counts (H:=platform) 1700100000000 db0)
    as (total & hist & dates & Heq & _ & _ & _ & _ & _ & Hcal).
  destruct Hcal as [Hsorted _].
  { decide_by_evaluation. }
  assert (Hrun : get_stats (H:=platform) 1700100000000 db0
                 = JsonStats 2 [(1700006400, 1); (1699920000, 1)])
    by reflexivity.
  rewrite Hrun in Heq. injection Heq as <- <-. by split.
Defined.

(** * Further properties of the handlers *)

Section more_properties.
Context `{Platform} (updateMemoTags : TagSync).

(** *** Refused requests *)

Lemma patch_memo_refused now_ms userPayload memoId body db message status :
  (patch_memo updateMemoTags now_ms userPayload memoId body db).1
  = JsonMessage message status →
  (patch_memo updateMemoTags now_ms userPayload memoId body db).2 = db.
Proof.
  unfold patch_memo. destruct userPayload as [p|]; [|done].
  destruct (memo db !! memoId) as [m|]; [|done]. simpl.
  by destruct (_ && _).
Qed.

Lemma delete_memo_refused now_ms userPayload memoId db message status :
  (delete_memo now_ms userPayload memoId db).1 = JsonMessage message status →
  status ≠ 200 →
  (delete_memo now_ms userPayload memoId db).2 = db.
Proof.
  unfold delete_memo. destruct userPayload as [p|]; [|done].
  destruct (memo db !! memoId) as [m|]; [|done]. simpl.
  destruct (_ && _); [done|]. simpl. intros Heq Hne. by injection Heq as _ <-.
Qed.

(** X1.  A creation, update or deletion that is answered with a message
    of status 400, 401, 403 or 404 has written nothing: the store is as it
    was.  These are the answers that the handlers give before their first
    write; the answer 500 of their [catch] branches, which a handler gives
    when one of its statements throws and possibly after a write, is not
    one of them and is not an answer of the handlers as modelled here. *)
Theorem refused_request_writes_nothing (r : request) (db : DB)
    (message : string) (status : Z) :
  (handle updateMemoTags r db).1 = JsonMessage message status →
  status ∈ [400; 401; 403; 404] →
  (handle updateMemoTags r db).2 = db.
Proof.
  intros Hresp Hstatus.
  assert (status ≠ 200) as Hne.
  { intros ->. by repeat apply elem_of_cons in Hstatus as [?|Hstatus];
      [..|apply elem_of_nil in Hstatus]. }
  destruct r; simpl in *.
  - by eapply post_memo_refused.
  - by eapply patch_memo_refused.
  - by eapply delete_memo_refused.
Qed.

(** *** Creation *)

(** The row id of an insert is above every id in use. *)
Lemma next_rowid_above {A} (t : gmap Z A) i x :
  t !! i = Some x → i < next_rowid t.
Proof.
  intros Hx. apply elem_of_map_to_list in Hx.
  apply (list_elem_of_fmap_2 fst) in Hx. simpl in Hx.
  unfold next_rowid.
  destruct ((map_to_list t).*1) as [|k ks]; [by apply elem_of_nil in Hx|].
  destruct (foldr_max_ge k ks) as [Hk Hks].
  apply elem_of_cons in Hx as [->|Hx]; [lia|].
  specialize (Hks _ Hx). lia.
Qed.

Lemma post_memo_view now_ms memoUid userPayload body db v db' :
  post_memo updateMemoTags now_ms memoUid userPayload body db
  = (JsonMemo v, db') →
  ∃ p c i, userPayload = Some p ∧ nonempty (content body) = Some c
           ∧ getUserIdFromUid db (sub p) = Some i
           ∧ v = getMemoWithDetails db' (next_rowid (memo db)).
Proof.
  unfold post_memo. destruct userPayload as [p|]; [|done].
  destruct (nonempty (content body)) as [c|]; [|done].
  destruct (getUserIdFromUid db (sub p)) as [i|] eqn:Hi; [|done].
  intros [= <- <-]. exists p, c, i. by split_and!.
Qed.

(** X2.  A creation that is answered with a view has stored one new memo
    row: under an id above every id in use, with the uid handed in, the
    resolved id of the principal as creator, the content of the body, its
    visibility as it is written there (PRIVATE when the body has none),
    status NORMAL and both timestamps at the current second.  The memo
    rows that were there, the users and the resources are unchanged, and
    the link table keeps its rows, in order, before the new ones. *)
Theorem post_memo_creates (now_ms : Z) (memoUid : string)
    (userPayload : option UserPayload) (body : Body) (db : DB)
    (v : option MemoView.t) (db' : DB) :
  post_memo updateMemoTags now_ms memoUid userPayload body db
  = (JsonMemo v, db') →
  ∃ p c i w,
    userPayload = Some p ∧ nonempty (content body) = Some c
    ∧ getUserIdFromUid db (sub p) = Some i
    ∧ v = Some w
    ∧ memo db !! MemoView.id w = None
    ∧ (∀ j x, memo db !! j = Some x → j < MemoView.id w)
    ∧ memo db' !! MemoView.id w
      = Some (Memo.Row memoUid i c (default "PRIVATE" (visibility body))
                       "NORMAL" (now_ms `div` 1000) (now_ms `div` 1000))
    ∧ (∀ j, j ≠ MemoView.id w → memo db' !! j = memo db !! j)
    ∧ user db' = user db ∧ resource db' = resource db
    ∧ memo_resource db `prefix_of` memo_resource db'.
Proof.
  intros Hrun.
  destruct (post_memo_view _ _ _ _ _ _ _ Hrun) as (p & c & i & -> & Hc & Hi & _).
  destruct (post_memo_run updateMemoTags now_ms memoUid p body db c i Hc Hi)
    as (w & db'' & Hrun' & Hview & Huser & Hres & Hmemo & Hmr).
  rewrite Hrun in Hrun'. injection Hrun' as -> ->.
  destruct Hview as (Hid & _).
  exists p, c, i, w. rewrite Hid, Hmemo, Hmr.
  split_and!; try done.
  - apply next_rowid_fresh.
  - intros j x. apply next_rowid_above.
  - by rewrite lookup_insert_eq.
  - intros j Hj. by rewrite lookup_insert_ne.
  - by eexists.
Qed.

Lemma get_memo_details userPayload memoId db v :
  get_memo userPayload memoId db = JsonMemo v →
  v = getMemoWithDetails db memoId.
Proof.
  unfold get_memo. destruct (select_memo db memoId) as [[m n]|]; [|done].
  destruct (_ && _); [done|]. by intros [= <-].
Qed.

(** X3.  After a creation that is answered with a view, a direct fetch of
    the new id by the same principal returns that very view.  An anonymous
    fetch returns it when the visibility written in the body is not
    PRIVATE, and is answered "Forbidden" when the body names PRIVATE or no
    visibility at all. *)
Theorem post_memo_then_get (now_ms : Z) (memoUid : string)
    (userPayload : option UserPayload) (body : Body) (db : DB)
    (w : MemoView.t) (db' : DB) :
  post_memo updateMemoTags now_ms memoUid userPayload body db
  = (JsonMemo (Some w), db') →
  get_memo userPayload (MemoView.id w) db' = JsonMemo (Some w)
  ∧ (default "PRIVATE" (visibility body) ≠ "PRIVATE" →
       get_memo None (MemoView.id w) db' = JsonMemo (Some w))
  ∧ (default "PRIVATE" (visibility body) = "PRIVATE" →
       get_memo None (MemoView.id w) db' = Forbidden).
Proof.
  intros Hrun.
  destruct (post_memo_view _ _ _ _ _ _ _ Hrun)
    as (p & c & i & -> & Hc & Hi & Hw).
  destruct (post_memo_run updateMemoTags now_ms memoUid p body db c i Hc Hi)
    as (w' & db'' & Hrun' & Hview & Huser & Hres & Hmemo & Hmr).
  rewrite Hrun in Hrun'. injection Hrun' as <- <-.
  destruct Hview as (Hid & _). rewrite Hid.
  set (row := Memo.Row _ _ _ _ _ _ _) in Hmemo.
  assert (Hrow : memo db' !! next_rowid (memo db) = Some row)
    by (by rewrite Hmemo, lookup_insert_eq).
  destruct (getUserIdFromUid_Some _ _ _ Hi) as (u & Hu & _).
  assert (Hsel : select_memo db' (next_rowid (memo db))
                 = Some (row, User.username u)).
  { unfold select_memo. rewrite Hrow. simpl. rewrite Huser, Hu. done. }
  split_and!.
  - destruct (get_memo_owner db' (Some p) (next_rowid (memo db)) row)
      as (w' & Hget & _); [done| |].
    { simpl. unfold getUserIdFromUid. rewrite Huser. exact Hi. }
    rewrite Hget. apply get_memo_details in Hget. congruence.
  - intros Hvis. unfold get_memo. rewrite Hsel. simpl.
    rewrite bool_decide_eq_false_2 by done. simpl. by rewrite <-Hw.
  - intros Hvis. unfold get_memo. rewrite Hsel. simpl.
    by rewrite bool_decide_eq_true_2.
Qed.

(** *** Deleting twice *)

(** X4.  Deleting is idempotent: the same delete request, sent again at
    the same time to the store that the first one left, gets the same
    answer and leaves that store as it is. *)
Theorem delete_memo_idempotent (now_ms : Z) (userPayload : option UserPayload)
    (memoId : Z) (db : DB) :
  let first := delete_memo now_ms userPayload memoId db in
  delete_memo now_ms userPayload memoId first.2 = (first.1, first.2).
Proof.
  simpl. destruct userPayload as [p|]; [|done].
  destruct (memo db !! memoId) as [m|] eqn:Hm;
    [|by unfold delete_memo; rewrite Hm; simpl; rewrite Hm].
  destruct (decide (may_write db p m)) as [Hw|Hw].
  - rewrite (delete_memo_run now_ms p memoId db m Hm Hw). cbn [fst snd].
    rewrite (delete_memo_run now_ms p memoId _ (archive (now_ms `div` 1000) m)).
    + unfold set_memo. simpl. by rewrite insert_insert_eq.
    + simpl. by rewrite lookup_insert_eq.
    + exact Hw.
  - apply write_denied_iff in Hw. unfold delete_memo. rewrite Hm. simpl.
    rewrite Hw. simpl. by rewrite Hm, Hw.
Qed.

(** *** What no sequence of requests does *)

Lemma foldl_assign_frame m l :
  Memo.uid (foldl assign m l) = Memo.uid m
  ∧ Memo.creator_id (foldl assign m l) = Memo.creator_id m
  ∧ Memo.row_status (foldl assign m l) = Memo.row_status m
  ∧ Memo.created_ts (foldl assign m l) = Memo.created_ts m.
Proof.
  revert m. induction l as [|a l IH]; intros m; [done|].
  simpl. destruct (IH (assign m a)) as (-> & -> & -> & ->). by destruct a.
Qed.

(** One request keeps the users and the resources, and keeps every memo
    row, with its uid, creator and creation time; its status is the former
    one or ARCHIVED. *)
Lemma handle_step r db :
  let db' := (handle updateMemoTags r db).2 in
  user db' = user db ∧ resource db' = resource db
  ∧ ∀ i m, memo db !! i = Some m →
      ∃ m', memo db' !! i = Some m'
            ∧ Memo.uid m' = Memo.uid m
            ∧ Memo.creator_id m' = Memo.creator_id m
            ∧ Memo.created_ts m' = Memo.created_ts m
            ∧ (Memo.row_status m' = Memo.row_status m
               ∨ Memo.row_status m' = "ARCHIVED").
Proof.
  assert (Hsame : ∀ i m, memo db !! i = Some m →
            ∃ m', memo db !! i = Some m'
                  ∧ Memo.uid m' = Memo.uid m
                  ∧ Memo.creator_id m' = Memo.creator_id m
                  ∧ Memo.created_ts m' = Memo.created_ts m
                  ∧ (Memo.row_status m' = Memo.row_status m
                     ∨ Memo.row_status m' = "ARCHIVED")).
  { intros i m Hm. exists m. split_and!; auto. }
  destruct r as [now_ms memoUid userPayload body|now_ms userPayload memoId body
                |now_ms userPayload memoId]; simpl.
  - destruct userPayload as [p|]; [|done].
    destruct (nonempty (content body)) as [c|] eqn:Hc;
      [|by unfold post_memo; rewrite Hc].
    destruct (getUserIdFromUid db (sub p)) as [u|] eqn:Hu;
      [|by unfold post_memo; rewrite Hc, Hu].
    destruct (post_memo_run updateMemoTags now_ms memoUid p body db c u Hc Hu)
      as (v & db' & -> & _ & Huser & Hres & Hmemo & _). simpl.
    split_and!; [done|done|]. intros i m Hm. rewrite Hmemo.
    rewrite lookup_insert_ne; [by apply Hsame|].
    intros <-. by rewrite next_rowid_fresh in Hm.
  - destruct userPayload as [p|]; [|done].
    destruct (memo db !! memoId) as [m0|] eqn:Hm0;
      [|by unfold patch_memo; rewrite Hm0].
    destruct (decide (may_write db p m0)) as [Hw|Hw];
      [|by apply write_denied_iff in Hw; unfold patch_memo;
           rewrite Hm0; simpl; rewrite Hw].
    destruct (patch_memo_run updateMemoTags now_ms p memoId body db m0 Hm0 Hw)
      as (db' & -> & Huser & Hres & Hmemo & _). simpl.
    split_and!; [done|done|]. intros i m Hm. rewrite Hmemo.
    case_bool_decide; [|by apply Hsame].
    destruct (decide (memoId = i)) as [<-|Hne].
    + rewrite lookup_alter_eq, Hm. simpl. eexists. split; [done|].
      destruct (foldl_assign_frame m (patch_updates (now_ms `div` 1000) body))
        as (-> & -> & -> & ->). auto.
    + rewrite lookup_alter_ne by done. by apply Hsame.
  - destruct userPayload as [p|]; [|done].
    destruct (memo db !! memoId) as [m0|] eqn:Hm0;
      [|by unfold delete_memo; rewrite Hm0].
    destruct (decide (may_write db p m0)) as [Hw|Hw];
      [|by apply write_denied_iff in Hw; unfold delete_memo;
           rewrite Hm0; simpl; rewrite Hw].
    rewrite (delete_memo_run now_ms p memoId db m0 Hm0 Hw). simpl.
    split_and!; [done|done|]. intros i m Hm.
    destruct (decide (memoId = i)) as [<-|Hne].
    + rewrite lookup_insert_eq. simplify_eq. eexists. split; [done|].
      simpl. auto.
    + rewrite lookup_insert_ne by done. by apply Hsame.
Qed.

Lemma run_cons r rs db :
  run updateMemoTags (r :: rs) db
  = run updateMemoTags rs (handle updateMemoTags r db).2.
Proof. done. Qed.

(** X5.  Through any sequence of create, update and delete requests, the
    users and the resources are never written, and a memo row is never
    removed: it keeps its id, uid, creator and creation time, and once its
    status is ARCHIVED it stays ARCHIVED. *)
Theorem run_keeps_memos (rs : list request) (db : DB) :
  let db' := run updateMemoTags rs db in
  user db' = user db ∧ resource db' = resource db
  ∧ ∀ i m, memo db !! i = Some m →
      ∃ m', memo db' !! i = Some m'
            ∧ Memo.uid m' = Memo.uid m
            ∧ Memo.creator_id m' = Memo.creator_id m
            ∧ Memo.created_ts m' = Memo.created_ts m
            ∧ (Memo.row_status m' = Memo.row_status m
               ∨ Memo.row_status m' = "ARCHIVED")
            ∧ (Memo.row_status m = "ARCHIVED" →
                 Memo.row_status m' = "ARCHIVED").
Proof.
  simpl. revert db. induction rs as [|r rs IH]; intros db.
  - split_and!; [done|done|]. intros i m Hm. exists m. split_and!; auto.
  - rewrite run_cons.
    destruct (handle_step r db) as (Huser & Hres & Hstep).
    destruct (IH (handle updateMemoTags r db).2) as (Huser' & Hres' & Hrest).
    split_and!; [congruence|congruence|].
    intros i m Hm.
    destruct (Hstep i m Hm) as (m1 & Hm1 & Hu1 & Hc1 & Ht1 & Hs1).
    destruct (Hrest i m1 Hm1) as (m2 & Hm2 & Hu2 & Hc2 & Ht2 & Hs2 & Ha2).
    exists m2. split_and!; [done|congruence..| |].
    + destruct Hs1 as [Hs1|Hs1]; [rewrite <-Hs1; exact Hs2|].
      right. by apply Ha2.
    + intros Ha. destruct Hs1 as [Hs1|Hs1]; apply Ha2; congruence.
Qed.

Lemma handle_creators_exist r db :
  creators_exist db → creators_exist (handle updateMemoTags r db).2.
Proof.
  destruct r; simpl.
  - apply post_memo_creators_exist.
  - apply patch_memo_creators_exist.
  - apply delete_memo_creators_exist.
Qed.

Lemma run_creators_exist rs db :
  creators_exist db → creators_exist (run updateMemoTags rs db).
Proof.
  revert db. induction rs as [|r rs IH]; intros db Hdb; [done|].
  rewrite run_cons. apply IH. by apply handle_creators_exist.
Qed.

(** X6.  The requests keep the reference from a memo to its creator
    intact: in the store that any sequence of requests makes of a store in
    which every creator has a user row (one without memos, say), every
    creator has a user row.  There a direct fetch finds every stored memo:
    one whose visibility is not PRIVATE is returned to every requester,
    and a PRIVATE one is never answered "Memo not found". *)
Theorem run_keeps_memos_fetchable (rs : list request) (db : DB)
    (userPayload : option UserPayload) (memoId : Z) (m : Memo.row) :
  creators_exist db →
  let db' := run updateMemoTags rs db in
  memo db' !! memoId = Some m →
  creators_exist db'
  ∧ get_memo userPayload memoId db' ≠ MemoNotFound
  ∧ (Memo.visibility m ≠ "PRIVATE" →
       ∃ v, get_memo userPayload memoId db' = JsonMemo (Some v)
            ∧ view_of_row memoId m v).
Proof.
  intros Hdb db' Hm.
  assert (Hdb' : creators_exist db') by by apply run_creators_exist.
  pose proof (map_Forall_lookup_1 _ _ _ _ Hdb' Hm) as Hu. simpl in Hu.
  destruct (select_memo_Some _ _ _ Hm Hu) as [name Hsel].
  destruct (getMemoWithDetails_Some _ _ _ Hm Hu) as (v & Hv & Hview).
  split_and!; [done|..].
  - unfold get_memo. rewrite Hsel, Hv. by destruct (_ && _).
  - intros Hvis. exists v. split; [|done].
    unfold get_memo. rewrite Hsel, Hv.
    by rewrite bool_decide_eq_false_2.
Qed.

(** *** What a view shows *)

Lemma select_resources_sound db memoId k r :
  (k, r) ∈ select_resources db memoId → resource db !! k = Some r.
Proof.
  unfold select_resources. intros ([i j] & _ & Hf)%list_elem_of_omap.
  simpl in Hf. case_decide; [|done].
  destruct (resource db !! j) eqn:Hj; by simplify_eq/=.
Qed.

Lemma select_resources_ids db memoId :
  (select_resources db memoId).*1
  = filter (λ k, is_Some (resource db !! k)) (associations db memoId).
Proof.
  unfold select_resources, associations.
  induction (memo_resource db) as [|[i j] l IH]; [done|]. simpl.
  destruct (decide (i = memoId)) as [->|Hne].
  - rewrite (filter_cons_True (λ mr : Z * Z, mr.1 = memoId)) by done.
    rewrite fmap_cons. simpl.
    destruct (resource db !! j) as [r|] eqn:Hj; simpl.
    + rewrite filter_cons_True by (by rewrite Hj). by rewrite <-IH.
    + rewrite filter_cons_False by (rewrite Hj; by intros [??]). done.
  - by rewrite (filter_cons_False (λ mr : Z * Z, mr.1 = memoId)).
Qed.

Lemma select_tags_has_tag db memoId t :
  t ∈ select_tags db memoId ↔ has_tag db memoId t.
Proof.
  unfold select_tags, has_tag. rewrite list_elem_of_omap, Exists_exists.
  split.
  - intros (mt & Hin & Hf). exists mt. by case_decide.
  - intros (mt & Hin & Hid & Ht). exists mt.
    by rewrite decide_True.
Qed.

Lemma view_resourceIdList db memoId v :
  getMemoWithDetails db memoId = Some v →
  MemoView.resourceIdList v
  = filter (λ k, is_Some (resource db !! k)) (associations db memoId).
Proof.
  unfold getMemoWithDetails.
  destruct (select_memo db memoId) as [[m n]|]; [|done].
  intros [= <-]. apply select_resources_ids.
Qed.

Lemma view_tags db memoId v t :
  getMemoWithDetails db memoId = Some v →
  t ∈ MemoView.tags v ↔ has_tag db memoId t.
Proof.
  unfold getMemoWithDetails.
  destruct (select_memo db memoId) as [[m n]|]; [|done].
  intros [= <-]. apply select_tags_has_tag.
Qed.

(** X7.  What a view shows of the resources and tags of its memo.  Its
    [resourceIdList] holds, in the order of the link table and with their
    repetitions, those associated ids that are the id of a stored
    resource: a link to a resource that does not exist is not shown.  Its
    [resources] hold one entry for each of these ids, with the uid, file
    name, type and size of that resource, the name [resources/<uid>], the
    back reference [memos/<id>], and always no content and no external
    link.  Its [tags] are the names of the tags linked to the memo. *)
Theorem getMemoWithDetails_resources (db : DB) (memoId : Z) (v : MemoView.t) :
  getMemoWithDetails db memoId = Some v →
  MemoView.resourceIdList v
  = filter (λ k, is_Some (resource db !! k)) (associations db memoId)
  ∧ Forall2 (λ k rv, ∃ r,
        resource db !! k = Some r
        ∧ ResourceView.uid rv = Resource.uid r
        ∧ ResourceView.name rv = "resources/" +:+ Resource.uid r
        ∧ ResourceView.filename rv = Resource.filename r
        ∧ ResourceView.type rv = Resource.type r
        ∧ ResourceView.size rv = Resource.size r
        ∧ ResourceView.createTime rv
          = toISOString (Resource.created_ts r * 1000)
        ∧ ResourceView.memo rv = "memos/" +:+ pretty memoId
        ∧ ResourceView.content rv = []
        ∧ ResourceView.externalLink rv = "")
      (MemoView.resourceIdList v) (MemoView.resources v)
  ∧ (∀ t, t ∈ MemoView.tags v ↔ has_tag db memoId t).
Proof.
  unfold getMemoWithDetails.
  destruct (select_memo db memoId) as [[m n]|]; [|done].
  intros [= <-]. simpl. split_and!.
  - apply select_resources_ids.
  - apply Forall2_fmap, Forall_Forall2_diag, Forall_forall.
    intros [k r] Hin%select_resources_sound. simpl. exists r. by split_and!.
  - apply select_tags_has_tag.
Qed.

(** *** References and the names of a view *)

Lemma split_not_nil sep s : split sep s ≠ [].
Proof.
  destruct s as [|c s]; [done|]. simpl.
  case_decide; [done|]. by destruct (split sep s).
Qed.

Lemma split_app sep s1 s2 :
  split sep (s1 +:+ String sep s2) = split sep s1 ++ split sep s2.
Proof.
  induction s1 as [|c s1 IH]; simpl.
  - by rewrite decide_True.
  - rewrite IH. case_decide; [done|].
    pose proof (split_not_nil sep s1). by destruct (split sep s1).
Qed.

Lemma split_no_sep sep s :
  sep ∉ String.list_ascii_of_string s → split sep s = [s].
Proof.
  induction s as [|c s IH]; [done|]. simpl.
  intros [Hne Hs]%not_elem_of_cons. rewrite decide_False by done.
  by rewrite IH.
Qed.

(** The uid read from a name is what follows its last slash. *)
Lemma resourceUid_after_slash prefix u :
  "/"%char ∉ String.list_ascii_of_string u →
  resourceUid (MkResourceRef (Some (prefix +:+ String "/" u))) = Some u.
Proof.
  intros Hu. unfold resourceUid. simpl.
  rewrite split_app, (split_no_sep _ u) by done.
  by rewrite last_snoc.
Qed.

(** A uid read from a name has no slash in it. *)
Lemma resourceUid_no_slash r u :
  resourceUid r = Some u → "/"%char ∉ String.list_ascii_of_string u.
Proof.
  unfold resourceUid. destruct (name r) as [n|]; [simpl|done].
  revert u. induction n as [|c n IH]; intros u; simpl.
  - intros [= <-]. apply not_elem_of_nil.
  - case_decide as Hc.
    + pose proof (split_not_nil "/"%char n).
      destruct (split "/"%char n) as [|h t] eqn:Hsplit; [done|].
      simpl. exact (IH u).
    + pose proof (split_not_nil "/"%char n).
      destruct (split "/"%char n) as [|h [|h' t]] eqn:Hsplit; [done|..].
      * simpl. intros [= <-]. simpl. apply not_elem_of_cons. split; [done|].
        by apply IH.
      * exact (IH u).
Qed.

Lemma omap_length_le {A B} (f : A → option B) (l : list A) :
  (length (omap f l) ≤ length l)%nat.
Proof.
  induction l as [|x l IH]; [done|]. csimpl.
  destruct (f x); csimpl; lia.
Qed.

Lemma lookup_ref_Some db ref k :
  lookup_ref db ref = Some k →
  ∃ r, resource db !! k = Some r
       ∧ resourceUid ref = Some (Resource.uid r) ∧ Resource.uid r ≠ "".
Proof.
  unfold lookup_ref, nonempty, first_where.
  destruct (resourceUid ref) as [u|]; [simpl|done].
  case_decide as Hu; [done|]. simpl.
  destruct (head _) as [[k' r]|] eqn:Hhd; [|done]. simpl. intros [= <-].
  apply head_Some_elem_of, list_elem_of_filter in Hhd as [Huid Hin].
  apply elem_of_map_to_list in Hin. simpl in Huid. subst u. by exists r.
Qed.

(** X8.  The resolver returns ids of stored resources only: every id of
    its result is the id of a resource whose uid is not empty, has no
    slash, and is what follows the last slash of the name of one of the
    references.  The result is never longer than the list of references;
    a reference without a name, or whose name is empty or ends with a
    slash, adds nothing to it. *)
Theorem resolve_resources_sound (db : DB) (rs : list ResourceRef) :
  (∀ k, k ∈ resolve_resources db rs →
     ∃ ref r, ref ∈ rs ∧ resource db !! k = Some r
              ∧ resourceUid ref = Some (Resource.uid r)
              ∧ Resource.uid r ≠ ""
              ∧ "/"%char ∉ String.list_ascii_of_string (Resource.uid r))
  ∧ (length (resolve_resources db rs) ≤ length rs)%nat
  ∧ (∀ ref, name ref = None ∨ name ref = Some ""
            ∨ (∃ n, name ref = Some (n +:+ "/")) →
       resolve_resources db [ref] = []).
Proof.
  rewrite !resolve_resources_omap. split_and!.
  - intros k (ref & Hin & Hk)%list_elem_of_omap.
    destruct (lookup_ref_Some _ _ _ Hk) as (r & Hr & Huid & Hne).
    exists ref, r. split_and!; try done. by eapply resourceUid_no_slash.
  - apply omap_length_le.
  - intros ref Href. rewrite resolve_resources_omap. simpl.
    assert (lookup_ref db ref = None) as ->; [|done].
    unfold lookup_ref, resourceUid.
    destruct Href as [->| [->|[n ->]]]; [done|done|]. simpl.
    replace (n +:+ "/") with (n +:+ String "/" "") by done.
    rewrite split_app. simpl. by rewrite last_snoc.
Qed.

(** The reference made of the name of a resource view resolves. *)
Lemma lookup_ref_view_name (db : DB) (memoId k : Z) (r : Resource.row) :
  uids_wellformed db → resource db !! k = Some r →
  lookup_ref db
    (MkResourceRef (Some (ResourceView.name (resource_view memoId (k, r)))))
  = Some k.
Proof.
  intros Hwf Hr. unfold uids_wellformed in Hwf.
  destruct (map_Forall_lookup_1 _ _ _ _ Hwf Hr) as (Hne & Hslash & Huniq).
  unfold lookup_ref, resource_view. cbn [ResourceView.name snd].
  replace ("resources/" +:+ Resource.uid r)
    with ("resources" +:+ String "/" (Resource.uid r)) by done.
  rewrite resourceUid_after_slash by done.
  unfold nonempty. simpl. rewrite decide_False by done. simpl.
  unfold first_where.
  destruct (head _) as [[k' r']|] eqn:Hhd.
  - apply head_Some_elem_of, list_elem_of_filter in Hhd as [Huid Hin].
    apply elem_of_map_to_list in Hin. simpl in *.
    by rewrite (map_Forall_lookup_1 _ _ _ _ Huniq Hin Huid).
  - apply head_None in Hhd.
    assert (Hin : (k, r) ∈ filter (λ x : Z * Resource.row,
                               Resource.uid x.2 = Resource.uid r)
                             (map_to_list (resource db))).
    { apply list_elem_of_filter. split; [done|]. by apply elem_of_map_to_list. }
    rewrite Hhd in Hin. by apply elem_of_nil in Hin.
Qed.

(** X9.  The names of a view resolve back to its resources: where the
    uids of the [resource] table are not empty, free of slashes and
    pairwise different, the reference made of the name [resources/<uid>]
    of each resource of a view resolves to the id that the view lists for
    it. *)
Theorem view_name_resolves (db : DB) (memoId : Z) (v : MemoView.t) :
  uids_wellformed db → getMemoWithDetails db memoId = Some v →
  Forall2 (λ k rv,
      lookup_ref db (MkResourceRef (Some (ResourceView.name rv))) = Some k)
    (MemoView.resourceIdList v) (MemoView.resources v).
Proof.
  intros Hwf. unfold getMemoWithDetails.
  destruct (select_memo db memoId) as [[m n]|]; [|done].
  intros [= <-]. simpl.
  apply Forall2_fmap, Forall_Forall2_diag, Forall_forall.
  intros [k r] Hin%select_resources_sound.
  by apply lookup_ref_view_name.
Qed.

Lemma omap_fmap_Some {A B C} (f : B → option C) (g : A → B) (h : A → C)
    (l : list A) :
  (∀ x, x ∈ l → f (g x) = Some (h x)) → omap f (g <$> l) = h <$> l.
Proof.
  induction l as [|x l IH]; intros Hall; [done|]. csimpl.
  rewrite (Hall x) by (by left). csimpl. f_equal.
  apply IH. intros y Hy. apply Hall. by right.
Qed.

(** The references made of a view resolve to its [resourceIdList]. *)
Lemma refs_of_view_resolve db memoId v :
  uids_wellformed db → getMemoWithDetails db memoId = Some v →
  omap (lookup_ref db) (refs_of_view v) = MemoView.resourceIdList v.
Proof.
  intros Hwf. unfold getMemoWithDetails, refs_of_view.
  destruct (select_memo db memoId) as [[m n]|]; [|done].
  intros [= <-]. simpl. rewrite <-list_fmap_compose.
  apply omap_fmap_Some. intros [k r] Hin%select_resources_sound.
  by apply lookup_ref_view_name.
Qed.

(** X10.  Sending the resources of a view back in an update changes
    nothing of the resource list.  For a memo that is fetched as the view
    [v], an update that passes its checks and whose body has no
    [resourceIdList] and has, as [resources], the resources of [v] under
    their names, returns a view with the [resourceIdList] of [v]; and when
    [v] has resources, the associations of the memo are then exactly that
    list.  The uids of the [resource] table must be usable as references. *)
Theorem patch_with_view_resources (now_ms : Z) (p : UserPayload) (memoId : Z)
    (body : Body) (db : DB) (m : Memo.row) (v : MemoView.t) :
  uids_wellformed db →
  memo db !! memoId = Some m → may_write db p m →
  getMemoWithDetails db memoId = Some v →
  resourceIdList body = None → resources body = Some (refs_of_view v) →
  ∃ w db',
    patch_memo updateMemoTags now_ms (Some p) memoId body db
    = (JsonMemo (Some w), db')
    ∧ MemoView.resourceIdList w = MemoView.resourceIdList v
    ∧ (MemoView.resources v ≠ [] →
         associations db' memoId = MemoView.resourceIdList v).
Proof.
  intros Hwf Hm Hw Hv Hids Hrs.
  destruct (patch_memo_run updateMemoTags now_ms p memoId body db m Hm Hw)
    as (db' & Hrun & Huser & Hres & Hmemo & Hmr).
  destruct (getMemoWithDetails_inv _ _ _ Hv) as (m0 & Hm0 & Hu & _).
  assert (m0 = m) as -> by congruence.
  assert (Hm' : ∃ m', memo db' !! memoId = Some m'
                      ∧ Memo.creator_id m' = Memo.creator_id m).
  { rewrite Hmemo. case_bool_decide; [|by eauto].
    rewrite lookup_alter_eq, Hm. simpl. eexists. split; [done|].
    apply foldl_assign_creator. }
  destruct Hm' as (m' & Hm' & Hcr).
  destruct (getMemoWithDetails_Some db' memoId m' Hm') as (w & Hw' & _).
  { by rewrite Huser, Hcr. }
  exists w, db'. rewrite Hrun, Hw'. split; [done|].
  pose proof (refs_of_view_resolve db memoId v Hwf Hv) as Hresolve.
  pose proof (view_resourceIdList _ _ _ Hv) as Hlist.
  pose proof (view_resourceIdList _ _ _ Hw') as Hlist'.
  unfold patch_final_ids in Hmr. rewrite Hrs, Hids in Hmr. simpl in Hmr.
  assert (Hexist : filter (λ k, is_Some (resource db !! k))
                          (MemoView.resourceIdList v)
                   = MemoView.resourceIdList v).
  { rewrite Hlist. by rewrite list_filter_filter, (list_filter_iff _ (λ k,
      is_Some (resource db !! k))) by tauto. }
  case_bool_decide as Hlen.
  - rewrite resolve_resources_omap, Hresolve in Hmr.
    apply associations_replace in Hmr as [Hassoc _].
    rewrite Hlist', Hres, Hassoc. by split.
  - split.
    + rewrite Hlist', Hres, Hlist. unfold associations. by rewrite Hmr.
    + intros Hne. exfalso. apply Hlen. unfold refs_of_view.
      rewrite length_fmap. destruct (MemoView.resources v); [done|simpl; lia].
Qed.

(** *** Pages of the listing *)

Lemma select_memos_window db q limit offset :
  select_memos db (with_window limit offset q)
  = limit_offset limit offset
      (merge_sort created_desc
         (filter (λ m, forallb (holds db m) (whereClause q))
                 (memo_join_user db))).
Proof. done. Qed.

Lemma limit_offset_length {A} limit offset (rows : list A) :
  0 ≤ limit → Z.of_nat (length (limit_offset limit offset rows)) ≤ limit.
Proof.
  intros Hl. unfold limit_offset. rewrite bool_decide_eq_false_2 by lia.
  rewrite length_take. lia.
Qed.

Lemma select_memos_NoDup db q : NoDup (select_memos db q).*1.
Proof.
  unfold select_memos, memo_join_user.
  eapply sublist_NoDup; [|apply fmap_sublist, limit_offset_sublist].
  rewrite merge_sort_Permutation.
  eapply sublist_NoDup; [|apply fmap_sublist, sublist_filter].
  eapply sublist_NoDup; [|apply fmap_sublist, sublist_filter].
  apply NoDup_fst_map_to_list.
Qed.

Lemma Forall2_view_ids rows (ws : list MemoView.t) :
  Forall2 (λ (row : Z * Memo.row) v, view_of_row row.1 row.2 v) rows ws →
  MemoView.id <$> ws = rows.*1.
Proof.
  induction 1 as [|row w rows ws (Hid & _) _ IH]; [done|].
  rewrite !fmap_cons. by rewrite Hid, IH.
Qed.

(** X11.  The size of a page.  The list route returns at most [limit]
    memos when [limit] is not negative, so none for [limit = 0] and at
    most 50 when no limit is given; it never returns more memos than are
    stored, and never returns a memo twice. *)
Theorem get_memos_page_size (q : ListQuery) (db : DB) :
  ∃ ws, get_memos q db = JsonMemos (Some <$> ws)
    ∧ (0 ≤ default 50 (q_limit q) →
         Z.of_nat (length ws) ≤ default 50 (q_limit q))
    ∧ (q_limit q = None → (length ws ≤ 50)%nat)
    ∧ (q_limit q = Some 0 → ws = [])
    ∧ (length ws ≤ size (memo db))%nat
    ∧ NoDup (MemoView.id <$> ws).
Proof.
  destruct (get_memos_views db q) as (ws & Heq & Hws).
  exists ws. split; [done|].
  pose proof (Forall2_length _ _ _ Hws) as Hlen.
  assert (Hbound : 0 ≤ default 50 (q_limit q) →
                   Z.of_nat (length ws) ≤ default 50 (q_limit q)).
  { intros Hl. rewrite <-Hlen. unfold select_memos.
    by apply limit_offset_length. }
  split_and!; [done|..].
  - intros Hq. rewrite Hq in Hbound. simpl in Hbound. lia.
  - intros Hq. rewrite Hq in Hbound. simpl in Hbound.
    destruct ws; [done|simpl in Hbound; lia].
  - rewrite <-Hlen. unfold select_memos, memo_join_user.
    etrans; [apply sublist_length, limit_offset_sublist|].
    rewrite merge_sort_Permutation.
    etrans; [apply length_filter|]. etrans; [apply length_filter|].
    by rewrite length_map_to_list.
  - rewrite (Forall2_view_ids _ _ Hws). apply select_memos_NoDup.
Qed.

(** X12.  Pages follow one another: for a filter, a page of [n] memos
    from the offset [o] followed by the page of [k] memos from the offset
    [o + n] is the page of [n + k] memos from the offset [o]. *)
Theorem get_memos_pages_concat (q : ListQuery) (db : DB) (n k o : Z)
    (vs1 vs2 : list (option MemoView.t)) :
  0 ≤ n → 0 ≤ k → 0 ≤ o →
  get_memos (with_window n o q) db = JsonMemos vs1 →
  get_memos (with_window k (o + n) q) db = JsonMemos vs2 →
  get_memos (with_window (n + k) o q) db = JsonMemos (vs1 ++ vs2).
Proof.
  intros Hn Hk Ho. unfold get_memos. rewrite !select_memos_window.
  generalize (merge_sort created_desc
                (filter (λ m, forallb (holds db m) (whereClause q))
                        (memo_join_user db))).
  intros base [= <-] [= <-]. f_equal. rewrite <-fmap_app. f_equal.
  unfold limit_offset. rewrite !bool_decide_eq_false_2 by lia.
  replace (Z.to_nat (o + n)) with (Z.to_nat o + Z.to_nat n)%nat by lia.
  replace (Z.to_nat (n + k)) with (Z.to_nat n + Z.to_nat k)%nat by lia.
  rewrite <-drop_drop. symmetry. apply take_take_drop.
Qed.

(** *** Listing and fetching *)

Lemma get_memos_elem q db vs x :
  get_memos q db = JsonMemos vs → x ∈ vs →
  ∃ row, row ∈ select_memos db q ∧ x = getMemoWithDetails db row.1.
Proof.
  unfold get_memos. intros [= <-] (row & -> & Hin)%list_elem_of_fmap.
  by exists row.
Qed.

(** X13.  A listed memo can be fetched.  Every memo of a listing whose
    visibility is not PRIVATE is returned by a direct fetch of its id, to
    any requester and as the same view; with neither a visibility filter
    nor an owner filter this holds for every memo of the listing. *)
Theorem get_memos_then_get (q : ListQuery) (db : DB)
    (vs : list (option MemoView.t)) (userPayload : option UserPayload)
    (v : MemoView.t) :
  get_memos q db = JsonMemos vs → Some v ∈ vs →
  (MemoView.visibility v ≠ "PRIVATE" →
     get_memo userPayload (MemoView.id v) db = JsonMemo (Some v))
  ∧ (nonempty (q_visibility q) = None → nonempty (q_creatorId q) = None →
       get_memo userPayload (MemoView.id v) db = JsonMemo (Some v)).
Proof.
  intros Hlist Hv.
  destruct (get_memos_elem _ _ _ _ Hlist Hv) as ([i m] & Hin & Hdet).
  destruct (select_memos_sound db q) as [Hrows _].
  rewrite Forall_forall in Hrows.
  destruct (Hrows _ Hin) as (Hm & Hu & Hwhere). simpl in Hm, Hu, Hdet.
  destruct (select_memo_Some _ _ _ Hm Hu) as [n Hsel].
  destruct (getMemoWithDetails_inv _ _ _ (eq_sym Hdet)) as (m' & Hm' & _ & Hview).
  assert (m' = m) as -> by congruence.
  destruct Hview as (Hid & _ & _ & _ & Hvis & _). rewrite Hid.
  assert (Hget : Memo.visibility m ≠ "PRIVATE" →
                 get_memo userPayload i db = JsonMemo (Some v)).
  { intros Hne. unfold get_memo. rewrite Hsel.
    rewrite bool_decide_eq_false_2 by done. simpl. by rewrite <-Hdet. }
  split.
  - intros Hne. apply Hget. by rewrite <-Hvis.
  - intros Hqv Hqc. apply Hget.
    apply whereClause_holds in Hwhere as (_ & _ & _ & Hpub & _).
    simpl in Hpub. by rewrite (Hpub Hqv Hqc).
Qed.

(** X14.  The tag filter: every memo of a listing with the tag filter [t]
    shows [t] among the tags of its view. *)
Theorem get_memos_tag (q : ListQuery) (db : DB)
    (vs : list (option MemoView.t)) (t : string) (v : MemoView.t) :
  nonempty (q_tag q) = Some t →
  get_memos q db = JsonMemos vs → Some v ∈ vs →
  t ∈ MemoView.tags v.
Proof.
  intros Ht Hlist Hv.
  destruct (get_memos_elem _ _ _ _ Hlist Hv) as ([i m] & Hin & Hdet).
  destruct (select_memos_sound db q) as [Hrows _].
  rewrite Forall_forall in Hrows.
  destruct (Hrows _ Hin) as (_ & _ & Hwhere). simpl in Hdet.
  apply whereClause_holds in Hwhere as (_ & _ & _ & _ & Htag).
  apply (view_tags db i v t); [done|]. by apply Htag.
Qed.

(** X15.  The visibility filter is applied as it is written, to whoever
    asks (the list route does not read the principal): with the filter
    [vis], every returned memo has the visibility [vis], and the memos
    returned are the window of [limit] and [offset] over the list [all] of
    the memos with that visibility, the status asked for, a creator with a
    user row, the owner asked for (if any) and the tag asked for (if any),
    each once and newest first; so each of them is returned when the
    window starts at the first and is as long as [all].  So
    [visibility=PRIVATE] lists the private memos of every user. *)
Theorem get_memos_visibility (q : ListQuery) (db : DB) (vis : string) :
  nonempty (q_visibility q) = Some vis →
  ∃ ws, get_memos q db = JsonMemos (Some <$> ws)
    ∧ Forall (λ v, MemoView.visibility v = vis) ws
    ∧ ∃ all : list (Z * Memo.row),
        NoDup all
        ∧ (∀ i m, (i, m) ∈ all ↔
             memo db !! i = Some m
             ∧ is_Some (user db !! Memo.creator_id m)
             ∧ Memo.visibility m = vis
             ∧ Memo.row_status m = default "NORMAL" (nonempty (q_rowStatus q))
             ∧ (∀ cid, nonempty (q_creatorId q) = Some cid →
                       int_eq_text (Memo.creator_id m) cid = true)
             ∧ (∀ t, nonempty (q_tag q) = Some t → has_tag db i t))
        ∧ StronglySorted created_desc all
        ∧ Forall2 (λ row v, view_of_row row.1 row.2 v)
            (limit_offset (default 50 (q_limit q))
                          (default 0 (q_offset q)) all) ws
        ∧ (default 0 (q_offset q) ≤ 0 →
           default 50 (q_limit q) < 0
           ∨ Z.of_nat (length all) ≤ default 50 (q_limit q) →
           ∀ i m, (i, m) ∈ all → ∃ v, v ∈ ws ∧ view_of_row i m v).
Proof.
  intros Hvis.
  destruct (get_memos_views db q) as (ws & Heq & Hws).
  destruct (select_memos_sound db q) as [Hrows _].
  exists ws. split_and!; [done|..].
  - eapply Forall2_transfer; [|exact Hws|exact Hrows]. simpl.
    intros row v Hview (_ & _ & Hwhere).
    apply whereClause_holds in Hwhere as (_ & _ & Hv & _).
    destruct Hview as (_ & _ & _ & _ & -> & _). by apply Hv.
  - destruct (select_memos_exact db q) as (all & Hnd & Hall & Hdesc & Hsel).
    rewrite Hsel in Hws.
    exists all. split_and!; [done| |done|done|].
    + intros i m. rewrite (Hall (i, m)), whereClause_holds. simpl. split.
      * intros (Hm & Hu & Hst & Hown & Hv & _ & Htag).
        split_and!; [done|done|by apply Hv|done|done|done].
      * intros (Hm & Hu & Hmvis & Hst & Hown & Htag).
        split_and!; [done|done|done|done|..|done].
        -- intros vis' Hvis'. congruence.
        -- intros Hnone. congruence.
    + intros Ho Hl i m Hin. by eapply window_keeps_all.
Qed.

(** *** The calls of the tag synchronizer *)

(** X16.  When the tag synchronizer runs, and on what.  A creation that
    is answered with a view has run it once, on the tag index as it was,
    with the new id, the creator's id and the content.  An update that is
    answered with a view has run it exactly when the body has content and
    the requester resolves to a user id other than 0, on the tag index as
    it was, with the memo id, the requester's id and the new content;
    otherwise (no content in the body, a requester, such as a HOST,
    without a user row, or a requester whose user id is 0) the tag index
    is as before.  Neither writes to the users or the resources. *)
Theorem tag_index_after (now_ms : Z) (memoUid : string)
    (userPayload : option UserPayload) (memoId : Z) (body : Body) (db : DB)
    (v : option MemoView.t) (db' : DB) :
  (post_memo updateMemoTags now_ms memoUid userPayload body db
   = (JsonMemo v, db') →
     ∃ p c i w, userPayload = Some p ∧ nonempty (content body) = Some c
       ∧ getUserIdFromUid db (sub p) = Some i ∧ v = Some w
       ∧ (tag db', memo_tag db')
         = updateMemoTags (tag db, memo_tag db) (MemoView.id w) i c)
  ∧ (patch_memo updateMemoTags now_ms userPayload memoId body db
     = (JsonMemo v, db') →
       ∃ p, userPayload = Some p
         ∧ user db' = user db ∧ resource db' = resource db
         ∧ (content body = None →
              tag db' = tag db ∧ memo_tag db' = memo_tag db)
         ∧ (getUserIdFromUid db (sub p) = None →
              tag db' = tag db ∧ memo_tag db' = memo_tag db)
         ∧ (getUserIdFromUid db (sub p) = Some 0 →
              tag db' = tag db ∧ memo_tag db' = memo_tag db)
         ∧ (∀ c u, content body = Some c →
                   getUserIdFromUid db (sub p) = Some u → u ≠ 0 →
              (tag db', memo_tag db')
              = updateMemoTags (tag db, memo_tag db) memoId u c)).
Proof.
  split.
  - intros Hrun.
    destruct (post_memo_view _ _ _ _ _ _ _ Hrun)
      as (p & c & i & -> & Hc & Hi & Hv).
    destruct (post_memo_run updateMemoTags now_ms memoUid p body db c i Hc Hi)
      as (w & db'' & Hrun' & Hview & _).
    destruct Hview as (Hid & _).
    exists p, c, i, w. split_and!; [done..|congruence|].
    rewrite Hid. unfold post_memo in Hrun. rewrite Hc, Hi in Hrun.
    injection Hrun as _ <-. rewrite insert_memo_resources_eq. simpl.
    by destruct (updateMemoTags _ _ _ _).
  - intros Hrun.
    destruct (patch_memo_success _ _ _ _ _ _ _ _ Hrun)
      as (p & m & -> & Hm & Hw).
    exists p.
    destruct (patch_memo_run updateMemoTags now_ms p memoId body db m Hm Hw)
      as (db'' & Hrun' & Huser & Hres & _).
    rewrite Hrun in Hrun'. injection Hrun' as _ <-.
    split_and!; [done|done|done|..].
    + intros Hc. unfold patch_memo in Hrun.
      rewrite Hm, (write_allowed_eq _ _ _ Hw), Hc in Hrun. simpl in Hrun.
      injection Hrun as _ <-.
      case_bool_decide; destruct (patch_final_ids _ _);
        by rewrite ?insert_memo_resources_eq.
    + intros Hu. unfold patch_memo in Hrun.
      rewrite Hm, (write_allowed_eq _ _ _ Hw), Hu in Hrun. simpl in Hrun.
      injection Hrun as _ <-.
      case_bool_decide; destruct (patch_final_ids _ _), (content body);
        by rewrite ?insert_memo_resources_eq.
    + intros Hu. unfold patch_memo in Hrun.
      rewrite Hm, (write_allowed_eq _ _ _ Hw), Hu in Hrun. simpl in Hrun.
      injection Hrun as _ <-.
      case_bool_decide; destruct (patch_final_ids _ _), (content body);
        by rewrite ?insert_memo_resources_eq.
    + intros c u Hc Hu Hu0. unfold patch_memo in Hrun.
      rewrite Hm, (write_allowed_eq _ _ _ Hw), Hc, Hu in Hrun. simpl in Hrun.
      rewrite (bool_decide_eq_true_2 (u ≠ 0)) in Hrun by done.
      injection Hrun as _ <-.
      case_bool_decide; destruct (patch_final_ids _ _);
        rewrite ?insert_memo_resources_eq; simpl;
        by destruct (updateMemoTags _ _ _ _).
Qed.

(** *** The statistics and the writes *)

Lemma count_of_cons `{EqDecision A} (d x : A) (l : list A) :
  count_of d (x :: l) = (if decide (x = d) then 1 else 0) + count_of d l.
Proof.
  unfold count_of. destruct (decide (x = d)).
  - rewrite filter_cons_True by done. simpl length. lia.
  - rewrite filter_cons_False by done. lia.
Qed.

Lemma sum_indicator `{EqDecision A} (x : A) (keys : list A) :
  NoDup keys → x ∈ keys →
  foldr Z.add 0 ((λ d, if decide (x = d) then 1 else 0) <$> keys) = 1.
Proof.
  induction 1 as [|k keys Hk Hnd IH]; [by intros ?%elem_of_nil|].
  intros Hx. rewrite fmap_cons. simpl. destruct (decide (x = k)) as [->|Hne].
  - assert (foldr Z.add 0 ((λ d, if decide (k = d) then 1 else 0) <$> keys) = 0)
      as ->; [|done].
    clear IH Hnd Hx. induction keys as [|k' keys IH]; [done|].
    apply not_elem_of_cons in Hk as [Hne Hk]. rewrite fmap_cons. simpl.
    rewrite decide_False by done. by rewrite IH.
  - apply elem_of_cons in Hx as [->|Hx]; [done|]. by rewrite IH.
Qed.

Lemma sum_counts `{EqDecision A} (keys ds : list A) :
  NoDup keys → (∀ d, d ∈ ds → d ∈ keys) →
  foldr Z.add 0 ((λ d, count_of d ds) <$> keys) = Z.of_nat (length ds).
Proof.
  intros Hnd. induction ds as [|x ds IH]; intros Hin.
  - clear. induction keys as [|k keys IHk]; [done|]. rewrite fmap_cons.
    simpl. simpl in IHk. by rewrite IHk.
  - assert (Hsplit : ∀ l : list A,
              foldr Z.add 0 ((λ d, count_of d (x :: ds)) <$> l)
              = foldr Z.add 0 ((λ d, if decide (x = d) then 1 else 0) <$> l)
                + foldr Z.add 0 ((λ d, count_of d ds) <$> l)).
    { induction l as [|k l IHl]; [done|]. rewrite !fmap_cons. simpl.
      rewrite IHl, count_of_cons. lia. }
    rewrite Hsplit, sum_indicator, IH; [simpl length; lia| |done|].
    + intros d Hd. apply Hin. by right.
    + apply Hin. by left.
Qed.

(** X17.  The buckets of the histogram share out the counted memos: the
    counts of the buckets add up to the number of memos that are NORMAL,
    PUBLIC and created after the cutoff, which is at most [total]; every
    bucket counts at least one memo; and there are no more buckets than
    such memos. *)
Theorem get_stats_sum (now_ms : Z) (db : DB) :
  let cutoff := now_ms `div` 1000 - 30 * 24 * 60 * 60 in
  ∃ total hist,
    get_stats now_ms db = JsonStats total hist
    ∧ foldr Z.add 0 hist.*2
      = Z.of_nat (size (filter (recent cutoff) (memo db)))
    ∧ foldr Z.add 0 hist.*2 ≤ total
    ∧ Forall (λ b, 1 ≤ b.2) hist
    ∧ Z.of_nat (length hist) ≤ foldr Z.add 0 hist.*2.
Proof.
  intros cutoff. unfold get_stats, select_dailyStats. fold cutoff.
  set (ds := (λ m : Z * Memo.row, DATE_unixepoch (Memo.created_ts m.2))
             <$> filter (recent cutoff) (map_to_list (memo db))).
  set (dates := merge_sort date_desc (remove_dups ds)).
  assert (Hnd : NoDup dates).
  { subst dates. rewrite merge_sort_Permutation. apply NoDup_remove_dups. }
  assert (Hin : ∀ d, d ∈ dates ↔ d ∈ ds).
  { intros d. subst dates.
    by rewrite merge_sort_Permutation, elem_of_remove_dups. }
  eexists _, _. split; [reflexivity|].
  assert (Hform :
    ((λ row : string * Z, (Date_getTime row.1 `div` 1000, row.2))
       <$> ((λ date, (date, count_of date ds)) <$> dates)).*2
    = (λ d, count_of d ds) <$> dates).
  { rewrite <-!list_fmap_compose. by apply list_fmap_ext. }
  rewrite Hform, !length_fmap.
  assert (Hsum : foldr Z.add 0 ((λ d, count_of d ds) <$> dates)
                 = Z.of_nat (size (filter (recent cutoff) (memo db)))).
  { rewrite sum_counts; [|done|by intros d; apply Hin].
    subst ds. by rewrite length_fmap, length_filter_map_to_list. }
  assert (Hone : Forall (λ d, 1 ≤ count_of d ds) dates).
  { apply Forall_forall. intros d Hd%Hin. unfold count_of.
    assert (d ∈ filter (λ y, y = d) ds) as Hd'
      by (by apply list_elem_of_filter).
    destruct (filter _ ds); [by apply elem_of_nil in Hd'|simpl; lia]. }
  split_and!.
  - exact Hsum.
  - etrans; [by rewrite Hsum|]. apply inj_le.
    rewrite <-!length_filter_map_to_list.
    rewrite <-(list_filter_filter_l (recent cutoff) normal_public).
    + apply length_filter.
    + by intros x [??].
  - rewrite <-list_fmap_compose. apply Forall_fmap.
    eapply Forall_impl; [exact Hone|done].
  - clear -Hone. induction Hone as [|d l Hd _ IH]; [done|].
    rewrite fmap_cons. simpl foldr. simpl length. lia.
Qed.

Lemma size_filter_insert {A} (P : Z * A → Prop) `{!∀ x, Decision (P x)}
    (t : gmap Z A) i x' :
  Z.of_nat (size (filter P (<[i:=x']> t)))
  = Z.of_nat (size (filter P t))
    - match t !! i with
      | Some x => if decide (P (i, x)) then 1 else 0
      | None => 0
      end
    + (if decide (P (i, x')) then 1 else 0).
Proof.
  assert (Hold : match filter P t !! i with Some _ => 1 | None => 0 end
                 = match t !! i with
                   | Some x => if decide (P (i, x)) then 1 else 0
                   | None => 0
                   end).
  { rewrite map_lookup_filter. destruct (t !! i) as [x|]; [simpl|done].
    case_decide; [by rewrite option_guard_True|by rewrite option_guard_False]. }
  rewrite <-Hold, map_filter_insert. destruct (decide (P (i, x'))).
  - rewrite map_size_insert. destruct (filter P t !! i) eqn:Hi; simpl; [|lia].
    assert (size (filter P t) ≠ 0%nat) by by eapply map_size_ne_0_lookup_2.
    lia.
  - rewrite map_filter_delete, map_size_delete.
    destruct (filter P t !! i) eqn:Hi; simpl; [|lia].
    assert (size (filter P t) ≠ 0%nat) by by eapply map_size_ne_0_lookup_2.
    lia.
Qed.

Lemma get_stats_total now_ms db total hist :
  get_stats now_ms db = JsonStats total hist →
  total = Z.of_nat (size (filter normal_public (memo db))).
Proof.
  unfold get_stats. intros [= <- _]. by rewrite length_filter_map_to_list.
Qed.

(** X18.  How [total] follows the writes.  From the statistics before a
    request to those after it: a creation that is answered with a view
    adds one when the body names the visibility PUBLIC and nothing
    otherwise (so nothing for the default visibility); a delete that is
    answered "Memo deleted successfully" takes one off when the memo was
    NORMAL and PUBLIC and nothing otherwise; an update that is answered
    with a view changes [total] by the difference that the visibility of
    the body makes to the memo being NORMAL and PUBLIC. *)
Theorem get_stats_total_after (now_ms now_ms' : Z) (memoUid : string)
    (userPayload : option UserPayload) (memoId : Z) (body : Body) (db db' : DB)
    (total total' : Z) (hist hist' : list (Z * Z)) :
  get_stats now_ms db = JsonStats total hist →
  get_stats now_ms' db' = JsonStats total' hist' →
  (∀ t v, post_memo updateMemoTags t memoUid userPayload body db
          = (JsonMemo v, db') →
     total' = total
              + (if decide (visibility body = Some "PUBLIC") then 1 else 0))
  ∧ (∀ t m, delete_memo t userPayload memoId db = (MemoDeleted, db') →
            memo db !! memoId = Some m →
       total' = total
                - (if decide (normal_public (memoId, m)) then 1 else 0))
  ∧ (∀ t v m, patch_memo updateMemoTags t userPayload memoId body db
              = (JsonMemo v, db') →
              memo db !! memoId = Some m →
       total' = total
                - (if decide (normal_public (memoId, m)) then 1 else 0)
                + (if decide (Memo.row_status m = "NORMAL"
                              ∧ default (Memo.visibility m) (visibility body)
                                = "PUBLIC") then 1 else 0)).
Proof.
  intros ->%get_stats_total ->%get_stats_total. split_and!.
  - intros t v Hrun.
    destruct (post_memo_view _ _ _ _ _ _ _ Hrun)
      as (p & c & i & -> & Hc & Hi & _).
    destruct (post_memo_run updateMemoTags t memoUid p body db c i Hc Hi)
      as (w & db'' & Hrun' & _ & _ & _ & Hmemo & _).
    rewrite Hrun in Hrun'. injection Hrun' as _ <-.
    rewrite Hmemo, size_filter_insert, next_rowid_fresh.
    unfold normal_public. simpl.
    destruct (visibility body) as [vis|]; simpl;
      repeat case_decide; destruct_and?; simplify_eq; try lia;
      exfalso; intuition congruence.
  - intros t m Hrun Hm.
    destruct userPayload as [p|]; [|done].
    assert (Hw : may_write db p m).
    { destruct (decide (may_write db p m)) as [|Hw]; [done|].
      apply write_denied_iff in Hw. unfold delete_memo in Hrun.
      rewrite Hm in Hrun. simpl in Hrun. by rewrite Hw in Hrun. }
    rewrite (delete_memo_run t p memoId db m Hm Hw) in Hrun.
    injection Hrun as <-. simpl.
    rewrite size_filter_insert, Hm. unfold normal_public. simpl.
    lia.
  - intros t v m Hrun Hm.
    destruct (patch_memo_inv _ _ _ _ _ _ _ _ Hrun)
      as (m0 & Hm0 & _ & _ & _ & Hmemo & _).
    assert (m0 = m) as -> by congruence. clear Hm0.
    rewrite Hmemo. unfold patch_updates.
    destruct m as [uid cr co vi st cts uts].
    unfold normal_public. simpl.
    destruct (content body) as [c|], (visibility body) as [vis|]; simpl;
      rewrite ?(alter_lookup_insert _ _ _ _ Hm), ?size_filter_insert, ?Hm;
      simpl; repeat case_decide; try lia; exfalso; intuition congruence.
Qed.

(** *** Links and the memos they belong to *)

Lemma handle_links_to_memos r db :
  links_to_memos db → links_to_memos (handle updateMemoTags r db).2.
Proof.
  intros Hdb. destruct (handle_step r db) as (_ & _ & Hkeep).
  assert (Hold : Forall (λ mr : Z * Z,
                    is_Some (memo (handle updateMemoTags r db).2 !! mr.1))
                  (memo_resource db)).
  { eapply Forall_impl; [exact Hdb|]. intros [i j] [m Hm]. simpl in *.
    destruct (Hkeep i m Hm) as (m' & Hm' & _). eauto. }
  unfold links_to_memos.
  destruct r as [now_ms memoUid userPayload body|now_ms userPayload memoId body
                |now_ms userPayload memoId]; simpl in *.
  - destruct userPayload as [p|]; [|done].
    destruct (nonempty (content body)) as [c|] eqn:Hc;
      [|by unfold post_memo in *; rewrite Hc in *].
    destruct (getUserIdFromUid db (sub p)) as [u|] eqn:Hu;
      [|by unfold post_memo in *; rewrite Hc, Hu in *].
    destruct (post_memo_run updateMemoTags now_ms memoUid p body db c u Hc Hu)
      as (v & db' & Hrun & _ & _ & _ & Hmemo & Hmr).
    rewrite Hrun in *. simpl in *. rewrite Hmr. apply Forall_app. split; [done|].
    apply Forall_fmap, Forall_forall. intros j _. simpl.
    rewrite Hmemo, lookup_insert_eq. eauto.
  - destruct userPayload as [p|]; [|done].
    destruct (memo db !! memoId) as [m0|] eqn:Hm0;
      [|by unfold patch_memo in *; rewrite Hm0 in *].
    destruct (decide (may_write db p m0)) as [Hw|Hw];
      [|by apply write_denied_iff in Hw; unfold patch_memo in *;
           rewrite Hm0 in *; simpl in *; rewrite Hw in *].
    destruct (patch_memo_run updateMemoTags now_ms p memoId body db m0 Hm0 Hw)
      as (db' & Hrun & _ & _ & _ & Hmr).
    rewrite Hrun in *. simpl in *. rewrite Hmr.
    destruct (patch_final_ids db body) as [ids|]; [|done].
    apply Forall_app. split.
    + rewrite Forall_forall in Hold. apply Forall_forall.
      intros mr [_ Hin]%list_elem_of_filter. by apply Hold.
    + apply Forall_fmap, Forall_forall. intros j _. simpl.
      destruct (Hkeep memoId m0 Hm0) as (m' & Hm' & _). eauto.
  - destruct userPayload as [p|]; [|done].
    destruct (memo db !! memoId) as [m0|] eqn:Hm0;
      [|by unfold delete_memo in *; rewrite Hm0 in *].
    destruct (decide (may_write db p m0)) as [Hw|Hw];
      [|by apply write_denied_iff in Hw; unfold delete_memo in *;
           rewrite Hm0 in *; simpl in *; rewrite Hw in *].
    by rewrite (delete_memo_run now_ms p memoId db m0 Hm0 Hw) in *.
Qed.

Lemma run_links_to_memos rs db :
  links_to_memos db → links_to_memos (run updateMemoTags rs db).
Proof.
  revert db. induction rs as [|r rs IH]; intros db Hdb; [done|].
  rewrite run_cons. apply IH. by apply handle_links_to_memos.
Qed.

Lemma no_links_of_fresh_id db :
  links_to_memos db →
  filter (λ mr : Z * Z, mr.1 = next_rowid (memo db)) (memo_resource db) = [].
Proof.
  unfold links_to_memos. generalize (memo_resource db).
  induction 1 as [|mr l [m Hm] _ IH]; [done|].
  rewrite filter_cons_False; [exact IH|].
  intros Heq. by rewrite Heq, next_rowid_fresh in Hm.
Qed.

(** X19.  The requests keep the link table tied to the memo table: after
    any sequence of requests to a store in which every link belongs to a
    stored memo, every link belongs to a stored memo.  In such a store a
    new memo starts with the links of its own request only: a creation
    with a [resourceIdList] and without [resources] stores that list as
    it is, ids of no resource included, and the view it returns shows
    those of the ids that are ids of stored resources. *)
Theorem post_memo_raw_ids (rs : list request) (init : DB) (now_ms : Z)
    (memoUid : string) (userPayload : option UserPayload) (body : Body)
    (ids : list Z) (w : MemoView.t) (db' : DB) :
  links_to_memos init →
  let db := run updateMemoTags rs init in
  resourceIdList body = Some ids → default [] (resources body) = [] →
  post_memo updateMemoTags now_ms memoUid userPayload body db
  = (JsonMemo (Some w), db') →
  links_to_memos db ∧ links_to_memos db'
  ∧ associations db' (MemoView.id w) = ids
  ∧ MemoView.resourceIdList w
    = filter (λ k, is_Some (resource db !! k)) ids.
Proof.
  intros Hinit db Hids Hrs Hrun.
  assert (Hdb : links_to_memos db) by by apply run_links_to_memos.
  assert (Hdb' : links_to_memos db').
  { pose proof (handle_links_to_memos (Post now_ms memoUid userPayload body)
                  db Hdb) as Hl. simpl in Hl. by rewrite Hrun in Hl. }
  destruct (post_memo_view _ _ _ _ _ _ _ Hrun)
    as (p & c & i & -> & Hc & Hi & Hw).
  destruct (post_memo_run updateMemoTags now_ms memoUid p body db c i Hc Hi)
    as (w' & db'' & Hrun' & Hview & _ & Hres & _ & Hmr).
  rewrite Hrun in Hrun'. injection Hrun' as <- <-.
  destruct Hview as (Hid & _).
  assert (Hfinal : create_final_ids db body = ids).
  { unfold create_final_ids. by rewrite Hrs, Hids. }
  rewrite Hfinal in Hmr.
  assert (Hassoc : associations db' (MemoView.id w) = ids).
  { unfold associations. rewrite Hmr, Hid, filter_app, filter_pair_same.
    rewrite (no_links_of_fresh_id db Hdb).
    simpl. rewrite <-list_fmap_compose. by rewrite list_fmap_id. }
  split_and!; [done..|].
  rewrite (view_resourceIdList db' (MemoView.id w) w)
    by (rewrite Hid; by rewrite <-Hw).
  by rewrite Hassoc, Hres.
Qed.

End more_properties.

(** * The further properties on the sample store *)

(** Bob tries to delete alice's memo 1. *)
Lemma refused_request_writes_nothing_witness :
  (handle (H:=platform) no_tags (Delete 1700100000000 (Some bob) 1) db0).2 = db0.
Proof.
  apply (refused_request_writes_nothing (H:=platform) no_tags
           (Delete 1700100000000 (Some bob) 1) db0 "Forbidden" 403);
    [reflexivity|decide_by_evaluation].
Defined.

(** Alice creates a memo in the sample store, whose largest id is 4. *)
Lemma post_memo_creates_witness :
  ∃ w, (post_memo (H:=platform) no_tags 1700100000000 "m-5" (Some alice)
          new_body db0).1 = JsonMemo (Some w)
       ∧ MemoView.id w = 5
       ∧ memo (post_memo (H:=platform) no_tags 1700100000000 "m-5" (Some alice)
                 new_body db0).2 !! 5
         = Some (Memo.Row "m-5" 1 "new note" "PRIVATE" "NORMAL"
                          1700100000 1700100000).
Proof.
  set (r := post_memo (H:=platform) no_tags 1700100000000 "m-5" (Some alice)
              new_body db0).
  destruct (post_memo_creates (H:=platform) no_tags 1700100000000 "m-5"
              (Some alice) new_body db0
              (getMemoWithDetails (H:=platform) r.2 5) r.2)
    as (p & c & i & w & Hp & Hc & Hi & Hw & _ & _ & Hrow & _);
    [reflexivity|].
  injection Hp as <-. injection Hc as <-. injection Hi as <-.
  assert (Hid : MemoView.id w = 5) by (by injection Hw as <-).
  exists w. split_and!; [by rewrite <-Hw|done|].
  by rewrite Hid in Hrow.
Defined.

(** Alice fetches the memo she has just created; an anonymous fetch of it
    is forbidden, as the body names no visibility. *)
Lemma post_memo_then_get_witness :
  ∃ w db',
    post_memo (H:=platform) no_tags 1700100000000 "m-5" (Some alice)
              new_body db0 = (JsonMemo (Some w), db')
    ∧ get_memo (H:=platform) (Some alice) (MemoView.id w) db'
      = JsonMemo (Some w)
    ∧ get_memo (H:=platform) None (MemoView.id w) db' = Forbidden.
Proof.
  eexists _, _. split; [reflexivity|].
  match goal with
  | |- get_memo _ (MemoView.id ?w) ?db' = _ ∧ _ =>
      destruct (post_memo_then_get (H:=platform) no_tags 1700100000000 "m-5"
                  (Some alice) new_body db0 w db') as (Hown & _ & Hanon);
        [reflexivity|]
  end.
  split; [exact Hown|]. by apply Hanon.
Defined.

(** Bob's memo 3 through a creation, its deletion, an update by the host
    and a refused delete: it is still there, of bob, and ARCHIVED. *)
Lemma run_keeps_memos_witness :
  ∃ m', memo (run (H:=platform) content_tag some_requests db0) !! 3 = Some m'
        ∧ Memo.creator_id m' = 2 ∧ Memo.row_status m' = "ARCHIVED"
        ∧ Memo.content m' = "edited by the host".
Proof.
  destruct (run_keeps_memos (H:=platform) content_tag some_requests db0)
    as (_ & _ & Hkeep).
  destruct (Hkeep 3 memo3) as (m' & Hm' & _ & Hcr & _); [reflexivity|].
  exists m'. split_and!; [done|done|..].
  - assert (Hrun : memo (run (H:=platform) content_tag some_requests db0) !! 3
                   = Some (Memo.Row "m-3" 2 "edited by the host" "PRIVATE"
                                    "ARCHIVED" 1700003600 1700100002))
      by reflexivity.
    rewrite Hrun in Hm'. by injection Hm' as <-.
  - assert (Hrun : memo (run (H:=platform) content_tag some_requests db0) !! 3
                   = Some (Memo.Row "m-3" 2 "edited by the host" "PRIVATE"
                                    "ARCHIVED" 1700003600 1700100002))
      by reflexivity.
    rewrite Hrun in Hm'. by injection Hm' as <-.
Defined.

(** After these requests, an anonymous fetch of the public memo 2. *)
Lemma run_keeps_memos_fetchable_witness :
  ∃ v, get_memo (H:=platform) None 2
         (run (H:=platform) content_tag some_requests db0)
       = JsonMemo (Some v)
       ∧ view_of_row 2 memo2 v.
Proof.
  destruct (run_keeps_memos_fetchable (H:=platform) content_tag some_requests
              db0 None 2 memo2) as (_ & _ & Hget);
    [decide_by_evaluation|reflexivity|].
  by apply Hget.
Defined.

(** The view of memo 1, which has the resources 7 and 8 and the tag
    "world". *)
Lemma getMemoWithDetails_resources_witness :
  ∃ v, getMemoWithDetails (H:=platform) db0 1 = Some v
       ∧ MemoView.resourceIdList v = [7; 8]
       ∧ "world" ∈ MemoView.tags v.
Proof.
  eexists. split; [reflexivity|].
  match goal with
  | |- MemoView.resourceIdList ?v = _ ∧ _ =>
      destruct (getMemoWithDetails_resources (H:=platform) db0 1 v)
        as (Hlist & _ & Htags); [reflexivity|]
  end.
  split; [by rewrite Hlist|]. apply Htags. decide_by_evaluation.
Defined.

(** The name of the first resource in the view of memo 1 resolves to 7. *)
Lemma view_name_resolves_witness :
  lookup_ref db0 (ref "resources/abc123") = Some 7.
Proof.
  destruct (getMemoWithDetails (H:=platform) db0 1) as [v|] eqn:Hv;
    [|by vm_compute in Hv].
  pose proof (view_name_resolves (H:=platform) db0 1 v) as Hall.
  vm_compute in Hv. injection Hv as <-.
  specialize (Hall ltac:(decide_by_evaluation) eq_refl).
  simpl in Hall. by apply Forall2_cons_1 in Hall as [Hfirst _].
Defined.

(** Alice sends the resources of her memo 1 back. *)
Lemma patch_with_view_resources_witness :
  ∃ w db',
    patch_memo (H:=platform) no_tags 1700100000000 (Some alice) 1
      (MkBody None None None
         (Some [ref "resources/abc123"; ref "resources/def456"])) db0
    = (JsonMemo (Some w), db')
    ∧ MemoView.resourceIdList w = [7; 8]
    ∧ associations db' 1 = [7; 8].
Proof.
  destruct (getMemoWithDetails (H:=platform) db0 1) as [v|] eqn:Hv;
    [|by vm_compute in Hv].
  destruct (patch_with_view_resources (H:=platform) no_tags 1700100000000
              alice 1
              (MkBody None None None
                 (Some [ref "resources/abc123"; ref "resources/def456"]))
              db0 memo1 v) as (w & db' & Hrun & Hlist & Hassoc);
    [decide_by_evaluation|reflexivity|by left|done|reflexivity| |].
  { vm_compute in Hv. by injection Hv as <-. }
  assert (Hids : MemoView.resourceIdList v = [7; 8])
    by (vm_compute in Hv; by injection Hv as <-).
  assert (Hne : MemoView.resources v ≠ [])
    by (vm_compute in Hv; by injection Hv as <-).
  exists w, db'. rewrite <-Hids at 1. rewrite <-Hids.
  split_and!; [done|done|by apply Hassoc].
Defined.

(** The first public memo, then the second, are the first two. *)
Lemma get_memos_pages_concat_witness :
  ∃ vs1 vs2,
    get_memos (H:=platform) (with_window 1 0 public_query) db0 = JsonMemos vs1
    ∧ get_memos (H:=platform) (with_window 1 1 public_query) db0 = JsonMemos vs2
    ∧ length vs1 = 1%nat ∧ length vs2 = 1%nat
    ∧ get_memos (H:=platform) (with_window 2 0 public_query) db0
      = JsonMemos (vs1 ++ vs2).
Proof.
  eexists _, _. split; [reflexivity|]. split; [reflexivity|].
  split; [reflexivity|]. split; [reflexivity|].
  apply (get_memos_pages_concat (H:=platform) public_query db0 1 1 0);
    [done|done|done|reflexivity|reflexivity].
Defined.

(** Memo 3 of the default listing, fetched by nobody. *)
Lemma get_memos_then_get_witness :
  ∃ vs v, get_memos (H:=platform) (MkListQuery None None None None None None)
            db0 = JsonMemos vs
          ∧ Some v ∈ vs ∧ MemoView.id v = 3
          ∧ get_memo (H:=platform) None 3 db0 = JsonMemo (Some v).
Proof.
  destruct (getMemoWithDetails (H:=platform) db0 3) as [v|] eqn:Hv;
    [|by vm_compute in Hv].
  assert (Hid : MemoView.id v = 3) by (vm_compute in Hv; by injection Hv as <-).
  eexists _, v. split; [reflexivity|].
  assert (Hin : Some v ∈ [getMemoWithDetails (H:=platform) db0 2;
                          getMemoWithDetails (H:=platform) db0 3]).
  { rewrite Hv. set_solver. }
  split; [exact Hin|]. split; [done|].
  destruct (get_memos_then_get (H:=platform)
              (MkListQuery None None None None None None) db0
              [getMemoWithDetails (H:=platform) db0 2;
               getMemoWithDetails (H:=platform) db0 3] None v)
    as [_ Hget]; [reflexivity|exact Hin|].
  rewrite <-Hid. by apply Hget.
Defined.

(** Alice's memos with the tag "world". *)
Lemma get_memos_tag_witness :
  ∃ v, get_memos (H:=platform)
         (MkListQuery None (Some "1") (Some "world") None None None) db0
       = JsonMemos [Some v]
       ∧ MemoView.id v = 1 ∧ "world" ∈ MemoView.tags v.
Proof.
  destruct (getMemoWithDetails (H:=platform) db0 1) as [v|] eqn:Hv;
    [|by vm_compute in Hv].
  assert (Hid : MemoView.id v = 1) by (vm_compute in Hv; by injection Hv as <-).
  assert (Hrun : get_memos (H:=platform)
            (MkListQuery None (Some "1") (Some "world") None None None) db0
          = JsonMemos [Some v]).
  { rewrite <-Hv. reflexivity. }
  exists v. split_and!; [done|done|].
  apply (get_memos_tag (H:=platform)
           (MkListQuery None (Some "1") (Some "world") None None None) db0
           [Some v] "world" v); [reflexivity|done|set_solver].
Defined.

(** The listing with [visibility=PRIVATE] and [limit=1] shows alice's
    private memo 1, in a store of four memos. *)
Lemma get_memos_visibility_witness :
  ∃ ws v, get_memos (H:=platform)
            (MkListQuery None None None (Some "PRIVATE") (Some 1) None) db0
          = JsonMemos (Some <$> ws)
          ∧ v ∈ ws ∧ view_of_row 1 memo1 v.
Proof.
  destruct (get_memos_visibility (H:=platform)
              (MkListQuery None None None (Some "PRIVATE") (Some 1) None) db0
              "PRIVATE") as (ws & Heq & _ & all & Hnd & Hall & _ & _ & Hcomplete);
    [reflexivity|].
  destruct (Hcomplete ltac:(done)) with (i := 1) (m := memo1)
    as (v & Hv & Hview).
  - right.
    pose proof (NoDup_length_filter
                  (λ row : Z * Memo.row, Memo.visibility row.2 = "PRIVATE")
                  all (map_to_list (memo db0)) Hnd) as Hlen.
    assert (Hcount :
      length (filter (λ row : Z * Memo.row, Memo.visibility row.2 = "PRIVATE")
                     (map_to_list (memo db0))) = 1%nat)
      by (vm_compute; reflexivity).
    rewrite Hcount in Hlen. simpl.
    apply (inj_le _ 1), Hlen.
    intros [i m] (Hm & _ & Hvis & _)%Hall.
    split; [by apply elem_of_map_to_list|done].
  - apply Hall. split_and!; [reflexivity|by eexists|reflexivity..|done|done].
  - by exists ws, v.
Defined.

(** A HOST without a user row rewrites the content of memo 1: the tag
    index stays as it was.  Alice does the same: the synchronizer runs
    with her id.  A HOST whose user row has the id 0 does the same: the
    tag index stays as it was. *)
Lemma tag_index_after_witness :
  let body := MkBody (Some "no more tags") None None None in
  (∃ v db',
      patch_memo (H:=platform) content_tag 1700100000000 (Some stray_host) 1
                 body db0 = (JsonMemo v, db')
      ∧ Memo.content <$> memo db' !! 1 = Some "no more tags"
      ∧ tag db' = tag db0 ∧ memo_tag db' = memo_tag db0)
  ∧ (∃ v db',
      patch_memo (H:=platform) content_tag 1700100000000 (Some alice) 1
                 body db0 = (JsonMemo v, db')
      ∧ (tag db', memo_tag db')
        = content_tag (tag db0, memo_tag db0) 1 1 "no more tags")
  ∧ (∃ v db',
      patch_memo (H:=platform) content_tag 1700100000000 (Some zero_host) 1
                 body db_zero = (JsonMemo v, db')
      ∧ Memo.content <$> memo db' !! 1 = Some "no more tags"
      ∧ tag db' = tag db_zero ∧ memo_tag db' = memo_tag db_zero).
Proof.
  intros body. split_and!.
  - eexists _, _. split; [reflexivity|]. split; [reflexivity|].
    match goal with
    | |- tag ?db' = _ ∧ _ =>
        destruct (tag_index_after (H:=platform) content_tag 1700100000000 ""
                    (Some stray_host) 1 body db0
                    (getMemoWithDetails (H:=platform) db' 1) db')
          as [_ Hpatch]
    end.
    destruct Hpatch as (p & Hp & _ & _ & _ & Hnone & _); [reflexivity|].
    injection Hp as <-. by apply Hnone.
  - eexists _, _. split; [reflexivity|].
    match goal with
    | |- (tag ?db', _) = _ =>
        destruct (tag_index_after (H:=platform) content_tag 1700100000000 ""
                    (Some alice) 1 body db0
                    (getMemoWithDetails (H:=platform) db' 1) db')
          as [_ Hpatch]
    end.
    destruct Hpatch as (p & Hp & _ & _ & _ & _ & _ & Hsync); [reflexivity|].
    injection Hp as <-. by apply (Hsync "no more tags" 1).
  - eexists _, _. split; [reflexivity|]. split; [reflexivity|].
    match goal with
    | |- tag ?db' = _ ∧ _ =>
        destruct (tag_index_after (H:=platform) content_tag 1700100000000 ""
                    (Some zero_host) 1 body db_zero
                    (getMemoWithDetails (H:=platform) db' 1) db')
          as [_ Hpatch]
    end.
    destruct Hpatch as (p & Hp & _ & _ & _ & _ & Hzero & _); [reflexivity|].
    injection Hp as <-. by apply Hzero.
Defined.

(** The total of the sample store is 2; it is 1 after bob has deleted his
    public memo 3. *)
Lemma get_stats_total_after_witness :
  let db' := (delete_memo 1700100000000 (Some bob) 3 db0).2 in
  ∃ hist total' hist',
    get_stats (H:=platform) 1700100000000 db0 = JsonStats 2 hist
    ∧ get_stats (H:=platform) 1700100000000 db' = JsonStats total' hist'
    ∧ total' = 1.
Proof.
  intros db'.
  assert (Hs : get_stats (H:=platform) 1700100000000 db0
               = JsonStats 2 [(1700006400, 1); (1699920000, 1)])
    by reflexivity.
  assert (Hs' : ∃ t h, get_stats (H:=platform) 1700100000000 db'
                       = JsonStats t h) by (vm_compute; by eexists _, _).
  destruct Hs' as (t & h & Hs').
  destruct (get_stats_total_after (H:=platform) no_tags
              1700100000000 1700100000000 "" (Some bob) 3 new_body db0 db'
              2 t _ h Hs Hs') as (_ & Hdel & _).
  exists [(1700006400, 1); (1699920000, 1)], t, h.
  split_and!; [done|done|].
  rewrite (Hdel 1700100000000 memo3); reflexivity.
Defined.

(** Alice creates a memo with the raw ids 8, 99 and 8: all three are
    stored, and the view shows the two that are ids of resources. *)
Lemma post_memo_raw_ids_witness :
  ∃ w db',
    post_memo (H:=platform) content_tag 1700100000000 "m-6" (Some alice)
              (MkBody (Some "raw") None (Some [8; 99; 8]) None)
              (run (H:=platform) content_tag some_requests db0)
    = (JsonMemo (Some w), db')
    ∧ associations db' (MemoView.id w) = [8; 99; 8]
    ∧ MemoView.resourceIdList w = [8; 8].
Proof.
  assert (Hr : ∃ w db',
    post_memo (H:=platform) content_tag 1700100000000 "m-6" (Some alice)
              (MkBody (Some "raw") None (Some [8; 99; 8]) None)
              (run (H:=platform) content_tag some_requests db0)
    = (JsonMemo (Some w), db')) by (vm_compute; by eexists _, _).
  destruct Hr as (w & db' & Hr).
  destruct (post_memo_raw_ids (H:=platform) content_tag some_requests db0
              1700100000000 "m-6" (Some alice)
              (MkBody (Some "raw") None (Some [8; 99; 8]) None)
              [8; 99; 8] w db')
    as (_ & _ & Hassoc & Hlist);
    [decide_by_evaluation|reflexivity|reflexivity|exact Hr|].
  exists w, db'. split_and!; [done|done|].
  rewrite Hlist. vm_compute. reflexivity.
Defined.
